(** * Sevpy: the staged-install pipeline and the installed-version registry

    A shallow embedding of [libs/installer.py], [libs/path_utils.py] and the
    registry functions of [sevpy.py].  The file system is an explicit finite
    map from absolute paths to nodes; what the operating system decides on
    its own (permission denials, what a child process prints, where a
    symbolic link leads) is an explicit environment record.  Python
    exceptions are a three-way result: a value, an [InstallAbort], or any
    other exception. *)

From Stdlib Require Import String Ascii ZArith Lia.
From stdpp Require Import gmap strings list fin_maps sorting pretty.

Local Open Scope stdpp_scope.

(** ** Python string helpers *)

Module PyStr.

(** [s.startswith(pre)] *)
Definition startswith (s pre : string) : bool := String.prefix pre s.

(** [needle in hay] *)
Fixpoint contains (needle hay : string) : bool :=
  String.prefix needle hay ||
  match hay with
  | EmptyString => false
  | String _ hay' => contains needle hay'
  end.

(** [s.endswith(suf)] *)
Definition endswith (s suf : string) : bool :=
  String.prefix (String.rev suf) (String.rev s).

(** A string is the UTF-8 text of a Python [str].  [str.isspace] on the
    characters below 128: space, tab to carriage return, and the four
    separators U+001C to U+001F. *)
Definition is_space (c : ascii) : bool :=
  let n := nat_of_ascii c in
  ((n =? 32) || ((9 <=? n) && (n <=? 13)) || ((28 <=? n) && (n <=? 31)))%nat.

(** The other characters [str.isspace] accepts, by their UTF-8 bytes:
    U+0085 and U+00A0 in two bytes; U+1680, U+2000 to U+200A, U+2028,
    U+2029, U+202F, U+205F and U+3000 in three. *)
Definition is_space2 (a b : ascii) : bool :=
  ((nat_of_ascii a =? 194) && ((nat_of_ascii b =? 133) || (nat_of_ascii b =? 160)))%nat.

Definition is_space3 (a b c : ascii) : bool :=
  let '(x, y, z) := (nat_of_ascii a, nat_of_ascii b, nat_of_ascii c) in
  (((x =? 225) && (y =? 154) && (z =? 128))
   || ((x =? 226) && (y =? 128) &&
       (((128 <=? z) && (z <=? 138)) || (z =? 168) || (z =? 169) || (z =? 175)))
   || ((x =? 226) && (y =? 129) && (z =? 159))
   || ((x =? 227) && (y =? 128) && (z =? 128)))%nat.

(** White space dropped from the front of [s]; with [backwards], [s] is a
    text read from its end, so the bytes of a character come last first. *)
Fixpoint drop_spaces (backwards : bool) (s : string) : string :=
  match s with
  | EmptyString => EmptyString
  | String a s1 =>
      if is_space a then drop_spaces backwards s1
      else
        match s1 with
        | EmptyString => s
        | String b s2 =>
            if (if backwards then is_space2 b a else is_space2 a b)
            then drop_spaces backwards s2
            else
              match s2 with
              | EmptyString => s
              | String c s3 =>
                  if (if backwards then is_space3 c b a else is_space3 a b c)
                  then drop_spaces backwards s3
                  else s
              end
        end
  end.

Definition lstrip (s : string) : string := drop_spaces false s.

Definition rstrip (s : string) : string :=
  String.rev (drop_spaces true (String.rev s)).

(** [s.strip()] *)
Definition strip (s : string) : string := rstrip (lstrip s).

(** [a or b] on strings: the empty string is falsy. *)
Definition or_else (a b : string) : string :=
  match a with EmptyString => b | _ => a end.

(** [s.removeprefix(pre)] *)
Definition removeprefix (s pre : string) : string :=
  if String.prefix pre s
  then String.substring (String.length pre) (String.length s - String.length pre) s
  else s.

(** [s.split(sep)] for a one-character separator. *)
Fixpoint split_go (sep : ascii) (cur : string) (s : string) : list string :=
  match s with
  | EmptyString => [String.rev cur]
  | String c s' =>
      if Ascii.eqb c sep then String.rev cur :: split_go sep EmptyString s'
      else split_go sep (String c cur) s'
  end.
Definition split (s : string) (sep : ascii) : list string :=
  split_go sep EmptyString s.

(** [sep.join(parts)] *)
Definition join (sep : string) (parts : list string) : string :=
  String.concat sep parts.

End PyStr.

(** ** Paths

    A [pathlib.Path] that is absolute and normalised is its list of
    components.  [p / name] appends a component; [str(p)] puts a slash in
    front of every component. *)

Abbreviation path := (list string).

Definition path_str (p : path) : string :=
  match p with
  | [] => "/"
  | _ => String.concat EmptyString ((λ c, "/" +:+ c) <$> p)
  end.

Definition child (p : path) (c : string) : path := p ++ [c].
Notation "p // name" := (child p name) (at level 40, left associativity).

(** [p.parent]; the root is its own parent. *)
Definition parent (p : path) : path := removelast p.

(** [p.name] *)
Definition basename (p : path) : string := List.last p EmptyString.

(** [p.relative_to("/")] of an absolute path keeps every component, so
    [a / b.relative_to("/")] is the concatenation. *)
Definition nest (a b : path) : path := a ++ b.

(** Order on paths that [sorted] uses: component lists compared
    lexicographically, components compared as strings. *)
Fixpoint path_compare (p q : path) : comparison :=
  match p, q with
  | [], [] => Eq
  | [], _ :: _ => Lt
  | _ :: _, [] => Gt
  | a :: p', b :: q' =>
      match String.compare a b with
      | Eq => path_compare p' q'
      | c => c
      end
  end.

Definition path_le (p q : path) : Prop := path_compare p q ≠ Gt.

Global Instance path_le_dec : RelDecision path_le.
Proof. intros p q. unfold path_le. apply _. Defined.

Definition sorted (l : list path) : list path := merge_sort path_le l.

(** ** The file system and the process state

    A node is a regular file with its text and its executable bit, a
    directory, or a symbolic link.  A link records what [stat] sees through
    it ([None] when it dangles); where it leads is the environment's
    [resolve].  Entries are keyed by the path they are stored at, so nothing
    is ever stored beneath a link. *)

Inductive kind := KFile | KDir.

Inductive node :=
| File (data : string)
| Dir
| Link (through : option kind).

Global Instance kind_eq_dec : EqDecision kind.
Proof. solve_decision. Defined.
Global Instance node_eq_dec : EqDecision node.
Proof. solve_decision. Defined.

Abbreviation fs := (gmap path node).

(** The state threaded through every operation: the file system and the
    build commands run so far through [_run_logged], most recent first. *)
Record world := World { files : fs; ran : list (list string) }.

(** Python exceptions other than [InstallAbort]. *)
Inductive exn_class :=
| PermissionError | FileNotFoundError | FileExistsError | NotADirectoryError
| IsADirectoryError | OSError | CalledProcessError | TimeoutExpired
| RuntimeError | ValueError | KeyboardInterrupt.

Global Instance exn_class_eq_dec : EqDecision exn_class.
Proof. solve_decision. Defined.

Record exn := Exn { exn_cls : exn_class; exn_msg : string }.

(** [except Exception] catches everything but [KeyboardInterrupt]. *)
Definition is_Exception (e : exn) : bool :=
  bool_decide (exn_cls e ≠ KeyboardInterrupt).

Inductive result (A : Type) :=
| Ok (a : A)
| Abort (reason : string)
| Raise (e : exn).
Arguments Ok {A} a.
Arguments Abort {A} reason.
Arguments Raise {A} e.

(** File-system requests the operating system may refuse. *)
Inductive fsop :=
| OpMkdir (p : path)
| OpRename (src dst : path)
| OpWrite (p : path)
| OpTouch (p : path)
| OpUnlink (p : path).

Global Instance fsop_eq_dec : EqDecision fsop.
Proof. solve_decision. Defined.

(** What a captured child process did: it ran to an exit status, or
    [subprocess.run] raised before that (the program cannot be executed, or
    it outlived the timeout). *)
Inductive spawned :=
| Exited (code : Z) (out err : string)
| SpawnFailed (timed_out : bool) (msg : string).

(** What [Path.resolve] did. *)
Inductive resolved :=
| Resolved (real : path)
| ResolveFailed (e : exn).

(** The environment: every answer the program gets from outside itself. *)
Record Env := {
  (** the error, if any, with which the system refuses a request *)
  refuses : fsop → option exn;
  (** [os.access(p, os.X_OK)] *)
  x_ok : path → bool;
  (** [subprocess.run(argv, stdout=PIPE, stderr=PIPE, text=True)] *)
  spawn : list string → spawned;
  (** a build step run with its output sent to a log: the exit status, or
      the exception [subprocess.run] raised, and the file system it left *)
  build : list string → path → fs → (Z + exn) * fs;
  (** [Path.resolve()] *)
  resolve : path → resolved;
  (** [shutil.which(name)] *)
  which : string → option path;
  (** [str(e)] of the [CalledProcessError] for a command and the exit
      status it returned *)
  exit_status_text : list string → Z → string;
  (** [os.cpu_count()] *)
  cpu_count : option nat;
}.

(** ** The state-and-exception monad *)

Definition M (A : Type) : Type := world → result A * world.

Definition ret {A} (a : A) : M A := λ w, (Ok a, w).
Definition bind {A B} (m : M A) (k : A → M B) : M B :=
  λ w, match m w with
       | (Ok a, w') => k a w'
       | (Abort r, w') => (Abort r, w')
       | (Raise e, w') => (Raise e, w')
       end.
Definition abort {A} (reason : string) : M A := λ w, (Abort reason, w).
Definition raise {A} (e : exn) : M A := λ w, (Raise e, w).
Definition gets {A} (f : world → A) : M A := λ w, (Ok (f w), w).
Definition modify_files (f : fs → fs) : M unit :=
  λ w, (Ok tt, World (f (files w)) (ran w)).

(** [try: m except <handled> as e: h e].  No [try] body of the program
    raises [InstallAbort] itself, so an abort is passed through. *)
Definition try_except {A} (m : M A) (handled : exn → bool) (h : exn → M A) : M A :=
  λ w, match m w with
       | (Raise e, w') => if handled e then h e w' else (Raise e, w')
       | r => r
       end.

Declare Scope py_scope.
Delimit Scope py_scope with py.
Notation "'let*' x ':=' m 'in' k" := (bind m (λ x, k))
  (at level 10, x name, m at level 100, k at level 200) : py_scope.
Notation "m '>>' k" := (bind m (λ _, k))
  (at level 100, right associativity) : py_scope.
Local Open Scope py_scope.

(** [if c: raise InstallAbort(reason)] *)
Definition abort_if (c : bool) (reason : string) : M unit :=
  if c then abort reason else ret tt.

(** [for x in xs: body x], stopping at the first exception. *)
Fixpoint for_each {A} (xs : list A) (body : A → M unit) : M unit :=
  match xs with
  | [] => ret tt
  | x :: xs' => body x >> for_each xs' body
  end.

(** ** Operating-system primitives over the model *)

(** [k] is [p] or lies beneath it. *)
Abbreviation under p k := (p `prefix_of` k) (only parsing).

(** What [stat] reports: links are followed. *)
Definition stat (m : fs) (p : path) : option kind :=
  match m !! p with
  | Some (File _) => Some KFile
  | Some Dir => Some KDir
  | Some (Link through) => through
  | None => None
  end.

(** The keys found directly in directory [p], as [os.scandir] lists them. *)
Definition children (m : fs) (p : path) : list path :=
  filter (λ k, k ≠ [] ∧ parent k = p) (map_to_list m).*1.

(** Some link lies strictly between [p] and [k]: a recursive walk from [p]
    does not descend through it. *)
Definition behind_link (m : fs) (p k : path) : Prop :=
  Exists (λ q, under p q ∧ q ≠ p ∧ under q k ∧ q ≠ k ∧
               ∃ t, m !! q = Some (Link t))
         (map_to_list m).*1.

Global Instance is_link_dec (m : fs) (q : path) :
  Decision (∃ t, m !! q = Some (Link t)).
Proof.
  destruct (m !! q) as [[| |t]|]; [right|right|left|right];
    try (intros [? ?]; congruence). by exists t.
Defined.

Global Instance behind_link_dec m p k : Decision (behind_link m p k).
Proof. unfold behind_link. apply _. Defined.

(** [p.rglob("*")] started at a directory proper: every entry beneath
    [p], links included but not followed.  What a directory holds is stored
    at that directory, so a walk started at a link to it finds nothing here
    beneath the link. *)
Definition rglob (m : fs) (p : path) : list path :=
  filter (λ k, under p k ∧ k ≠ p ∧ ¬ behind_link m p k) (map_to_list m).*1.

(** Moving the subtree at [src] to [dst]: what a successful [rename] of a
    directory, file or link leaves behind. *)
Definition relocate (src dst k : path) : path := dst ++ drop (length src) k.

Definition move_tree (src dst : path) (m : fs) : fs :=
  list_to_map (prod_map (relocate src dst) id <$>
               map_to_list (filter (λ kv, under src kv.1) m))
  ∪ filter (λ kv, ¬ under src kv.1 ∧ ¬ under dst kv.1) m.

(** Entries of the subtree at [p] that the system refuses to remove. *)
Definition undeletable (refuse : fsop → option exn) (m : fs) (p : path) : list path :=
  filter (λ k, under p k ∧ is_Some (refuse (OpUnlink k))) (map_to_list m).*1.

(** Removal of the subtree at [p], bottom-up: an entry that cannot be
    removed stays, and so does every directory above it. *)
Definition prune (refuse : fsop → option exn) (m : fs) (p : path) : fs :=
  filter (λ kv, ¬ under p kv.1 ∨
                Exists (λ b, under kv.1 b) (undeletable refuse m p)) m.

Section Primitives.
Context (E : Env).

Definition get_files : M fs := gets files.

(** [p.exists()], [p.is_dir()], [p.is_file()], [p.is_symlink()] *)
Definition exists_ (p : path) : M bool :=
  gets (λ w, bool_decide (is_Some (stat (files w) p))).
Definition is_dir (p : path) : M bool :=
  gets (λ w, bool_decide (stat (files w) p = Some KDir)).
Definition is_file (p : path) : M bool :=
  gets (λ w, bool_decide (stat (files w) p = Some KFile)).
Definition is_symlink (p : path) : M bool :=
  gets (λ w, bool_decide (∃ t, files w !! p = Some (Link t))).

(** The parent of a path to be created must be a directory. *)
Definition need_parent_dir (p : path) : M unit :=
  λ w, match stat (files w) (parent p) with
       | Some KDir => (Ok tt, w)
       | Some KFile => (Raise (Exn NotADirectoryError (path_str p)), w)
       | None => (Raise (Exn FileNotFoundError (path_str p)), w)
       end.

(** [os.mkdir(p)] *)
Definition os_mkdir (p : path) : M unit :=
  λ w, match files w !! p with
       | Some _ => (Raise (Exn FileExistsError (path_str p)), w)
       | None =>
           (need_parent_dir p >>
            match refuses E (OpMkdir p) with
            | Some e => raise e
            | None => modify_files (insert p Dir)
            end) w
       end.

(** [p.mkdir(parents=..., exist_ok=...)], as [pathlib] writes it: try the
    directory itself; on [FileNotFoundError] make the parents and try again;
    on any other [OSError] give up unless [exist_ok] and the directory is
    there.  [fuel] bounds the walk towards the root. *)
Fixpoint mkdir_go (fuel : nat) (p : path) (parents exist_ok : bool) : M unit :=
  try_except (os_mkdir p) (λ _, true) (λ e,
    if bool_decide (exn_cls e = FileNotFoundError) then
      if negb parents || bool_decide (parent p = p) then raise e
      else match fuel with
           | 0 => raise e
           | S n => mkdir_go n (parent p) true true >>
                    mkdir_go n p false exist_ok
           end
    else
      let* d := is_dir p in
      if exist_ok && d then ret tt else raise e).

Definition mkdir (p : path) (parents exist_ok : bool) : M unit :=
  mkdir_go (length p) p parents exist_ok.

(** [src.rename(dst)]: one request to the system, which either moves the
    whole subtree or changes nothing. *)
Definition os_rename (src dst : path) : M unit :=
  λ w,
    let m := files w in
    match refuses E (OpRename src dst), m !! src with
    | Some e, _ => (Raise e, w)
    | None, None => (Raise (Exn FileNotFoundError (path_str src)), w)
    | None, Some n =>
        if bool_decide (src = dst) then (Ok tt, w)
        else if bool_decide (under src dst) then
          (Raise (Exn OSError "Invalid argument"), w)
        else
          (need_parent_dir dst >>
           match n, m !! dst with
           | _, None => modify_files (move_tree src dst)
           | Dir, Some Dir =>
               if bool_decide (map_Exists (λ k _, under dst k ∧ k ≠ dst) m)
               then raise (Exn OSError "Directory not empty")
               else modify_files (move_tree src dst)
           | Dir, Some _ => raise (Exn NotADirectoryError (path_str dst))
           | _, Some Dir => raise (Exn IsADirectoryError (path_str dst))
           | _, Some _ => modify_files (move_tree src dst)
           end) w
    end.

(** [p.write_text(data)] *)
Definition write_text (p : path) (data : string) : M unit :=
  match refuses E (OpWrite p) with
  | Some e => raise e
  | None =>
      need_parent_dir p >>
      let* m := get_files in
      match m !! p with
      | Some Dir | Some (Link (Some KDir)) =>
          raise (Exn IsADirectoryError (path_str p))
      | Some (Link _) =>
          match resolve E p with
          | Resolved q => modify_files (insert q (File data))
          | ResolveFailed e => raise e
          end
      | _ => modify_files (insert p (File data))
      end
  end.

(** [p.touch()]: an entry that [stat] finds is left as it is; a missing
    one is created by [os.open] with [O_CREAT], which goes through a
    dangling link and creates the file the link leads to. *)
Definition touch (p : path) : M unit :=
  match refuses E (OpTouch p) with
  | Some e => raise e
  | None =>
      need_parent_dir p >>
      let* m := get_files in
      match m !! p with
      | None => modify_files (insert p (File EmptyString))
      | Some (Link None) =>
          match resolve E p with
          | Resolved q =>
              match m !! q with
              | None =>
                  need_parent_dir q >>
                  modify_files (λ m, <[p := Link (Some KFile)]>
                                       (<[q := File EmptyString]> m))
              | Some _ => ret tt
              end
          | ResolveFailed e => raise e
          end
      | Some _ => ret tt
      end
  end.

(** [p.unlink()] *)
Definition unlink (p : path) : M unit :=
  match refuses E (OpUnlink p) with
  | Some e => raise e
  | None =>
      let* m := get_files in
      match m !! p with
      | None => raise (Exn FileNotFoundError (path_str p))
      | Some Dir => raise (Exn IsADirectoryError (path_str p))
      | Some _ => modify_files (delete p)
      end
  end.

(** [shutil.rmtree(p)].  It refuses a link, a missing path and a plain
    file; a directory it removes with all beneath it.  When the system
    refuses an entry it raises; how much else is gone by then depends on
    the order of the listing, and is taken here to be all that can go. *)
Definition rmtree (p : path) : M unit :=
  let* m := get_files in
  match m !! p with
  | None => raise (Exn FileNotFoundError (path_str p))
  | Some (Link _) => raise (Exn OSError "Cannot call rmtree on a symbolic link")
  | Some (File _) => raise (Exn NotADirectoryError (path_str p))
  | Some Dir =>
      modify_files (λ m, prune (refuses E) m p) >>
      match undeletable (refuses E) m p with
      | [] => ret tt
      | b :: _ => raise (from_option id (Exn OSError EmptyString) (refuses E (OpUnlink b)))
      end
  end.

(** [shutil.rmtree(p, ignore_errors=True)] *)
Definition rmtree_ignore_errors (p : path) : M unit :=
  try_except (rmtree p) (λ _, true) (λ _, ret tt).

(** [sorted(d.glob(prefix + "*"))] for a pattern that is a literal prefix
    followed by a star. *)
Definition glob_prefix (d : path) (pre : string) : M (list path) :=
  gets (λ w, filter (λ k, PyStr.startswith (basename k) pre = true)
                    (children (files w) d)).

End Primitives.

(** ** [libs/path_utils.py] *)

(** The [pattern] argument of [find_files]: an exact file name, searched as
    an escaped regular expression (so: contained in the name), or a compiled
    regular expression, given by its [search]. *)
Inductive pattern :=
| Literal (s : string)
| Compiled (search : string → bool).

Definition regex_search (pat : pattern) (s : string) : bool :=
  match pat with
  | Literal lit => PyStr.contains lit s
  | Compiled search => search s
  end.

Section PathUtils.
Context (E : Env).

Fixpoint find_files_loop (paths : list path) (regex : pattern)
    (follow_symlinks : bool) (results : list path) : M (list path) :=
  match paths with
  | [] => ret results
  | p :: rest =>
      let* l := is_symlink p in
      if negb follow_symlinks && l then
        find_files_loop rest regex follow_symlinks results
      else
        let* f := is_file p in
        if f && regex_search regex (basename p) then
          find_files_loop rest regex follow_symlinks (results ++ [p])
        else find_files_loop rest regex follow_symlinks results
  end.

Definition find_files (search_dir : path) (pat : pattern)
    (follow_symlinks : bool) : M (list path) :=
  let* d := is_dir search_dir in
  if negb d then
    raise (Exn ValueError ("Not a directory: " +:+ path_str search_dir))
  else
    let* m := get_files in
    find_files_loop (rglob m search_dir) pat follow_symlinks [].

End PathUtils.

(** ** [libs/installer.py] *)

Definition nl : string := String (ascii_of_nat 10) EmptyString.

(** The fields [Installer.__init__] computes. *)
Record Installer := {
  version : string;
  prefix_name : string;
  source_directory : path;
  install_global_dir : path;
  install_version_dir : path;
  staging_dir : path;
  log_dir : path;
  manifest_path : path;
}.

(** [home] is [Path.home()]; the source directory is taken as already
    resolved. *)
Definition new_installer (home python_source_directory : path)
    (version : string) : Installer :=
  let prefix_name := "python-" +:+ version in
  let install_global_dir := home // ".local" // "opt" in
  let install_version_dir := install_global_dir // prefix_name in
  {| version := version;
     prefix_name := prefix_name;
     source_directory := python_source_directory;
     install_global_dir := install_global_dir;
     install_version_dir := install_version_dir;
     staging_dir := home // ".cache" // "python-installer" // "stage" // prefix_name;
     log_dir := home // ".cache" // "sevpy" // "logs" // prefix_name;
     manifest_path := install_version_dir // ".install-manifest" |}.

(** [^_tkinter.*\.so] matched against all of [s]: [s] starts with
    [_tkinter] and ends with [.so], the two not overlapping, and what lies
    between them holds no line feed, which [.] does not match. *)
Definition tk_match (s : string) : bool :=
  PyStr.startswith s "_tkinter" && PyStr.endswith s ".so"
  && (11 <=? String.length s)%nat
  && negb (PyStr.contains nl (String.substring 8 (String.length s - 11) s)).

(** [s] without the line feed it ends with, if it ends with one. *)
Definition chop_line_feed (s : string) : option string :=
  match String.rev s with
  | String c r => if Ascii.eqb c (ascii_of_nat 10) then Some (String.rev r) else None
  | EmptyString => None
  end.

(** [re.compile(r"^_tkinter.*\.so$").search]: [^] matches at the start of
    the name only; [$] matches at its end, and also just before a line feed
    that ends it. *)
Definition tk_regex (s : string) : bool :=
  tk_match s ||
  match chop_line_feed s with
  | Some s' => tk_match s'
  | None => false
  end.

Section InstallerMethods.
Context (E : Env).

Definition is_class (c : exn_class) (e : exn) : bool :=
  bool_decide (exn_cls e = c).

(** The directory creations at the end of [__init__]. *)
Definition init (home python_source_directory : path) (version : string)
    : M Installer :=
  let self := new_installer home python_source_directory version in
  mkdir E (log_dir self) true true >>
  try_except (mkdir E (install_global_dir self) true true)
    (is_class PermissionError)
    (λ _, abort ("Installation root not writable: " +:+
                 path_str (install_global_dir self))) >>
  ret self.

Definition check_writable_dir (self : Installer) (dir_path : path) : M unit :=
  let* d := is_dir dir_path in
  abort_if (negb d) ("Not a directory: " +:+ path_str dir_path) >>
  let test_file := dir_path // ".write_test" in
  try_except (touch E test_file >> unlink E test_file)
    (is_class PermissionError)
    (λ _, abort ("Directory not writable: " +:+ path_str dir_path)).

Definition validate_source_tree (self : Installer) : M unit :=
  let* d := is_dir (source_directory self) in
  abort_if (negb d) "Python source directory does not exist" >>
  let configure := source_directory self // "configure" in
  let* f := is_file configure in
  abort_if (negb f) "Invalid Python source tree (missing configure)".

Definition check_prefix_collision (self : Installer) : M unit :=
  let* ex := exists_ (install_version_dir self) in
  if ex then
    let* man := exists_ (manifest_path self) in
    if man then
      abort ("Python " +:+ version self +:+ " is already installed at " +:+
             path_str (install_version_dir self))
    else
      abort ("Installation directory exists but is unmanaged: " +:+
             path_str (install_version_dir self))
  else ret tt.

Definition pre_install_step (self : Installer) : M unit :=
  validate_source_tree self >>
  check_writable_dir self (install_global_dir self) >>
  check_prefix_collision self.

(** [subprocess.run(cmd, cwd=cwd, stdout=log, stderr=log, check=True)] *)
Definition run_build (cmd : list string) (cwd : path) : M unit :=
  λ w, let '(r, m') := build E cmd cwd (files w) in
       let w' := World m' (cmd :: ran w) in
       match r with
       | inl 0%Z => (Ok tt, w')
       | inl code => (Raise (Exn CalledProcessError (exit_status_text E cmd code)), w')
       | inr e => (Raise e, w')
       end.

Definition _run_logged (self : Installer) (cmd : list string) (cwd : path)
    (log_name : string) : M unit :=
  let log_path := log_dir self // log_name in
  try_except
    (try_except (write_text E log_path EmptyString >> run_build cmd cwd)
       (is_class CalledProcessError)
       (λ _, abort ("Command failed: " +:+ PyStr.join " " cmd +:+ nl +:+
                    "See log: " +:+ path_str log_path)))
    (is_class KeyboardInterrupt)
    (λ _, abort ("Interrupted by user" +:+ nl +:+
                 "Partial log: " +:+ path_str log_path)).

Definition configure (self : Installer) : M unit :=
  pre_install_step self >>
  let bindir := install_version_dir self // "bin" in
  let libdir := install_version_dir self // "lib" in
  let incdir := install_version_dir self // "include" in
  let mandir := install_version_dir self // "share" // "man" in
  let cmd := [ "./configure";
               "--prefix=" +:+ path_str (install_version_dir self);
               "--bindir=" +:+ path_str bindir;
               "--libdir=" +:+ path_str libdir;
               "--includedir=" +:+ path_str incdir;
               "--mandir=" +:+ path_str mandir;
               "--with-ensurepip=install" ] in
  _run_logged self cmd (source_directory self) "configure.log".

Definition compile (self : Installer) : M unit :=
  let jobs := match cpu_count E with Some (S n) => S n | _ => 1 end in
  _run_logged self ["make"; "-j" +:+ pretty jobs] (source_directory self)
    "build.log".

Definition staged_prefix (self : Installer) : path :=
  nest (staging_dir self) (install_version_dir self).

Definition staged_install (self : Installer) (enable_tk : bool) : M unit :=
  let* mk := exists_ (source_directory self // "Makefile") in
  abort_if (negb mk) "Makefile missing — did you run configure()?" >>
  let* st := exists_ (staging_dir self) in
  abort_if st ("Staging directory already exists: " +:+
               path_str (staging_dir self)) >>
  try_except (mkdir E (staging_dir self) true false)
    (is_class PermissionError)
    (λ _, abort ("Cannot create staging directory: " +:+
                 path_str (staging_dir self))) >>
  _run_logged self
    ["make"; "altinstall"; "DESTDIR=" +:+ path_str (staging_dir self)]
    (source_directory self) "install.log" >>
  if negb enable_tk then
    let* tk_modules := find_files (staged_prefix self) (Compiled tk_regex) false in
    for_each tk_modules (unlink E)
  else ret tt.

(** [subprocess.run(argv, stdout=PIPE, stderr=PIPE, text=True, check=True)]:
    the captured output, or the exception. *)
Definition run_captured (argv : list string) : M (string * string) :=
  match spawn E argv with
  | Exited 0%Z out err => ret (out, err)
  | Exited code _ _ =>
      raise (Exn CalledProcessError (exit_status_text E argv code))
  | SpawnFailed timed_out msg =>
      raise (Exn (if timed_out then TimeoutExpired else OSError) msg)
  end.

(** [try: result = run(...) except Exception: <None>] *)
Definition try_run (argv : list string) : M (exn + string * string) :=
  try_except (let* r := run_captured argv in ret (inr r)) is_Exception
    (λ e, ret (inl e)).

Fixpoint find_python_binary_loop (self : Installer) (candidates : list path)
    : M path :=
  match candidates with
  | [] => abort "No valid Python executable found in staged install"
  | candidate :: rest =>
      if negb (x_ok E candidate) then find_python_binary_loop self rest
      else
        let* result := try_run [path_str candidate; "-V"] in
        match result with
        | inl _ => find_python_binary_loop self rest
        | inr (stdout, stderr) =>
            let version_output :=
              PyStr.or_else (PyStr.strip stdout) (PyStr.strip stderr) in
            if PyStr.contains (version self) version_output then ret candidate
            else find_python_binary_loop self rest
        end
  end.

Definition find_python_binary (self : Installer) (staged_prefix : path)
    : M path :=
  let bin_dir := staged_prefix // "bin" in
  let* ex := exists_ bin_dir in
  abort_if (negb ex) ("Missing bin directory: " +:+ path_str bin_dir) >>
  let* found := glob_prefix bin_dir "python3." in
  let candidates := sorted found in
  match candidates with
  | [] => abort "No python3.x executable found in staged install"
  | _ => find_python_binary_loop self candidates
  end.

(** [path.resolve()] *)
Definition resolve_path (p : path) : M path :=
  match resolve E p with
  | Resolved real => ret real
  | ResolveFailed e => raise e
  end.

(** The body of the containment loop of [verify_staging]. *)
Definition check_contained (staged_prefix p : path) : M unit :=
  let* resolved :=
    try_except (resolve_path p) (is_class FileNotFoundError)
      (λ _, abort ("Broken symlink: " +:+ path_str p)) in
  abort_if (negb (PyStr.startswith (path_str resolved) (path_str staged_prefix)))
    ("Path escapes install prefix: " +:+ path_str p +:+ " → " +:+
     path_str resolved).

Definition verify_staging (self : Installer) : M unit :=
  let staged_prefix := staged_prefix self in
  let* ex := exists_ staged_prefix in
  abort_if (negb ex) ("Staged prefix not found: " +:+ path_str staged_prefix) >>
  let* python_bin := find_python_binary self staged_prefix in
  let* m := get_files in
  for_each (rglob m staged_prefix) (check_contained staged_prefix).

Fixpoint manifest_entries (paths : list path) (entries : list string)
    : M (list string) :=
  match paths with
  | [] => ret entries
  | p :: rest =>
      let* f := is_file p in
      let* l := is_symlink p in
      manifest_entries rest (if f || l then entries ++ [path_str p] else entries)
  end.

Definition write_manifest (self : Installer) : M unit :=
  let* m := get_files in
  let* entries := manifest_entries (rglob m (install_version_dir self)) [] in
  try_except
    (write_text E (manifest_path self) (PyStr.join nl entries +:+ nl))
    is_Exception
    (λ e, abort ("Failed to write manifest: " +:+ exn_msg e)).

Definition commit_install (self : Installer) : M unit :=
  let staged_prefix := staged_prefix self in
  let* ex := exists_ staged_prefix in
  abort_if (negb ex) "Nothing to commit: staged prefix missing" >>
  let* taken := exists_ (install_version_dir self) in
  abort_if taken ("Install prefix already exists: " +:+
                  path_str (install_version_dir self)) >>
  try_except
    (mkdir E (parent (install_version_dir self)) true true >>
     os_rename E staged_prefix (install_version_dir self))
    is_Exception
    (λ e, abort ("Commit failed: " +:+ exn_msg e)) >>
  write_manifest self >>
  rmtree_ignore_errors E (staging_dir self).

End InstallerMethods.

(** ** The registry of [sevpy.py] *)

(** One value of the dictionary [find_installed_versions] builds. *)
Record info := {
  prefix : path;
  python : option path;
  runtime_version : option string;
  valid : bool;
  activated : bool;
  error : option string;
}.

(** [d[k] = v] on a dictionary kept in insertion order. *)
Fixpoint dict_set {V} (d : list (string * V)) (k : string) (v : V)
    : list (string * V) :=
  match d with
  | [] => [(k, v)]
  | (k', v') :: d' =>
      if String.eqb k' k then (k, v) :: d' else (k', v') :: dict_set d' k v
  end.

(** The one-line program both version probes pass to [-c]. *)
Definition version_code : string :=
  "import sys;v=sys.version_info;print(f'{v.major}.{v.minor}.{v.micro}')".

Section Registry.
Context (E : Env) (home : path).

Definition INSTALL_ROOT : path := home // ".local" // "opt".
Definition SEVPY_CACHE : path := home // ".cache" // "sevpy".
Definition INSTALLER_STAGE : path := home // ".cache" // "python-installer" // "stage".

Definition check_activated (version : string) : M bool :=
  let parts := PyStr.split version "." in
  match parts with
  | major :: minor :: more =>
      let want_patch := head more in
      match which E ("python" +:+ major +:+ "." +:+ minor) with
      | None => ret false
      | Some python_exe =>
          let* result := try_run E [path_str python_exe; "-c"; version_code] in
          match result with
          | inl _ => ret false
          | inr (stdout, _) =>
              let found := PyStr.strip stdout in
              match want_patch with
              | None => ret (PyStr.startswith found (major +:+ "." +:+ minor +:+ "."))
              | Some _ => ret (String.eqb found version)
              end
          end
      end
  | _ => ret false
  end.

(** The candidate loop of [find_installed_versions]: it leaves through
    [break] with a valid entry, or runs off the end of the list. *)
Fixpoint probe (version : string) (candidates : list path) (i : info) : M info :=
  match candidates with
  | [] => ret i
  | candidate :: rest =>
      if negb (x_ok E candidate) then probe version rest i
      else
        let* result := try_run E [path_str candidate; "-c"; version_code] in
        match result with
        | inl e =>
            probe version rest
              {| prefix := prefix i; python := python i;
                 runtime_version := runtime_version i; valid := valid i;
                 activated := activated i; error := Some (exn_msg e) |}
        | inr (stdout, _) =>
            let rv := PyStr.strip stdout in
            if String.eqb rv version then
              ret {| prefix := prefix i; python := Some candidate;
                     runtime_version := Some rv; valid := true;
                     activated := activated i; error := None |}
            else probe version rest i
        end
  end.

(** What one directory entry of the installation root adds to the
    dictionary: nothing, or an entry for its version. *)
Definition inspect_entry (entry : path) : M (option (string * info)) :=
  let* d := is_dir entry in
  if negb d then ret None
  else if negb (PyStr.startswith (basename entry) "python-") then ret None
  else
    let version := PyStr.removeprefix (basename entry) "python-" in
    let bin_dir := entry // "bin" in
    let i := {| prefix := entry; python := None; runtime_version := None;
                valid := false; activated := false; error := None |} in
    let* ex := exists_ bin_dir in
    if negb ex then
      ret (Some (version,
        {| prefix := entry; python := None; runtime_version := None;
           valid := false; activated := false;
           error := Some "missing bin directory" |}))
    else
      let* found := glob_prefix bin_dir "python3." in
      let candidates := sorted found in
      match candidates with
      | [] =>
          ret (Some (version,
            {| prefix := entry; python := None; runtime_version := None;
               valid := false; activated := false;
               error := Some "no python3.x executable found" |}))
      | _ =>
          let* i := probe version candidates i in
          let* act := check_activated version in
          ret (Some (version,
            {| prefix := prefix i; python := python i;
               runtime_version := runtime_version i; valid := valid i;
               activated := act; error := error i |}))
      end.

Fixpoint find_installed_versions_loop (entries : list path)
    (versions : list (string * info)) : M (list (string * info)) :=
  match entries with
  | [] => ret versions
  | entry :: rest =>
      let* r := inspect_entry entry in
      match r with
      | None => find_installed_versions_loop rest versions
      | Some (version, i) =>
          find_installed_versions_loop rest (dict_set versions version i)
      end
  end.

Definition find_installed_versions : M (list (string * info)) :=
  let* ex := exists_ INSTALL_ROOT in
  if negb ex then ret []
  else
    let* m := get_files in
    find_installed_versions_loop (children m INSTALL_ROOT) [].

(** The loop of [remove_broken]; the result is [removed_any]. *)
Fixpoint remove_broken_loop (installed : list (string * info))
    (removed_any : bool) : M bool :=
  match installed with
  | [] => ret removed_any
  | (version, i) :: rest =>
      if valid i then remove_broken_loop rest removed_any
      else
        let* ok :=
          try_except (rmtree E (prefix i) >> ret true) is_Exception
            (λ _, ret false) in
        remove_broken_loop rest (ok || removed_any)
  end.

Definition remove_broken : M bool :=
  let* installed := find_installed_versions in
  remove_broken_loop installed false.

End Registry.

(** ** The remaining commands of [sevpy.py] *)

(** [s.lower()] on the letters below 128; the program only compares the
    result with [y], which no other letter turns into. *)
Definition ascii_lower (c : ascii) : ascii :=
  let n := nat_of_ascii c in
  if ((65 <=? n) && (n <=? 90))%nat then ascii_of_nat (n + 32) else c.

Fixpoint lower (s : string) : string :=
  match s with
  | EmptyString => EmptyString
  | String c s' => String (ascii_lower c) (lower s')
  end.

(** The character class [[A-F0-9]]. *)
Definition is_key_char (c : ascii) : bool :=
  let n := nat_of_ascii c in
  (((48 <=? n) && (n <=? 57)) || ((65 <=? n) && (n <=? 70)))%nat.

(** A match of [using RSA key ([A-F0-9]{40})] that starts at the first
    character of [s]: its group. *)
Definition key_at (s : string) : option string :=
  if String.prefix "using RSA key " s then
    let k := String.substring 14 40 s in
    if (String.length k =? 40)%nat && forallb is_key_char (list_ascii_of_string k)
    then Some k else None
  else None.

(** [re.search]: the leftmost match. *)
Fixpoint search_key (s : string) : option string :=
  match key_at s with
  | Some k => Some k
  | None =>
      match s with
      | EmptyString => None
      | String _ s' => search_key s'
      end
  end.

Definition extract_key_id (gpg_output : string) : exn + string :=
  match search_key gpg_output with
  | None => inl (Exn RuntimeError "Could not extract GPG key ID")
  | Some k => inr k
  end.

Definition is_pyinstaller_internal_flag (arg : string) : bool :=
  PyStr.startswith arg "-" &&
  negb (String.eqb arg "--yes" || String.eqb arg "--no-tk").

Definition is_multiprocessing_reentry (arg : string) : bool :=
  PyStr.contains "multiprocessing" arg
  || PyStr.contains "resource_tracker" arg
  || PyStr.startswith arg "from multiprocessing".

(** The argument list [main] works on: [sys.argv[1:]] without what the two
    tests above reject. *)
Definition main_args (argv : list string) : list string :=
  List.filter (λ a, negb (is_pyinstaller_internal_flag a)
                    && negb (is_multiprocessing_reentry a))
              (tail argv).

Section Commands.
Context (E : Env) (home : path).

(** The loop of [clean]; the result is [removed_any]. *)
Fixpoint clean_loop (paths : list path) (removed_any : bool) : M bool :=
  match paths with
  | [] => ret removed_any
  | p :: rest =>
      let* ex := exists_ p in
      if negb ex then clean_loop rest removed_any
      else
        let* ok :=
          try_except (rmtree E p >> ret true) is_Exception (λ _, ret false) in
        clean_loop rest (ok || removed_any)
  end.

Definition clean : M bool :=
  clean_loop [SEVPY_CACHE home; INSTALLER_STAGE home] false.

(** [remove_version]; [answer] is what the user types when asked to
    confirm.  [INSTALL_ROOT / f"python-{version}"] is taken as one entry of
    the installation root, which it is for a version that holds no slash. *)
Definition remove_version (version : string) (no_confirm : bool)
    (answer : string) : M unit :=
  let prefix := INSTALL_ROOT home // ("python-" +:+ version) in
  let* ex := exists_ prefix in
  if negb ex then ret tt
  else if negb no_confirm && negb (String.eqb (lower (PyStr.strip answer)) "y")
  then ret tt
  else try_except (rmtree E prefix) is_Exception (λ _, ret tt).

(** [reinstall_version], over the [install] it ends with; the prefix is
    taken as in [remove_version]. *)
Definition reinstall_version (install : string → bool → bool → M unit)
    (version : string) (no_check enable_tkinter : bool) (answer : string)
    : M unit :=
  let prefix := INSTALL_ROOT home // ("python-" +:+ version) in
  let* ex := exists_ prefix in
  if negb no_check && negb ex then ret tt
  else
    let* ex := exists_ prefix in
    if ex then
      if negb (String.eqb (lower (PyStr.strip answer)) "y") then ret tt
      else
        let* removed :=
          try_except (rmtree E prefix >> ret true) is_Exception
            (λ _, ret false) in
        if removed then install version true enable_tkinter else ret tt
    else install version true enable_tkinter.

(** The [install] branch of [main]: nothing is installed over a version
    the registry already lists. *)
Fixpoint listed (installed : list (string * info)) (version : string) : bool :=
  match installed with
  | [] => false
  | (_version, _) :: rest =>
      if String.eqb version _version then true else listed rest version
  end.

Definition main_install (install : string → bool → bool → M unit)
    (args : list string) : M unit :=
  match args with
  | _ :: version :: _ =>
      let enable_tkinter := negb (bool_decide ("--no-tk" ∈ args)) in
      let* installed := find_installed_versions E home in
      if listed installed version then ret tt
      else install version false enable_tkinter
  | _ => ret tt
  end.

(** The calls [install] makes on the installer it builds, in order. *)
Definition install_steps (source_tree : path) (version : string)
    (enable_tkinter : bool) : M unit :=
  let* installer := init E home source_tree version in
  configure E installer >>
  compile E installer >>
  staged_install E installer enable_tkinter >>
  verify_staging E installer >>
  commit_install E installer.

End Commands.

(** * Vocabulary of the properties *)

(** A map [m'] extends [m] by fresh directories on the way to [p]. *)
Definition grows_towards (p : path) (m m' : fs) : Prop :=
  ∀ k, m' !! k = m !! k ∨ (m !! k = None ∧ m' !! k = Some Dir ∧ under k p).

(** The candidates both binary searches scan: the entries of [bin_dir]
    named [python3.*], sorted. *)
Definition candidates (m : fs) (bin_dir : path) : list path :=
  sorted (filter (λ k, PyStr.startswith (basename k) "python3." = true)
                 (children m bin_dir)).

(** What the staging verifier takes as a candidate's reported version
    output: standard output, or standard error when that is blank, of a run
    under [-V] that exits with status zero. *)
Definition version_output (E : Env) (candidate : path) : option string :=
  match spawn E [path_str candidate; "-V"] with
  | Exited 0%Z out err => Some (PyStr.or_else (PyStr.strip out) (PyStr.strip err))
  | _ => None
  end.

(** A candidate qualifies for the staging verifier: it is executable, it
    runs, and its version output contains the requested version. *)
Definition qualifies (E : Env) (v : string) (candidate : path) : bool :=
  x_ok E candidate &&
  match version_output E candidate with
  | Some o => PyStr.contains v o
  | None => false
  end.

(** What the registry takes as a candidate's reported version: the stripped
    standard output of a successful run of [version_code]. *)
Definition version_report (E : Env) (candidate : path) : option string :=
  match spawn E [path_str candidate; "-c"; version_code] with
  | Exited 0%Z out _ => Some (PyStr.strip out)
  | _ => None
  end.

(** A candidate identifies its prefix for the registry: it is executable
    and reports exactly the version [v]. *)
Definition identifies (E : Env) (v : string) (candidate : path) : bool :=
  x_ok E candidate &&
  match version_report E candidate with
  | Some r => String.eqb r v
  | None => false
  end.

(** The containment test as the verifier computes it: the path resolves,
    and the text of the resolved path starts with the text of the staged
    prefix. *)
Definition passes_containment (E : Env) (root p : path) : bool :=
  match resolve E p with
  | Resolved real => PyStr.startswith (path_str real) (path_str root)
  | ResolveFailed _ => false
  end.

(** The body of the [try] block of [commit_install]: make the parent of
    the permanent prefix, then rename the staged prefix onto it. *)
Definition promote (E : Env) (self : Installer) : M unit :=
  mkdir E (parent (install_version_dir self)) true true >>
  os_rename E (staged_prefix self) (install_version_dir self).

(** An entry the manifest lists: a file (seen through links) or a link. *)
Definition is_listed (m : fs) (p : path) : bool :=
  bool_decide (stat m p = Some KFile) ||
  bool_decide (∃ t, m !! p = Some (Link t)).

(** The files and links found beneath [root], in the order of the walk. *)
Definition manifest_listing (m : fs) (root : path) : list path :=
  filter (λ p, is_listed m p = true) (rglob m root).

(** The text of a manifest: one path per line, each line ended. *)
Definition manifest_text (listing : list path) : string :=
  PyStr.join nl (path_str <$> listing) +:+ nl.

(** * Example machines

    Small concrete file systems and environments on which the properties
    below are run. *)

Module Demo.

Definition home : path := ["home"; "u"].
Definition source : path := home ++ [".cache"; "sevpy"; "src"; "Python-3.12.2"].
Definition self : Installer := new_installer home source "3.12.2".
Definition staging : path := staging_dir self.
Definition staged : path := staged_prefix self.
Definition permanent : path := install_version_dir self.
Definition root : path := INSTALL_ROOT home.

(** Every directory on the way to [p], [p] excluded. *)
Fixpoint ancestors (p : path) : list path :=
  match p with
  | [] => []
  | c :: p' => [] :: ((λ q, c :: q) <$> ancestors p')
  end.

(** The file system holding the given entries and the directories above
    them. *)
Definition tree_of (entries : list (path * node)) : fs :=
  list_to_map entries ∪
  list_to_map ((λ q, (q, Dir)) <$> (entries.*1 ≫= ancestors)).

(** Interpreters that print the version the table gives them, under [-V]
    on one line with the program name, under [-c] bare. *)
Definition reports (table : list (path * string)) (argv : list string) : spawned :=
  match argv with
  | exe :: flag :: _ =>
      match list_find (λ row, path_str row.1 = exe) table with
      | Some (_, (_, v)) =>
          if String.eqb flag "-V"
          then Exited 0 ("Python " +:+ v +:+ nl) EmptyString
          else Exited 0 (v +:+ nl) EmptyString
      | None => SpawnFailed false "No such file or directory"
      end
  | _ => SpawnFailed false "No such file or directory"
  end.

(** The text of a [CalledProcessError], for arguments that Python shows
    between plain quotes. *)
Definition status_text (argv : list string) (code : Z) : string :=
  "Command '[" +:+ PyStr.join ", " ((λ a, "'" +:+ a +:+ "'") <$> argv) +:+
  "]' returned non-zero exit status " +:+ pretty code +:+ ".".

(** An environment in which every file is executable, build steps succeed
    without touching anything, and a path resolves to itself unless the
    table of links says otherwise. *)
Definition env (refuse : fsop → option exn) (table : list (path * string))
    (links : list (path * resolved)) : Env :=
  {| refuses := refuse;
     x_ok := λ _, true;
     spawn := reports table;
     build := λ _ _ m, (inl 0%Z, m);
     resolve := λ p, match list_find (λ row, row.1 = p) links with
                     | Some (_, (_, r)) => r
                     | None => Resolved p
                     end;
     which := λ _, None;
     exit_status_text := status_text;
     cpu_count := Some 4 |}.

Definition willing : fsop → option exn := λ _, None.

Definition python312 : list (path * string) :=
  [(staged // "bin" // "python3.12", "3.12.2");
   (permanent // "bin" // "python3.12", "3.12.2")].

Definition calm : Env := env willing python312 [].

(** A finished staged install of 3.12.2, the installation root empty. *)
Definition staged_tree : fs :=
  tree_of [ (staged // "bin" // "python3.12", File "ELF");
            (staged // "lib" // "os.py", File "import sys");
            (source // "Makefile", File "all:");
            (root, Dir) ].
Definition staged_world : world := World staged_tree [].

(** C1: the rename is refused. *)
Definition cross_device : exn := Exn OSError "Invalid cross-device link".
Definition refuse_rename : fsop → option exn :=
  λ op, if decide (op = OpRename staged permanent) then Some cross_device else None.
Definition no_rename : Env := env refuse_rename python312 [].

(** C2: version 3.12.2 is installed, with and without its manifest. *)
Definition managed_tree : fs :=
  tree_of [ (permanent // "bin" // "python3.12", File "ELF");
            (permanent // ".install-manifest", File "listing") ].
Definition managed_world : world := World managed_tree [].

(** C3: a link in the staged tree leads to a sibling of the staged prefix
    whose name merely starts like it. *)
Definition sibling : path :=
  staging ++ home ++ [".local"; "opt"; "python-3.12.2-evil"; "payload"].
Definition escaping_link : path := staged // "lib" // "evil".
Definition sibling_tree : fs :=
  tree_of [ (staged // "bin" // "python3.12", File "ELF");
            (escaping_link, Link (Some KFile));
            (sibling, File "payload") ].
Definition sibling_world : world := World sibling_tree [].
Definition sibling_env : Env :=
  env willing python312 [(escaping_link, Resolved sibling)].

(** C4: a dangling link next to a working binary.  [Path.resolve()] is
    not strict: for a link that leads nowhere it raises nothing and answers
    with the path the link names. *)
Definition dangling : path := staged // "lib" // "dangling".
Definition missing : path := staged // "lib" // "libgone.so".
Definition dangling_env : Env :=
  env willing python312 [(dangling, Resolved missing)].
Definition dangling_tree : fs :=
  tree_of [ (staged // "bin" // "python3.12", File "ELF");
            (dangling, Link None) ].
Definition dangling_world : world := World dangling_tree [].

(** C5: a bin directory without any [python3.*] entry, and one with two
    interpreters of which the second is the requested one. *)
Definition pip_only_tree : fs := tree_of [ (staged // "bin" // "pip3", File "#!") ].
Definition pip_only_world : world := World pip_only_tree [].
Definition two_pythons_tree : fs :=
  tree_of [ (staged // "bin" // "python3.12", File "ELF");
            (staged // "bin" // "python3.11", File "ELF") ].
Definition two_pythons_world : world := World two_pythons_tree [].
Definition two_pythons_env : Env :=
  env willing [ (staged // "bin" // "python3.12", "3.12.2");
                (staged // "bin" // "python3.11", "3.11.9") ] [].

(** C6: a staging directory left over, with and without a Makefile in the
    source tree. *)
Definition leftover_tree : fs :=
  tree_of [ (staging // "old", File "stale"); (source // "Makefile", File "all:") ].
Definition leftover_world : world := World leftover_tree [].
Definition unconfigured_tree : fs :=
  tree_of [ (staging // "old", File "stale"); (source // "configure", File "#!") ].
Definition unconfigured_world : world := World unconfigured_tree [].

(** C7: the manifest cannot be written. *)
Definition denied : exn := Exn PermissionError "Permission denied".
Definition refuse_manifest : fsop → option exn :=
  λ op, if decide (op = OpWrite (manifest_path self)) then Some denied else None.
Definition no_manifest : Env := env refuse_manifest python312 [].

(** C8: a working 3.12.2 without a manifest next to a 3.11.0 without a bin
    directory.  C9: a 3.12.2 prefix whose interpreter says 3.12.1. *)
Definition two_prefixes_tree : fs :=
  tree_of [ (root // "python-3.12.2" // "bin" // "python3.12", File "ELF");
            (root // "python-3.11.0" // "README", File "half") ].
Definition two_prefixes_world : world := World two_prefixes_tree [].
Definition tagged_env : Env :=
  env willing [ (root // "python-3.12.2" // "bin" // "python3.12", "3.12.2") ] [].
Definition two_installed : list (string * info) :=
  [ ("3.12.2",
     {| prefix := root // "python-3.12.2";
        python := Some (root // "python-3.12.2" // "bin" // "python3.12");
        runtime_version := Some "3.12.2"; valid := true; activated := false;
        error := None |});
    ("3.11.0",
     {| prefix := root // "python-3.11.0"; python := None;
        runtime_version := None; valid := false; activated := false;
        error := Some "missing bin directory" |}) ].
Definition mistagged_env : Env :=
  env willing [ (root // "python-3.12.2" // "bin" // "python3.12", "3.12.1") ] [].
Definition mistagged_tree : fs :=
  tree_of [ (root // "python-3.12.2" // "bin" // "python3.12", File "ELF") ].
Definition mistagged_world : world := World mistagged_tree [].


End Demo.

(** * Vocabulary of the further properties *)

(** What [find_files] keeps of the walk: a regular file -- behind a link
    only when links are followed -- whose name the pattern matches. *)
Definition found (m : fs) (pat : pattern) (follow_symlinks : bool)
    (p : path) : bool :=
  (follow_symlinks || negb (bool_decide (∃ t, m !! p = Some (Link t))))
  && bool_decide (stat m p = Some KFile)
  && regex_search pat (basename p).

(** The file a [touch] of [p] creates away from [p]: where a dangling
    link stored at [p] leads. *)
Definition touch_target (E : Env) (m : fs) (p : path) : option path :=
  match m !! p with
  | Some (Link None) =>
      match resolve E p with
      | Resolved q => Some q
      | ResolveFailed _ => None
      end
  | _ => None
  end.

(** The three build commands, as [configure], [compile] and
    [staged_install] assemble them. *)
Definition configure_cmd (self : Installer) : list string :=
  [ "./configure";
    "--prefix=" +:+ path_str (install_version_dir self);
    "--bindir=" +:+ path_str (install_version_dir self // "bin");
    "--libdir=" +:+ path_str (install_version_dir self // "lib");
    "--includedir=" +:+ path_str (install_version_dir self // "include");
    "--mandir=" +:+ path_str (install_version_dir self // "share" // "man");
    "--with-ensurepip=install" ].


Definition altinstall_cmd (self : Installer) : list string :=
  ["make"; "altinstall"; "DESTDIR=" +:+ path_str (staging_dir self)].

(** * More example machines *)

Module Bench.
Import Demo.

(** A build tool that does its job: configure writes the Makefile, make
    altinstall puts an interpreter, a module and the Tk binding under the
    staged prefix. *)
Definition installed_files : list (path * node) :=
  [ (staged // "bin" // "python3.12", File "ELF");
    (staged // "lib" // "os.py", File "import sys");
    (staged // "lib" // "_tkinter.cpython-312.so", File "tk") ].

Definition make (cmd : list string) (cwd : path) (m : fs) : (Z + exn) * fs :=
  if decide (cmd = configure_cmd self)
  then (inl 0%Z, <[source // "Makefile" := File "all:"]> m)
  else if decide (cmd = altinstall_cmd self)
  then (inl 0%Z, tree_of installed_files ∪ m)
  else (inl 0%Z, m).

Definition builder : Env :=
  {| refuses := willing;
     x_ok := λ _, true;
     spawn := reports python312;
     build := make;
     resolve := λ p, Resolved p;
     which := λ _, None;
     exit_status_text := status_text;
     cpu_count := Some 4 |}.

(** A build tool whose every step exits with status 2. *)
Definition broken_make : Env :=
  {| refuses := willing;
     x_ok := λ _, true;
     spawn := reports python312;
     build := λ _ _ m, (inl 2%Z, m);
     resolve := λ p, Resolved p;
     which := λ _, None;
     exit_status_text := status_text;
     cpu_count := None |}.

(** A machine on which [python3.12] of the search path is 3.12.2. *)
Definition on_path : path := ["usr"; "local"; "bin"; "python3.12"].
Definition activated_env : Env :=
  {| refuses := willing;
     x_ok := λ _, true;
     spawn := reports [(on_path, "3.12.2")];
     build := λ _ _ m, (inl 0%Z, m);
     resolve := λ p, Resolved p;
     which := λ c, if String.eqb c "python3.12" then Some on_path else None;
     exit_status_text := status_text;
     cpu_count := None |}.

(** An extracted source tree, nothing else. *)
Definition fresh_tree : fs := tree_of [ (source // "configure", File "#!/bin/sh") ].
Definition fresh_world : world := World fresh_tree [].

(** The same after [__init__], and after configure. *)
Definition ready_tree : fs :=
  tree_of [ (source // "configure", File "#!/bin/sh");
            (log_dir self, Dir); (root, Dir) ].
Definition ready_world : world := World ready_tree [].
Definition configured_tree : fs :=
  tree_of [ (source // "configure", File "#!/bin/sh");
            (source // "Makefile", File "all:");
            (log_dir self, Dir); (root, Dir) ].
Definition configured_world : world := World configured_tree [].

(** An installation root in which somebody keeps a file named like the
    probe. *)
Definition namesake_tree : fs := tree_of [ (root // ".write_test", File "mine") ].
Definition namesake_world : world := World namesake_tree [].

(** A dangling link named like the probe, leading to a file that is not
    there in the home directory. *)
Definition probe_link : path := root // ".write_test".
Definition victim : path := home // "victim".
Definition probe_link_tree : fs := tree_of [ (probe_link, Link None) ].
Definition probe_link_world : world := World probe_link_tree [].
Definition probe_link_env : Env :=
  env willing python312 [(probe_link, Resolved victim)].

(** Version 3.12.2 installed, and its source tree extracted once more. *)
Definition installed_tree : fs :=
  tree_of [ (source // "configure", File "#!/bin/sh");
            (permanent // "bin" // "python3.12", File "ELF");
            (permanent // ".install-manifest", File "listing") ].
Definition installed_world : world := World installed_tree [].

(** Caches and one installed version. *)
Definition cached_tree : fs :=
  tree_of [ (SEVPY_CACHE home // "logs" // "python-3.12.2" // "build.log", File "ok");
            (INSTALLER_STAGE home // "python-3.11.0" // "junk", File "stale");
            (root // "python-3.12.2" // "bin" // "python3.12", File "ELF") ].
Definition cached_world : world := World cached_tree [].

(** What gpg prints when the key is missing. *)
Definition gpg_output : string :=
  "gpg: Signature made Tue 06 Feb 2024" +:+ nl +:+
  "gpg:                using RSA key 7169605F62C751356D054A26A821E680E5FA6305"
  +:+ nl +:+ "gpg: Can't check signature: No public key".

(** An [install] that does nothing. *)
Definition no_install : string → bool → bool → M unit := λ _ _ _, ret tt.

End Bench.

(** * Properties *)

(** ** Running the monad *)

Ltac run :=
  unfold bind, ret, abort, raise, gets, abort_if, get_files, exists_, is_dir,
    is_file, is_symlink, modify_files, try_except in *;
  simpl in *.

Lemma bind_ok {A B} (m : M A) (k : A → M B) w a w' :
  m w = (Ok a, w') → bind m k w = k a w'.
Proof. intros H. unfold bind. by rewrite H. Qed.

Lemma bind_abort {A B} (m : M A) (k : A → M B) w r w' :
  m w = (Abort r, w') → bind m k w = (Abort r, w').
Proof. intros H. unfold bind. by rewrite H. Qed.

Lemma bind_raise {A B} (m : M A) (k : A → M B) w e w' :
  m w = (Raise e, w') → bind m k w = (Raise e, w').
Proof. intros H. unfold bind. by rewrite H. Qed.

(** ** Prefix collision (C2) *)

Section Collision.
Context (E : Env) (self : Installer).

(** C2.  Whenever the permanent prefix directory of the version exists, the
    pre-install collision check aborts -- with the "already installed"
    message if the manifest path exists, with the "unmanaged" message if it
    does not -- and [commit_install] aborts as well; both leave the whole
    state, and so that directory, exactly as it was. *)
Theorem existing_prefix_blocks_install (w : world) :
  is_Some (stat (files w) (install_version_dir self)) →
  check_prefix_collision self w =
    (Abort (if bool_decide (is_Some (stat (files w) (manifest_path self)))
            then "Python " +:+ version self +:+ " is already installed at " +:+
                 path_str (install_version_dir self)
            else "Installation directory exists but is unmanaged: " +:+
                 path_str (install_version_dir self)), w)
  ∧ commit_install E self w =
    (Abort (if bool_decide (is_Some (stat (files w) (staged_prefix self)))
            then "Install prefix already exists: " +:+
                 path_str (install_version_dir self)
            else "Nothing to commit: staged prefix missing"), w).
Proof.
  intros Hex. split.
  - unfold check_prefix_collision. run.
    rewrite (bool_decide_eq_true_2 _ Hex).
    by destruct (bool_decide (is_Some (stat (files w) (manifest_path self)))).
  - unfold commit_install. run.
    destruct (bool_decide (is_Some (stat (files w) (staged_prefix self))));
      simpl; [|done].
    by rewrite (bool_decide_eq_true_2 _ Hex).
Qed.

End Collision.

(** ** Staging directory already present (C6) *)

Section Staging.
Context (E : Env) (self : Installer).

(** C6 (amended).  Called while the staging directory exists,
    [staged_install] aborts before it creates anything or runs any install
    step, and the state -- the old staging contents included -- is returned
    as it was.  The abort says "already exists" when the source tree has its
    Makefile; without a Makefile the earlier Makefile check aborts first. *)
Theorem staged_install_never_reuses (enable_tk : bool) (w : world) :
  is_Some (stat (files w) (staging_dir self)) →
  staged_install E self enable_tk w =
    (Abort (if bool_decide (is_Some (stat (files w) (source_directory self // "Makefile")))
            then "Staging directory already exists: " +:+
                 path_str (staging_dir self)
            else "Makefile missing — did you run configure()?"), w).
Proof.
  intros Hex. unfold staged_install. run.
  destruct (bool_decide (is_Some (stat (files w) (source_directory self // "Makefile"))));
    simpl; [|done].
  by rewrite (bool_decide_eq_true_2 _ Hex).
Qed.

End Staging.

(** ** Frame properties of the primitives *)

Lemma parent_prefix (p : path) : under (parent p) p.
Proof.
  unfold parent. rewrite removelast_firstn_len. apply prefix_take.
Qed.

Lemma under_length_eq (p q k : path) :
  under p k → under q k → length p = length q → p = q.
Proof.
  intros [a ->] [b Hb] Hlen.
  apply (f_equal (take (length p))) in Hb.
  rewrite take_app_length in Hb. rewrite Hlen in Hb.
  by rewrite take_app_length in Hb.
Qed.

Lemma not_under_longer (p k : path) : length k < length p → ¬ under p k.
Proof. intros Hlt Hp%prefix_length. lia. Qed.

Lemma grows_refl p m : grows_towards p m m.
Proof. intros k. by left. Qed.

Lemma grows_trans p q m1 m2 m3 :
  under p q →
  grows_towards p m1 m2 → grows_towards q m2 m3 → grows_towards q m1 m3.
Proof.
  intros Hpq H12 H23 k.
  destruct (H23 k) as [E23|(N2 & D3 & U3)], (H12 k) as [E12|(N1 & D2 & U2)].
  - left. congruence.
  - right. repeat split; [done|congruence|by etrans].
  - right. repeat split; [congruence|done..].
  - congruence.
Qed.

Section PrimitiveFrames.
Context (E : Env).

Lemma need_parent_dir_frame p w r w' :
  need_parent_dir p w = (r, w') → w' = w ∧ ∀ reason, r ≠ Abort reason.
Proof.
  unfold need_parent_dir. destruct (stat _ _) as [[]|]; intros [= <- <-]; done.
Qed.

Lemma os_mkdir_frame p w r w' :
  os_mkdir E p w = (r, w') →
  ran w' = ran w ∧ grows_towards p (files w) (files w') ∧
  (∀ reason, r ≠ Abort reason).
Proof.
  unfold os_mkdir. destruct (files w !! p) eqn:Hp.
  { intros [= <- <-]. split_and!; [done|apply grows_refl|done]. }
  unfold bind. destruct (need_parent_dir p w) as [[[]| |] w1] eqn:Hn;
    apply need_parent_dir_frame in Hn as [-> Hn].
  - destruct (refuses E (OpMkdir p)); run; intros [= <- <-]; simpl.
    + split_and!; [done|apply grows_refl|done].
    + split_and!; [done| |done]. intros k.
      destruct (decide (k = p)) as [->|Hne].
      * right. by rewrite lookup_insert_eq.
      * left. by rewrite lookup_insert_ne.
  - by destruct (Hn reason).
  - intros [= <- <-]. split_and!; [done|apply grows_refl|done].
Qed.

Lemma mkdir_go_frame fuel p parents exist_ok w r w' :
  mkdir_go E fuel p parents exist_ok w = (r, w') →
  ran w' = ran w ∧ grows_towards p (files w) (files w') ∧
  (∀ reason, r ≠ Abort reason).
Proof.
  revert p parents exist_ok w r w'.
  induction fuel as [|n IH]; intros p parents exist_ok w r w'; simpl;
    unfold try_except;
    destruct (os_mkdir E p w) as [[[]|reason|e] w1] eqn:Hmk;
    pose proof (os_mkdir_frame _ _ _ _ Hmk) as (Hran & Hgrow & Hna);
    try (intros [= <- <-]; done);
    try (by destruct (Hna reason)).
  - destruct (bool_decide (exn_cls e = FileNotFoundError)).
    + destruct (negb parents || bool_decide (parent p = p));
        intros [= <- <-]; done.
    + run. destruct (exist_ok && _); intros [= <- <-]; done.
  - destruct (bool_decide (exn_cls e = FileNotFoundError)).
    + destruct (negb parents || bool_decide (parent p = p)).
      { intros [= <- <-]; done. }
      unfold bind.
      destruct (mkdir_go E n (parent p) true true w1) as [[[]|reason|e1] w2] eqn:H1;
        destruct (IH _ _ _ _ _ _ H1) as (Hran1 & Hgrow1 & Hna1).
      * intros H2. destruct (IH _ _ _ _ _ _ H2) as (Hran2 & Hgrow2 & Hna2).
        split_and!; [congruence| |done].
        eapply (grows_trans p p); [done| |done].
        eapply (grows_trans p p); [done|done|].
        eapply (grows_trans (parent p) p); [apply parent_prefix|done|apply grows_refl].
      * by destruct (Hna1 reason).
      * intros [= <- <-]. split_and!; [congruence| |done].
        eapply (grows_trans p p); [done|done|].
        eapply (grows_trans (parent p) p); [apply parent_prefix|done|apply grows_refl].
    + run. destruct (exist_ok && _); intros [= <- <-]; done.
Qed.

Lemma mkdir_frame p parents exist_ok w r w' :
  mkdir E p parents exist_ok w = (r, w') →
  ran w' = ran w ∧ grows_towards p (files w) (files w') ∧
  (∀ reason, r ≠ Abort reason).
Proof. apply mkdir_go_frame. Qed.

(** A rename that does not succeed changes nothing. *)
Lemma os_rename_failed src dst w r w' :
  os_rename E src dst w = (r, w') → r ≠ Ok tt →
  w' = w ∧ ∀ reason, r ≠ Abort reason.
Proof.
  unfold os_rename.
  destruct (refuses E (OpRename src dst)).
  { by intros [= <- <-]. }
  destruct (files w !! src) as [n|]; [|by intros [= <- <-]].
  case_bool_decide; [by intros [= <- <-]|].
  case_bool_decide; [by intros [= <- <-]|].
  unfold bind. destruct (need_parent_dir dst w) as [[[]| |] w1] eqn:Hn;
    apply need_parent_dir_frame in Hn as [-> Hn];
    [|by intros [= <- <-]..].
  destruct n as [d| |t], (files w !! dst) as [[d'| |t']|]; run;
    try case_bool_decide; by intros [= <- <-].
Qed.

End PrimitiveFrames.

(** ** The layout [new_installer] fixes *)

Section Layout.
Context (home python_source_directory : path) (v : string).
Let self := new_installer home python_source_directory v.

Lemma install_version_dir_eq :
  install_version_dir self = home ++ [".local"; "opt"; "python-" +:+ v].
Proof. subst self. simpl. unfold child. by rewrite <- !app_assoc. Qed.

Lemma staging_dir_eq :
  staging_dir self =
    home ++ [".cache"; "python-installer"; "stage"; "python-" +:+ v].
Proof. subst self. simpl. unfold child. by rewrite <- !app_assoc. Qed.

Lemma parent_install_version_dir :
  parent (install_version_dir self) = home ++ [".local"; "opt"].
Proof.
  subst self. simpl. unfold parent, child. rewrite removelast_last.
  by rewrite <- !app_assoc.
Qed.

(** Nothing at or beneath the staging root lies on the way to the
    installation root. *)
Lemma staging_off_install_root k :
  under (staging_dir self) k → ¬ under k (home ++ [".local"; "opt"]).
Proof.
  rewrite staging_dir_eq. intros H1 H2.
  assert (H : under (home ++ [".cache"; "python-installer"; "stage"; "python-" +:+ v])
                    (home ++ [".local"; "opt"])) by by etrans.
  apply prefix_app_inv, prefix_cons_inv_1 in H. discriminate.
Qed.

(** Nothing at or beneath the permanent prefix lies on the way to the
    installation root. *)
Lemma prefix_off_install_root k :
  under (install_version_dir self) k → ¬ under k (home ++ [".local"; "opt"]).
Proof.
  rewrite install_version_dir_eq. intros H1 H2.
  assert (H : under (home ++ [".local"; "opt"; "python-" +:+ v])
                    (home ++ [".local"; "opt"])) by by etrans.
  apply prefix_length in H. rewrite !length_app in H. simpl in H. lia.
Qed.

(** The staging root and the permanent prefix are disjoint subtrees. *)
Lemma staging_off_prefix k :
  under (staging_dir self) k → ¬ under (install_version_dir self) k.
Proof.
  rewrite staging_dir_eq, install_version_dir_eq. intros [a ->] [b Hb].
  rewrite <- !app_assoc in Hb. apply app_inv_head in Hb. discriminate.
Qed.

(** The staging root is a proper ancestor of the staged prefix. *)
Lemma staging_above_staged_prefix :
  ¬ under (staged_prefix self) (staging_dir self).
Proof.
  unfold staged_prefix, nest. rewrite install_version_dir_eq.
  intros H%prefix_length. rewrite !length_app in H. simpl in H. lia.
Qed.

End Layout.

(** ** Commit is all-or-nothing (C1) *)

Section CommitAtomic.
Context (E : Env) (home python_source_directory : path) (v : string).
Let self := new_installer home python_source_directory v.

(** C1.  The staged prefix exists, the permanent prefix does not, the
    parent of the permanent prefix has been made, and the rename of the
    staged prefix onto the permanent prefix fails with an error [e].  Then
    [commit_install] aborts with "Commit failed: e", the permanent prefix
    still does not exist in the state it leaves, and every entry at or
    beneath the staging root -- so the whole staged tree -- is as it was
    before the call; no build command was run either. *)
Theorem commit_failed_rename_is_clean (w w1 w2 : world) (e : exn) :
  is_Some (stat (files w) (staged_prefix self)) →
  stat (files w) (install_version_dir self) = None →
  mkdir E (parent (install_version_dir self)) true true w = (Ok tt, w1) →
  os_rename E (staged_prefix self) (install_version_dir self) w1 = (Raise e, w2) →
  is_Exception e = true →
  ∃ w', commit_install E self w = (Abort ("Commit failed: " +:+ exn_msg e), w')
        ∧ stat (files w') (install_version_dir self) = None
        ∧ (∀ k, under (staging_dir self) k → files w' !! k = files w !! k)
        ∧ ran w' = ran w.
Proof.
  subst self. intros Hstaged Hfree Hmk Hmv Hexc.
  destruct (os_rename_failed _ _ _ _ _ _ Hmv) as [-> _]; [done|].
  destruct (mkdir_frame _ _ _ _ _ _ _ Hmk) as (Hran & Hgrow & _).
  rewrite parent_install_version_dir in Hgrow.
  exists w1. split_and!.
  - unfold commit_install. run.
    rewrite (bool_decide_eq_true_2 _ Hstaged). simpl.
    rewrite bool_decide_eq_false_2 by (rewrite Hfree; by intros [? ?]). simpl.
    rewrite Hmk, Hmv, Hexc. done.
  - unfold stat in *.
    destruct (Hgrow (install_version_dir (new_installer home python_source_directory v)))
      as [->|(_ & _ & Hu)]; [done|].
    by destruct (prefix_off_install_root home python_source_directory v _ (reflexivity _)).
  - intros k Hk. destruct (Hgrow k) as [->|(_ & _ & Hu)]; [done|].
    by destruct (staging_off_install_root home python_source_directory v _ Hk).
  - done.
Qed.

End CommitAtomic.

(** ** Scanning for a binary (C5) *)

Lemma find_first {A} (P : A → bool) (l : list A) (x : A) :
  find P l = Some x →
  ∃ pre post, l = pre ++ x :: post ∧ P x = true ∧ ∀ y, y ∈ pre → P y = false.
Proof.
  induction l as [|a l IH]; simpl; [done|].
  destruct (P a) eqn:Ha.
  - intros [= ->]. exists [], l. split_and!; [done..|]. by intros y ?%elem_of_nil.
  - intros (pre & post & -> & Hx & Hpre)%IH. exists (a :: pre), post.
    split_and!; [done..|]. intros y [->|?]%elem_of_cons; auto.
Qed.

Lemma find_nothing {A} (P : A → bool) (l : list A) :
  find P l = None → ∀ y, y ∈ l → P y = false.
Proof.
  intros H y Hy%list_elem_of_In. by apply (find_none P l H).
Qed.

Section BinaryScan.
Context (E : Env).

(** A captured run never touches the state and never escapes [try_run]. *)
Lemma try_run_eq argv w :
  try_run E argv w =
    (Ok match spawn E argv with
        | Exited 0%Z out err => inr (out, err)
        | Exited code _ _ =>
            inl (Exn CalledProcessError (exit_status_text E argv code))
        | SpawnFailed timed_out msg =>
            inl (Exn (if timed_out then TimeoutExpired else OSError) msg)
        end, w).
Proof.
  unfold try_run, run_captured. run.
  destruct (spawn E argv) as [[| |] out err|[] msg]; done.
Qed.

(** The loop of [find_python_binary] is a search for the first qualifying
    candidate. *)
Lemma find_python_binary_loop_eq self cands w :
  find_python_binary_loop E self cands w =
    (match find (qualifies E (version self)) cands with
     | Some c => Ok c
     | None => Abort "No valid Python executable found in staged install"
     end, w).
Proof.
  induction cands as [|c cands IH]; simpl; [done|].
  unfold qualifies at 1, version_output.
  destruct (x_ok E c); simpl; [|done].
  unfold bind. rewrite try_run_eq.
  destruct (spawn E [path_str c; "-V"]) as [[| |] out err|[] msg]; try done.
  unfold ret. by destruct (PyStr.contains _ _).
Qed.

(** C5 (amended).  When the bin directory of the staged prefix exists and
    holds at least one [python3.*] entry, [find_python_binary] leaves the
    state alone and returns the first candidate, in sorted order, that is
    executable, runs successfully under [-V] and whose version output
    contains the requested version; every candidate before it fails that
    test, and a candidate that fails it is never the result.  When no
    candidate passes, it aborts with "No valid Python executable found in
    staged install". *)
Theorem find_python_binary_first_match (self : Installer) (staged : path) (w : world) :
  is_Some (stat (files w) (staged // "bin")) →
  candidates (files w) (staged // "bin") ≠ [] →
  let cands := candidates (files w) (staged // "bin") in
  (∃ pre c post,
      cands = pre ++ c :: post
      ∧ (∀ c', c' ∈ pre → qualifies E (version self) c' = false)
      ∧ qualifies E (version self) c = true
      ∧ find_python_binary E self staged w = (Ok c, w))
  ∨ ((∀ c, c ∈ cands → qualifies E (version self) c = false)
      ∧ find_python_binary E self staged w =
          (Abort "No valid Python executable found in staged install", w)).
Proof.
  intros Hbin Hne cands. subst cands.
  set (cands := candidates (files w) (staged // "bin")) in *.
  assert (Heq : find_python_binary E self staged w =
                find_python_binary_loop E self cands w).
  { unfold find_python_binary, glob_prefix. run.
    rewrite (bool_decide_eq_true_2 _ Hbin). simpl.
    fold (candidates (files w) (staged // "bin")). fold cands.
    clearbody cands. by destruct cands. }
  clearbody cands.
  rewrite Heq, find_python_binary_loop_eq.
  destruct (find _ cands) as [c|] eqn:Hfind.
  - left. destruct (find_first _ _ _ Hfind) as (pre & post & Hl & Hc & Hpre).
    by exists pre, c, post.
  - right. split; [|done]. by apply find_nothing.
Qed.

(** [find_python_binary] only reads the state. *)
Lemma find_python_binary_frame self staged w r w' :
  find_python_binary E self staged w = (r, w') → w' = w.
Proof.
  unfold find_python_binary, glob_prefix. run.
  destruct (bool_decide _); simpl; [|by intros [= _ <-]].
  destruct (sorted _) as [|c l]; [by intros [= _ <-]|].
  rewrite find_python_binary_loop_eq. by intros [= _ <-].
Qed.

End BinaryScan.

(** ** Containment of the staged tree (C3, C4) *)

Section Containment.
Context (E : Env).

Lemma check_contained_eq root p w :
  check_contained E root p w =
    (match resolve E p with
     | Resolved real =>
         if PyStr.startswith (path_str real) (path_str root) then Ok tt
         else Abort ("Path escapes install prefix: " +:+ path_str p +:+ " → " +:+
                     path_str real)
     | ResolveFailed e =>
         if is_class FileNotFoundError e
         then Abort ("Broken symlink: " +:+ path_str p)
         else Raise e
     end, w).
Proof.
  unfold check_contained, resolve_path. run.
  destruct (resolve E p) as [real|e]; simpl.
  - by destruct (PyStr.startswith _ _).
  - by destruct (is_class FileNotFoundError e).
Qed.

Lemma check_contained_ok root p w r w' :
  check_contained E root p w = (r, w') →
  w' = w ∧ (r = Ok tt ↔ passes_containment E root p = true).
Proof.
  rewrite check_contained_eq. unfold passes_containment.
  destruct (resolve E p) as [real|e].
  - destruct (PyStr.startswith _ _); intros [= <- <-]; split; done.
  - destruct (is_class _ _); intros [= <- <-]; split; done.
Qed.

(** The walk stops at the first path that does not pass, with that path's
    verdict. *)
Lemma walk_stops_at_first root pre p post w :
  (∀ q, q ∈ pre → passes_containment E root q = true) →
  passes_containment E root p = false →
  for_each (pre ++ p :: post) (check_contained E root) w =
    check_contained E root p w.
Proof.
  intros Hpre Hp. induction pre as [|q pre IH]; simpl.
  - unfold bind. destruct (check_contained E root p w) as [[[]| |] w1] eqn:Hc;
      [|done..].
    apply check_contained_ok in Hc as [_ Hc]. destruct Hc as [Hc _].
    rewrite Hc in Hp; done.
  - unfold bind. destruct (check_contained E root q w) as [r w1] eqn:Hc.
    apply check_contained_ok in Hc as [-> Hc].
    destruct Hc as [_ Hc]. rewrite Hc by (apply Hpre; left).
    apply IH. intros q' ?. apply Hpre. by right.
Qed.

Lemma walk_passes root l w :
  (∀ q, q ∈ l → passes_containment E root q = true) →
  for_each l (check_contained E root) w = (Ok tt, w).
Proof.
  induction l as [|q l IH]; intros Hl; simpl; [done|].
  unfold bind. destruct (check_contained E root q w) as [r w1] eqn:Hc.
  apply check_contained_ok in Hc as [-> Hc].
  destruct Hc as [_ Hc]. rewrite Hc by (apply Hl; left).
  apply IH. intros q' ?. apply Hl. by right.
Qed.

Lemma walk_ok_inv root l w w' :
  for_each l (check_contained E root) w = (Ok tt, w') →
  ∀ q, q ∈ l → passes_containment E root q = true.
Proof.
  induction l as [|p l IH]; simpl; [by intros _ q ?%elem_of_nil|].
  unfold bind. destruct (check_contained E root p w) as [[[]| |] w1] eqn:Hc;
    [|done..].
  apply check_contained_ok in Hc as [-> Hc]. intros Hrest q [->|Hq]%elem_of_cons.
  - by apply Hc.
  - by eapply IH.
Qed.

(** What [verify_staging] does once the staged prefix is there and a binary
    was found: it walks the tree. *)
Lemma verify_staging_walk self w bin :
  is_Some (stat (files w) (staged_prefix self)) →
  find_python_binary E self (staged_prefix self) w = (Ok bin, w) →
  verify_staging E self w =
    for_each (rglob (files w) (staged_prefix self))
             (check_contained E (staged_prefix self)) w.
Proof.
  intros Hex Hbin. unfold verify_staging. run.
  rewrite (bool_decide_eq_true_2 _ Hex). simpl. by rewrite Hbin.
Qed.

(** Verification succeeds only if every path of the walk passed the test
    the verifier computes. *)
Lemma verify_staging_ok_inv self w w' :
  verify_staging E self w = (Ok tt, w') →
  ∀ p, p ∈ rglob (files w) (staged_prefix self) →
       passes_containment E (staged_prefix self) p = true.
Proof.
  unfold verify_staging. run.
  destruct (bool_decide _); simpl; [|done].
  destruct (find_python_binary E self (staged_prefix self) w) as [[bin| |] w1] eqn:Hb;
    [|done..].
  apply find_python_binary_frame in Hb as ->. apply walk_ok_inv.
Qed.

(** The handler of the walk.  Once the staged prefix exists and the
    binary check has passed, were [resolve] to raise [FileNotFoundError] at
    a path [p] of the walk, every path walked before it having passed the
    containment test, [verify_staging] would abort at once with "Broken
    symlink: p" and leave the state as it was. *)
Lemma verify_staging_broken_symlink (self : Installer) (w : world)
    (bin : path) (pre : list path) (p : path) (post : list path) (msg : string) :
  is_Some (stat (files w) (staged_prefix self)) →
  find_python_binary E self (staged_prefix self) w = (Ok bin, w) →
  rglob (files w) (staged_prefix self) = pre ++ p :: post →
  (∀ q, q ∈ pre → passes_containment E (staged_prefix self) q = true) →
  resolve E p = ResolveFailed (Exn FileNotFoundError msg) →
  verify_staging E self w = (Abort ("Broken symlink: " +:+ path_str p), w).
Proof.
  intros Hex Hbin Hwalk Hpre Hp.
  rewrite (verify_staging_walk _ _ _ Hex Hbin), Hwalk.
  rewrite walk_stops_at_first; [|done|].
  - rewrite check_contained_eq, Hp. done.
  - unfold passes_containment. by rewrite Hp.
Qed.

(** A staged tree holding a path whose resolution fails, by whatever error,
    never passes verification. *)
Lemma verify_staging_rejects_unresolvable self w p e :
  p ∈ rglob (files w) (staged_prefix self) →
  resolve E p = ResolveFailed e →
  ∀ w', verify_staging E self w ≠ (Ok tt, w').
Proof.
  intros Hp He w' Hok.
  pose proof (verify_staging_ok_inv _ _ _ Hok p Hp) as Hpass.
  unfold passes_containment in Hpass. by rewrite He in Hpass.
Qed.

End Containment.

(** ** What a rename, a removal and a write change *)

Lemma relocate_app (src dst r : path) : relocate src dst (src ++ r) = dst ++ r.
Proof. unfold relocate. by rewrite drop_app_length. Qed.

Lemma moved_keys_NoDup (src dst : path) (m : fs) :
  NoDup ((prod_map (relocate src dst) id <$>
          map_to_list (filter (λ kv, under src kv.1) m)).*1).
Proof.
  rewrite <- list_fmap_compose.
  apply NoDup_fmap_2_strong; [|apply NoDup_map_to_list].
  intros [k1 n1] [k2 n2] H1 H2 Heq. simpl in Heq.
  apply elem_of_map_to_list, map_lookup_filter_Some in H1 as [H1 Hu1].
  apply elem_of_map_to_list, map_lookup_filter_Some in H2 as [H2 Hu2].
  simpl in *. destruct Hu1 as [r1 ->], Hu2 as [r2 ->].
  rewrite !relocate_app in Heq. apply app_inv_head in Heq as ->.
  congruence.
Qed.

Lemma moved_key_under (src dst : path) (m : fs) (k : path) :
  k ∈ (prod_map (relocate src dst) id <$>
       map_to_list (filter (λ kv, under src kv.1) m)).*1 →
  ∃ r, k = dst ++ r ∧ is_Some (m !! (src ++ r)).
Proof.
  rewrite <- list_fmap_compose.
  intros ([k0 n0] & -> & Hin)%list_elem_of_fmap.
  apply elem_of_map_to_list, map_lookup_filter_Some in Hin as [Hin Hu].
  simpl in *. destruct Hu as [r ->].
  exists r. rewrite relocate_app. eauto.
Qed.

(** After the move, the tree at [dst] is the tree that was at [src]. *)
Lemma lookup_move_tree_dst (src dst : path) (m : fs) (r : path) :
  move_tree src dst m !! (dst ++ r) = m !! (src ++ r).
Proof.
  unfold move_tree. destruct (m !! (src ++ r)) as [n|] eqn:Hsrc.
  - apply lookup_union_Some_l, elem_of_list_to_map_1; [apply moved_keys_NoDup|].
    apply list_elem_of_fmap. exists (src ++ r, n). split.
    + simpl. by rewrite relocate_app.
    + apply elem_of_map_to_list, map_lookup_filter_Some. split; [done|].
      simpl. by apply prefix_app_r.
  - apply lookup_union_None. split.
    + apply not_elem_of_list_to_map_1.
      intros (r' & Heq & [n Hn])%moved_key_under.
      apply app_inv_head in Heq as <-. congruence.
    + apply map_lookup_filter_None. right. intros n _ [_ Hd]. apply Hd.
      simpl. by apply prefix_app_r.
Qed.

(** Entries outside both trees are not affected by the move. *)
Lemma lookup_move_tree_other (src dst : path) (m : fs) (k : path) :
  ¬ under src k → ¬ under dst k → move_tree src dst m !! k = m !! k.
Proof.
  intros Hs Hd. unfold move_tree. rewrite lookup_union_r.
  - apply option_eq. intros n. rewrite map_lookup_filter_Some. simpl.
    split; [by intros [? _]|]. by intros ?.
  - apply not_elem_of_list_to_map_1. intros (r & -> & _)%moved_key_under.
    apply Hd. by apply prefix_app_r.
Qed.

Lemma lookup_prune_outside (refuse : fsop → option exn) (m : fs) (p k : path) :
  ¬ under p k → prune refuse m p !! k = m !! k.
Proof.
  intros Hk. unfold prune. apply option_eq. intros n.
  rewrite map_lookup_filter_Some. simpl.
  split; [by intros [? _]|]. intros ?. split; [done|]. by left.
Qed.

Lemma lookup_prune_clean (refuse : fsop → option exn) (m : fs) (p k : path) :
  undeletable refuse m p = [] → under p k → prune refuse m p !! k = None.
Proof.
  intros Hnone Hk. unfold prune. rewrite Hnone.
  apply map_lookup_filter_None. right. intros n _ [?|H%Exists_nil]; done.
Qed.

Lemma rglob_elem (m : fs) (p k : path) :
  k ∈ rglob m p → is_Some (m !! k) ∧ under p k ∧ k ≠ p.
Proof.
  unfold rglob. intros [(Hu & Hne & _) Hin]%list_elem_of_filter.
  apply list_elem_of_fmap in Hin as ([k' n] & -> & Hin).
  apply elem_of_map_to_list in Hin. eauto.
Qed.

Lemma children_elem (m : fs) (p k : path) :
  k ∈ children m p → is_Some (m !! k) ∧ parent k = p ∧ length k = S (length p).
Proof.
  unfold children. intros [(Hne & Hp) Hin]%list_elem_of_filter.
  apply list_elem_of_fmap in Hin as ([k' n] & -> & Hin).
  apply elem_of_map_to_list in Hin. simpl in *. split_and!; [eauto|done|].
  subst p. unfold parent. rewrite removelast_firstn_len, length_take.
  destruct k'; [done|]. simpl. lia.
Qed.

Section EffectFrames.
Context (E : Env).

Lemma os_rename_ok src dst w w' :
  os_rename E src dst w = (Ok tt, w') → src ≠ dst →
  files w' = move_tree src dst (files w) ∧ ran w' = ran w.
Proof.
  unfold os_rename. intros H Hne.
  destruct (refuses E (OpRename src dst)); [done|].
  destruct (files w !! src) as [n|]; [|done].
  rewrite bool_decide_eq_false_2 in H by done.
  case_bool_decide; [done|].
  unfold bind in H. destruct (need_parent_dir dst w) as [[[]| |] w1] eqn:Hn;
    [|done..].
  apply need_parent_dir_frame in Hn as [-> _].
  destruct n as [d| |t], (files w !! dst) as [[d'| |t']|]; run;
    try case_bool_decide; by simplify_eq.
Qed.

Lemma os_rename_ran src dst w r w' :
  os_rename E src dst w = (r, w') → ran w' = ran w.
Proof.
  intros H. destruct r as [[]|reason|e].
  - destruct (decide (src = dst)) as [->|Hne].
    + unfold os_rename in H. destruct (refuses E _); [done|].
      destruct (files w !! dst); [|done].
      rewrite bool_decide_eq_true_2 in H by done. by simplify_eq.
    + by apply os_rename_ok in H as [_ ?].
  - by apply os_rename_failed in H as [-> _].
  - by apply os_rename_failed in H as [-> _].
Qed.

Lemma write_text_frame p data w r w' :
  write_text E p data w = (r, w') →
  ran w' = ran w ∧ (r ≠ Ok tt → w' = w) ∧ (∀ reason, r ≠ Abort reason) ∧
  (r = Ok tt → files w !! p = None → files w' = <[p := File data]> (files w)).
Proof.
  unfold write_text. destruct (refuses E (OpWrite p)); [by intros [= <- <-]|].
  unfold bind. destruct (need_parent_dir p w) as [[[]| |] w1] eqn:Hn;
    apply need_parent_dir_frame in Hn as [-> Hn];
    [|by destruct (Hn reason)|by intros [= <- <-]].
  run. destruct (files w !! p) as [[d| |[[]|]]|] eqn:Hp;
    try destruct (resolve E p); run; intros [= <- <-]; done.
Qed.

Lemma rmtree_frame p w r w' :
  rmtree E p w = (r, w') →
  ran w' = ran w ∧ (∀ reason, r ≠ Abort reason) ∧
  (files w' = files w ∨ files w' = prune (refuses E) (files w) p).
Proof.
  unfold rmtree. run.
  destruct (files w !! p) as [[d| |t]|]; try (intros [= <- <-]; by auto).
  destruct (undeletable _ _ _); intros [= <- <-]; simpl; auto.
Qed.

Lemma rmtree_ignore_errors_frame p w :
  ∃ w', rmtree_ignore_errors E p w = (Ok tt, w') ∧ ran w' = ran w ∧
        (files w' = files w ∨ files w' = prune (refuses E) (files w) p).
Proof.
  unfold rmtree_ignore_errors, try_except.
  destruct (rmtree E p w) as [[[]|reason|e] w'] eqn:Hrm;
    destruct (rmtree_frame _ _ _ _ Hrm) as (Hran & Hna & Hf).
  - by exists w'.
  - by destruct (Hna reason).
  - by exists w'.
Qed.

(** With nothing in the way, the staging root and all beneath it are gone
    after the best-effort removal. *)
Lemma rmtree_ignore_errors_clean p w w' :
  rmtree_ignore_errors E p w = (Ok tt, w') →
  files w !! p = Some Dir → undeletable (refuses E) (files w) p = [] →
  ∀ k, under p k → files w' !! k = None.
Proof.
  unfold rmtree_ignore_errors, try_except, rmtree. run.
  intros H Hp Hnone k Hk. rewrite Hp, Hnone in H. simpl in H.
  injection H as <-. simpl. by apply lookup_prune_clean.
Qed.

End EffectFrames.

(** ** The manifest and the final cleanup (C7, C10) *)

Section Manifest.
Context (E : Env).

Lemma manifest_entries_eq paths entries w :
  manifest_entries paths entries w =
    (Ok (entries ++ (path_str <$> filter (λ p, is_listed (files w) p = true) paths)), w).
Proof.
  revert entries. induction paths as [|p paths IH]; intros entries; simpl.
  { by rewrite app_nil_r. }
  run. rewrite IH. rewrite filter_cons. case_decide as Hl.
  - unfold is_listed in Hl. rewrite Hl. by rewrite <- app_assoc.
  - unfold is_listed in Hl. apply not_true_is_false in Hl. by rewrite Hl.
Qed.

(** [write_manifest] writes the text of the listing taken just before, and
    a failed write leaves the state as it was. *)
Lemma write_manifest_eq self w :
  write_manifest E self w =
    try_except
      (write_text E (manifest_path self)
         (manifest_text (manifest_listing (files w) (install_version_dir self))))
      is_Exception
      (λ e, abort ("Failed to write manifest: " +:+ exn_msg e)) w.
Proof.
  unfold write_manifest, bind, get_files, gets.
  by rewrite manifest_entries_eq.
Qed.

Lemma write_manifest_frame self w r w' :
  write_manifest E self w = (r, w') →
  ran w' = ran w ∧ (r ≠ Ok tt → w' = w).
Proof.
  rewrite write_manifest_eq. unfold try_except.
  destruct (write_text E _ _ w) as [[[]|reason|e] w1] eqn:Hw;
    destruct (write_text_frame _ _ _ _ _ _ Hw) as (Hran & Hsame & Hna & _).
  - intros [= <- <-]. done.
  - by destruct (Hna reason).
  - rewrite (Hsame ltac:(done)) in *.
    destruct (is_Exception e); intros [= <- <-]; done.
Qed.

Lemma commit_install_after_promote self w w1 :
  is_Some (stat (files w) (staged_prefix self)) →
  stat (files w) (install_version_dir self) = None →
  promote E self w = (Ok tt, w1) →
  commit_install E self w =
    (write_manifest E self >> rmtree_ignore_errors E (staging_dir self)) w1.
Proof.
  intros Hstaged Hfree Hp. unfold commit_install. run.
  rewrite (bool_decide_eq_true_2 _ Hstaged). simpl.
  rewrite bool_decide_eq_false_2 by (rewrite Hfree; by intros [? ?]). simpl.
  unfold promote in Hp. run. by rewrite Hp.
Qed.

Lemma promote_frame self w r w1 :
  promote E self w = (r, w1) →
  ran w1 = ran w ∧
  (r = Ok tt → staged_prefix self ≠ install_version_dir self →
   ∃ m, grows_towards (parent (install_version_dir self)) (files w) m ∧
        files w1 = move_tree (staged_prefix self) (install_version_dir self) m).
Proof.
  unfold promote, bind.
  destruct (mkdir E _ true true w) as [[[]|reason|e] w0] eqn:Hmk;
    destruct (mkdir_frame _ _ _ _ _ _ _ Hmk) as (Hran & Hgrow & Hna);
    [|by intros [= <- <-]..].
  intros Hmv. split.
  - apply os_rename_ran in Hmv. congruence.
  - intros -> Hne. apply os_rename_ok in Hmv as [Hf _]; [|done]. eauto.
Qed.

End Manifest.

Section CommitOutcome.
Context (E : Env).

(** A commit that succeeds went through all three steps. *)
Lemma commit_install_ok_inv self w w' :
  commit_install E self w = (Ok tt, w') →
  is_Some (stat (files w) (staged_prefix self)) ∧
  stat (files w) (install_version_dir self) = None ∧
  ∃ w1 w2, promote E self w = (Ok tt, w1) ∧
           write_manifest E self w1 = (Ok tt, w2) ∧
           rmtree_ignore_errors E (staging_dir self) w2 = (Ok tt, w').
Proof.
  intros Hok.
  destruct (decide (is_Some (stat (files w) (staged_prefix self)))) as [Hs|Hs];
    [|unfold commit_install in Hok; run;
      by rewrite (bool_decide_eq_false_2 _ Hs) in Hok].
  destruct (stat (files w) (install_version_dir self)) as [kd|] eqn:Hfree.
  { unfold commit_install in Hok. run.
    rewrite (bool_decide_eq_true_2 _ Hs) in Hok. simpl in Hok.
    rewrite Hfree in Hok. by rewrite bool_decide_eq_true_2 in Hok by eauto. }
  split_and!; [done..|].
  destruct (promote E self w) as [[[]|reason|e] w1] eqn:Hp.
  - rewrite (commit_install_after_promote _ _ _ _ Hs Hfree Hp) in Hok.
    unfold bind in Hok.
    destruct (write_manifest E self w1) as [[[]|reason|e] w2] eqn:Hw;
      [|done..]. by exists w1, w2.
  - unfold commit_install in Hok. run.
    rewrite (bool_decide_eq_true_2 _ Hs) in Hok. simpl in Hok.
    rewrite Hfree in Hok.
    rewrite bool_decide_eq_false_2 in Hok by by intros [? ?]. simpl in Hok.
    unfold promote in Hp. run. by rewrite Hp in Hok.
  - unfold commit_install in Hok. run.
    rewrite (bool_decide_eq_true_2 _ Hs) in Hok. simpl in Hok.
    rewrite Hfree in Hok.
    rewrite bool_decide_eq_false_2 in Hok by by intros [? ?]. simpl in Hok.
    unfold promote in Hp. run. rewrite Hp in Hok. by destruct (is_Exception e).
Qed.

End CommitOutcome.

Section CommitSteps.
Context (E : Env) (home python_source_directory : path) (v : string).
Let self := new_installer home python_source_directory v.

Lemma staged_prefix_not_prefix : staged_prefix self ≠ install_version_dir self.
Proof.
  unfold self in *. unfold staged_prefix, nest. rewrite staging_dir_eq.
  intros H%(f_equal length). rewrite !length_app in H. simpl in H. lia.
Qed.

(** Right after a successful promotion the staging root is where it was. *)
Lemma promote_keeps_staging_root w w1 :
  files w !! staging_dir self = Some Dir →
  promote E self w = (Ok tt, w1) →
  files w1 !! staging_dir self = Some Dir.
Proof.
  unfold self in *. intros Hst Hp.
  destruct (promote_frame _ _ _ _ _ Hp) as (_ & Hm).
  destruct (Hm eq_refl (staged_prefix_not_prefix)) as (m & Hgrow & ->).
  rewrite lookup_move_tree_other.
  - destruct (Hgrow (staging_dir (new_installer home python_source_directory v)))
      as [->|(Hnone & _)]; congruence.
  - apply staging_above_staged_prefix.
  - by apply staging_off_prefix.
Qed.

(** C7 (amended).  In a commit attempt whose rename succeeded, what follows
    depends on the manifest.  If the manifest is written, the best-effort
    removal of the staging root runs as the final step, its errors
    suppressed, and [commit_install] succeeds; with nothing refusing
    removal, the staging root and all beneath it are gone.  If the manifest
    write fails, [commit_install] ends there with that failure and the
    staging root is still in place. *)
Theorem cleanup_follows_manifest (w w1 : world) :
  is_Some (stat (files w) (staged_prefix self)) →
  stat (files w) (install_version_dir self) = None →
  files w !! staging_dir self = Some Dir →
  promote E self w = (Ok tt, w1) →
  ∃ r w2, write_manifest E self w1 = (r, w2) ∧
    match r with
    | Ok _ =>
        ∃ w', commit_install E self w = (Ok tt, w')
              ∧ rmtree_ignore_errors E (staging_dir self) w2 = (Ok tt, w')
              ∧ (files w2 !! staging_dir self = Some Dir →
                 undeletable (refuses E) (files w2) (staging_dir self) = [] →
                 ∀ k, under (staging_dir self) k → files w' !! k = None)
    | _ =>
        (commit_install E self w = (r, w2))
        ∧ (files w2 !! staging_dir self = Some Dir)
    end.
Proof.
  intros Hs Hfree Hst Hp.
  pose proof (promote_keeps_staging_root _ _ Hst Hp) as Hst1.
  rewrite (commit_install_after_promote _ _ _ _ Hs Hfree Hp). unfold bind.
  destruct (write_manifest E self w1) as [r w2] eqn:Hw. exists r, w2.
  split; [done|].
  destruct (write_manifest_frame _ _ _ _ _ Hw) as (_ & Hsame).
  destruct r as [[]|reason|e].
  - destruct (rmtree_ignore_errors_frame E (staging_dir self) w2) as (w' & Hrm & _).
    exists w'. split_and!; [done..|].
    intros Hst2 Hnone. by apply (rmtree_ignore_errors_clean E _ w2).
  - rewrite (Hsame ltac:(done)). done.
  - rewrite (Hsame ltac:(done)). done.
Qed.


End CommitSteps.

(** ** The registry (C8, C9) *)

Lemma dict_set_elem {V} (d : list (string * V)) k v k' v' :
  (k', v') ∈ dict_set d k v → (k', v') ∈ d ∨ (k', v') = (k, v).
Proof.
  induction d as [|[k0 v0] d IH]; simpl.
  - intros ->%list_elem_of_singleton. by right.
  - destruct (String.eqb k0 k).
    + intros [->|?]%elem_of_cons; [by right|]. left. by right.
    + intros [->|[?|?]%IH]%elem_of_cons; [left; by left|left; by right|by right].
Qed.

Section RegistryFacts.
Context (E : Env).

Lemma check_activated_pure v w : ∃ b, check_activated E v w = (Ok b, w).
Proof.
  unfold check_activated.
  destruct (PyStr.split v ".") as [|major [|minor more]]; [by eexists..|].
  destruct (which E _); [|by eexists]. unfold bind. rewrite try_run_eq.
  destruct (spawn E _) as [[| |] out err|[] msg]; try by eexists.
  destruct (head more); by eexists.
Qed.

(** The candidate loop of the registry is a search for the first candidate
    that identifies the prefix; it records that candidate, or leaves the
    entry's verdict as it was. *)
Lemma probe_spec v cands i w :
  ∃ i', probe E v cands i w = (Ok i', w)
    ∧ prefix i' = prefix i
    ∧ match find (identifies E v) cands with
      | Some c => valid i' = true ∧ python i' = Some c
                  ∧ runtime_version i' = Some v ∧ error i' = None
      | None => valid i' = valid i ∧ python i' = python i
      end.
Proof.
  revert i. induction cands as [|c cands IH]; intros i; simpl.
  { by exists i. }
  unfold identifies at 1, version_report.
  destruct (x_ok E c); simpl; [|apply IH].
  unfold bind. rewrite try_run_eq.
  destruct (spawn E [path_str c; "-c"; version_code]) as [[| |] out err|[] msg];
    try (destruct (IH {| prefix := prefix i; python := python i;
               runtime_version := runtime_version i; valid := valid i;
               activated := activated i; error := Some msg |})
           as (i' & ? & ? & ?); by exists i').
  - destruct (String.eqb (PyStr.strip out) v) eqn:Heq; [|apply IH].
    apply String.eqb_eq in Heq as ->. by eexists.
  - edestruct IH as (i' & ? & ? & ?); by exists i'.
  - edestruct IH as (i' & ? & ? & ?); by exists i'.
Qed.

(** What [inspect_entry] says about one directory entry. *)
Lemma inspect_entry_spec entry w :
  ∃ r, inspect_entry E entry w = (Ok r, w) ∧
    ∀ v i, r = Some (v, i) →
      prefix i = entry
      ∧ v = PyStr.removeprefix (basename entry) "python-"
      ∧ match find (identifies E v) (candidates (files w) (entry // "bin")) with
        | Some c =>
            if bool_decide (is_Some (stat (files w) (entry // "bin")))
            then valid i = true ∧ python i = Some c
            else valid i = false
        | None => valid i = false
        end.
Proof.
  unfold inspect_entry, glob_prefix. run.
  destruct (bool_decide (stat (files w) entry = Some KDir)); simpl;
    [|by eexists].
  destruct (PyStr.startswith (basename entry) "python-"); simpl; [|by eexists].
  set (v := PyStr.removeprefix (basename entry) "python-").
  destruct (bool_decide (is_Some (stat (files w) (entry // "bin")))) eqn:Hbin;
    simpl.
  2:{ eexists. split; [done|]. intros v' i [= <- <-]. simpl.
      split_and!; [done..|]. by destruct (find _ _). }
  fold (candidates (files w) (entry // "bin")).
  destruct (candidates (files w) (entry // "bin")) as [|c cands] eqn:Hc.
  { eexists. split; [done|]. by intros v' i [= <- <-]. }
  destruct (probe_spec v (c :: cands)
              {| prefix := entry; python := None; runtime_version := None;
                 valid := false; activated := false; error := None |} w)
    as (i' & -> & Hpre & Hfind).
  destruct (check_activated_pure v w) as (b & ->).
  eexists. split; [done|]. intros v' i [= <- <-]. simpl.
  split_and!; [done..|].
  change (if identifies E v c then Some c else find (identifies E v) cands)
    with (find (identifies E v) (c :: cands)).
  destruct (find (identifies E v) (c :: cands)); simpl in *; tauto.
Qed.

Lemma find_installed_versions_loop_spec entries versions w :
  ∃ d, find_installed_versions_loop E entries versions w = (Ok d, w) ∧
    ∀ v i, (v, i) ∈ d →
      (v, i) ∈ versions ∨
      ∃ entry, entry ∈ entries ∧ inspect_entry E entry w = (Ok (Some (v, i)), w).
Proof.
  revert versions. induction entries as [|entry entries IH]; intros versions; simpl.
  { exists versions. split; [done|]. by left. }
  unfold bind. destruct (inspect_entry_spec entry w) as (r & Hr & _). rewrite Hr.
  destruct r as [[v0 i0]|].
  - destruct (IH (dict_set versions v0 i0)) as (d & -> & Hd). exists d.
    split; [done|]. intros v i [[?| [= -> ->]]%dict_set_elem|(e & ? & ?)]%Hd.
    + by left.
    + right. exists entry. split; [left|done].
    + right. exists e. split; [by right|done].
  - destruct (IH versions) as (d & -> & Hd). exists d.
    split; [done|]. intros v i [?|(e & ? & ?)]%Hd; [by left|].
    right. exists e. split; [by right|done].
Qed.

End RegistryFacts.

Section RegistryRoot.
Context (E : Env) (home : path).

(** The registry always answers, and only reads. *)
Lemma find_installed_versions_total w :
  ∃ installed, find_installed_versions E home w = (Ok installed, w).
Proof.
  unfold find_installed_versions. run.
  destruct (bool_decide _); simpl; [|by eexists].
  destruct (find_installed_versions_loop_spec E (children (files w) (INSTALL_ROOT home)) [] w)
    as (d & -> & _). by eexists.
Qed.

(** Every entry of the registry comes from one directory directly in the
    installation root, which is its prefix and decides the entry. *)
Lemma installed_from_entry w installed v i :
  find_installed_versions E home w = (Ok installed, w) →
  (v, i) ∈ installed →
  prefix i ∈ children (files w) (INSTALL_ROOT home) ∧
  inspect_entry E (prefix i) w = (Ok (Some (v, i)), w).
Proof.
  unfold find_installed_versions. run.
  destruct (bool_decide _); simpl; [|by intros [= <-] ?%elem_of_nil].
  destruct (find_installed_versions_loop_spec E (children (files w) (INSTALL_ROOT home)) [] w)
    as (d & -> & Hd).
  intros [= <-] [?%elem_of_nil|(entry & Hin & Hins)]%Hd; [done|].
  destruct (inspect_entry_spec E entry w) as (r & Hr & Hspec).
  rewrite Hr in Hins. injection Hins as ->.
  destruct (Hspec v i eq_refl) as (-> & _). by rewrite Hr.
Qed.

(** Whatever [remove_broken_loop] changes lies beneath the prefix of an
    entry marked invalid. *)
Lemma remove_broken_loop_frame installed acc w r w' :
  remove_broken_loop E installed acc w = (r, w') →
  ∀ k, files w' !! k ≠ files w !! k →
       ∃ v i, (v, i) ∈ installed ∧ valid i = false ∧ under (prefix i) k.
Proof.
  revert acc w. induction installed as [|[v i] installed IH]; intros acc w; simpl.
  { by intros [= <- <-] k ?. }
  destruct (valid i) eqn:Hv.
  { intros H k Hk. destruct (IH _ _ H k Hk) as (v' & i' & ? & ? & ?).
    exists v', i'. split; [by right|done]. }
  unfold bind at 1, try_except, bind at 1.
  destruct (rmtree E (prefix i) w) as [rr w1] eqn:Hrm.
  destruct (rmtree_frame _ _ _ _ _ Hrm) as (_ & Hna & Hf).
  assert (Hstep : ∀ k, files w1 !! k ≠ files w !! k → under (prefix i) k).
  { intros k Hk. destruct Hf as [Hf|Hf]; rewrite Hf in Hk; [done|].
    destruct (decide (under (prefix i) k)); [done|].
    by rewrite lookup_prune_outside in Hk. }
  assert (Hcont : ∀ b, remove_broken_loop E installed (b || acc) w1 = (r, w') →
          ∀ k, files w' !! k ≠ files w !! k →
               ∃ v0 i0, (v0, i0) ∈ (v, i) :: installed ∧ valid i0 = false
                        ∧ under (prefix i0) k).
  { intros b H k Hk.
    destruct (decide (files w' !! k = files w1 !! k)) as [Heq|Hne].
    - exists v, i. split_and!; [left|done|]. apply Hstep. congruence.
    - destruct (IH _ _ H k Hne) as (v' & i' & ? & ? & ?).
      exists v', i'. split; [by right|done]. }
  destruct rr as [[]|reason|e]; simpl.
  - apply (Hcont true).
  - by destruct (Hna reason).
  - destruct (is_Exception e); simpl; [apply (Hcont false)|].
    intros [= <- <-] k Hk. exists v, i. split_and!; [left|done|by apply Hstep].
Qed.

(** C8.  [remove_broken] removes only beneath prefixes the registry marked
    invalid: every entry at or beneath the prefix of a version marked valid
    -- a prefix holding an executable candidate that reports exactly the
    version in the directory name, with or without a manifest file -- is
    after [remove_broken] what it was before, and every entry that changed
    lies beneath the prefix of a version marked invalid. *)
Theorem remove_broken_spares_valid (w : world) (installed : list (string * info)) :
  find_installed_versions E home w = (Ok installed, w) →
  let w' := snd (remove_broken E home w) in
  (∀ v i k, (v, i) ∈ installed → valid i = true → under (prefix i) k →
            files w' !! k = files w !! k)
  ∧ (∀ k, files w' !! k ≠ files w !! k →
          ∃ v i, (v, i) ∈ installed ∧ valid i = false ∧ under (prefix i) k).
Proof.
  intros Hreg w'.
  assert (Hchg : ∀ k, files w' !! k ≠ files w !! k →
            ∃ v i, (v, i) ∈ installed ∧ valid i = false ∧ under (prefix i) k).
  { subst w'. unfold remove_broken, bind. rewrite Hreg.
    destruct (remove_broken_loop E installed false w) as [r w1] eqn:Hloop.
    simpl. by apply (remove_broken_loop_frame _ _ _ _ _ Hloop). }
  split; [|done].
  intros v i k Hin Hvalid Hk.
  destruct (decide (files w' !! k = files w !! k)) as [|Hne]; [done|].
  destruct (Hchg k Hne) as (v' & i' & Hin' & Hinvalid & Hk').
  destruct (installed_from_entry _ _ _ _ Hreg Hin) as (Hc & Hins).
  destruct (installed_from_entry _ _ _ _ Hreg Hin') as (Hc' & Hins').
  apply children_elem in Hc as (_ & _ & Hlen).
  apply children_elem in Hc' as (_ & _ & Hlen').
  assert (Heq : prefix i = prefix i').
  { apply (under_length_eq _ _ k); [done..|congruence]. }
  rewrite Heq in Hins. rewrite Hins in Hins'. injection Hins' as _ <-.
  congruence.
Qed.

End RegistryRoot.

(** A registry entry is valid exactly when its bin directory exists and
    some candidate identifies the prefix; the recorded binary is then the
    first such candidate in sorted order. *)
Lemma installed_valid_iff (E : Env) (home : path) (w : world)
    (installed : list (string * info)) (v : string) (i : info) :
  find_installed_versions E home w = (Ok installed, w) →
  (v, i) ∈ installed →
  v = PyStr.removeprefix (basename (prefix i)) "python-"
  ∧ (valid i = true ↔
       is_Some (stat (files w) (prefix i // "bin"))
       ∧ ∃ c, c ∈ candidates (files w) (prefix i // "bin")
              ∧ identifies E v c = true)
  ∧ (valid i = true →
       ∃ pre c post,
         candidates (files w) (prefix i // "bin") = pre ++ c :: post
         ∧ (∀ c', c' ∈ pre → identifies E v c' = false)
         ∧ identifies E v c = true ∧ python i = Some c).
Proof.
  intros Hreg Hin.
  destruct (installed_from_entry _ _ _ _ _ _ Hreg Hin) as (_ & Hins).
  destruct (inspect_entry_spec E (prefix i) w) as (r & Hr & Hspec).
  rewrite Hr in Hins. injection Hins as ->.
  destruct (Hspec v i eq_refl) as (_ & Hv & Hfind). split; [done|].
  destruct (find (identifies E v) (candidates (files w) (prefix i // "bin")))
    as [c|] eqn:Hf.
  - destruct (find_first _ _ _ Hf) as (pre & post & Hl & Hc & Hpre).
    case_bool_decide as Hbin.
    + destruct Hfind as [Hvalid Hpy]. split.
      * split; [|done]. intros _. split; [done|]. exists c. split; [|done].
        rewrite Hl. apply elem_of_app. right. left.
      * intros _. by exists pre, c, post.
    + rewrite Hfind. split; [|done]. split; [done|]. by intros [? _].
  - rewrite Hfind. split; [|done]. split; [done|].
    intros (_ & c & Hc & Hid). by rewrite (find_nothing _ _ Hf c Hc) in Hid.
Qed.

(** * The properties on the example machines *)

Ltac by_computation :=
  match goal with
  | |- ?l = ?r => vm_cast_no_check (@eq_refl _ r)
  end.
Ltac results_differ :=
  let H := fresh in
  intros H; apply (f_equal fst) in H; vm_compute in H; discriminate H.
Ltac by_decision :=
  match goal with
  | |- ?P => apply (@bool_decide_unpack P _); vm_compute; exact I
  end.

(** C1 on a machine where the rename crosses devices. *)
Lemma commit_failed_rename_is_clean_witness :
  ∃ w', commit_install Demo.no_rename
          (new_installer Demo.home Demo.source "3.12.2") Demo.staged_world
        = (Abort ("Commit failed: " +:+ exn_msg Demo.cross_device), w')
        ∧ stat (files w')
            (install_version_dir (new_installer Demo.home Demo.source "3.12.2")) = None
        ∧ (∀ k, under (staging_dir (new_installer Demo.home Demo.source "3.12.2")) k →
                files w' !! k = files Demo.staged_world !! k)
        ∧ ran w' = ran Demo.staged_world.
Proof.
  apply (commit_failed_rename_is_clean Demo.no_rename Demo.home Demo.source
           "3.12.2" Demo.staged_world Demo.staged_world Demo.staged_world
           Demo.cross_device).
  - by_decision.
  - by_computation.
  - by_computation.
  - by_computation.
  - by_computation.
Defined.

(** C2 on a machine where 3.12.2 is installed and managed. *)
Lemma existing_prefix_blocks_install_witness :
  check_prefix_collision Demo.self Demo.managed_world =
    (Abort (if bool_decide (is_Some (stat (files Demo.managed_world)
                                          (manifest_path Demo.self)))
            then "Python " +:+ version Demo.self +:+ " is already installed at " +:+
                 path_str (install_version_dir Demo.self)
            else "Installation directory exists but is unmanaged: " +:+
                 path_str (install_version_dir Demo.self)), Demo.managed_world)
  ∧ commit_install Demo.calm Demo.self Demo.managed_world =
    (Abort (if bool_decide (is_Some (stat (files Demo.managed_world)
                                          (staged_prefix Demo.self)))
            then "Install prefix already exists: " +:+
                 path_str (install_version_dir Demo.self)
            else "Nothing to commit: staged prefix missing"), Demo.managed_world).
Proof.
  apply (existing_prefix_blocks_install Demo.calm Demo.self Demo.managed_world).
  by_decision.
Defined.

(** C3, at the failing input: a link to a sibling of the staged prefix is
    walked, resolves outside the staged prefix, and verification succeeds
    all the same. *)
Lemma verify_staging_accepts_sibling_escape :
  Demo.escaping_link ∈ rglob (files Demo.sibling_world) Demo.staged
  ∧ resolve Demo.sibling_env Demo.escaping_link = Resolved Demo.sibling
  ∧ ¬ under Demo.staged Demo.sibling
  ∧ verify_staging Demo.sibling_env Demo.self Demo.sibling_world =
      (Ok tt, Demo.sibling_world).
Proof.
  split_and!.
  - by_decision.
  - by_computation.
  - by_decision.
  - by_computation.
Qed.

(** C4, at the failing input: the staged tree holds a dangling link, the
    walk reaches it, [resolve] answers with the path the link names -- a
    path beneath the staged prefix at which nothing is stored -- and
    verification succeeds: no "Broken symlink" abort is raised. *)
Lemma verify_staging_passes_broken_symlink :
  Demo.dangling ∈ rglob (files Demo.dangling_world) Demo.staged
  ∧ files Demo.dangling_world !! Demo.dangling = Some (Link None)
  ∧ resolve Demo.dangling_env Demo.dangling = Resolved Demo.missing
  ∧ files Demo.dangling_world !! Demo.missing = None
  ∧ verify_staging Demo.dangling_env Demo.self Demo.dangling_world =
      (Ok tt, Demo.dangling_world).
Proof.
  split_and!.
  - by_decision.
  - by_computation.
  - by_computation.
  - by_computation.
  - by_computation.
Qed.

(** C5 as stated fails: a bin directory without any candidate makes
    [find_python_binary] abort with another message. *)
Lemma no_candidate_is_another_abort :
  is_Some (stat (files Demo.pip_only_world) (Demo.staged // "bin"))
  ∧ (∀ c, c ∈ candidates (files Demo.pip_only_world) (Demo.staged // "bin") →
          qualifies Demo.calm (version Demo.self) c = false)
  ∧ find_python_binary Demo.calm Demo.self Demo.staged Demo.pip_only_world =
      (Abort "No python3.x executable found in staged install", Demo.pip_only_world)
  ∧ find_python_binary Demo.calm Demo.self Demo.staged Demo.pip_only_world ≠
      (Abort "No valid Python executable found in staged install", Demo.pip_only_world).
Proof.
  split_and!.
  - by_decision.
  - assert (candidates (files Demo.pip_only_world) (Demo.staged // "bin") = [])
      as -> by by_computation.
    by intros c ?%elem_of_nil.
  - by_computation.
  - results_differ.
Qed.

(** C5 (amended) on a machine with interpreters 3.11 and 3.12. *)
Lemma find_python_binary_first_match_witness :
  let cands := candidates (files Demo.two_pythons_world) (Demo.staged // "bin") in
  (∃ pre c post,
      cands = pre ++ c :: post
      ∧ (∀ c', c' ∈ pre → qualifies Demo.two_pythons_env (version Demo.self) c' = false)
      ∧ qualifies Demo.two_pythons_env (version Demo.self) c = true
      ∧ find_python_binary Demo.two_pythons_env Demo.self Demo.staged
          Demo.two_pythons_world = (Ok c, Demo.two_pythons_world))
  ∨ ((∀ c, c ∈ cands → qualifies Demo.two_pythons_env (version Demo.self) c = false)
      ∧ find_python_binary Demo.two_pythons_env Demo.self Demo.staged
          Demo.two_pythons_world =
          (Abort "No valid Python executable found in staged install",
           Demo.two_pythons_world)).
Proof.
  apply (find_python_binary_first_match Demo.two_pythons_env Demo.self
           Demo.staged Demo.two_pythons_world).
  - by_decision.
  - intros H. apply (f_equal length) in H. vm_compute in H. discriminate H.
Defined.

(** On that machine the 3.11 interpreter is passed over and 3.12 returned. *)
Lemma second_python_is_chosen :
  candidates (files Demo.two_pythons_world) (Demo.staged // "bin") =
    [Demo.staged // "bin" // "python3.11"; Demo.staged // "bin" // "python3.12"]
  ∧ find_python_binary Demo.two_pythons_env Demo.self Demo.staged
      Demo.two_pythons_world =
      (Ok (Demo.staged // "bin" // "python3.12"), Demo.two_pythons_world).
Proof. split; by_computation. Qed.

(** C6 as stated fails: with a staging directory in place but no Makefile,
    the abort is the Makefile one. *)
Lemma leftover_staging_without_makefile :
  is_Some (stat (files Demo.unconfigured_world) (staging_dir Demo.self))
  ∧ staged_install Demo.calm Demo.self true Demo.unconfigured_world =
      (Abort "Makefile missing — did you run configure()?", Demo.unconfigured_world)
  ∧ ∀ w', staged_install Demo.calm Demo.self true Demo.unconfigured_world ≠
          (Abort ("Staging directory already exists: " +:+
                  path_str (staging_dir Demo.self)), w').
Proof.
  split_and!.
  - by_decision.
  - by_computation.
  - intros w'. results_differ.
Qed.

(** C6 (amended) on a machine with a leftover staging directory. *)
Lemma staged_install_never_reuses_witness :
  staged_install Demo.calm Demo.self true Demo.leftover_world =
    (Abort (if bool_decide (is_Some (stat (files Demo.leftover_world)
                                          (source_directory Demo.self // "Makefile")))
            then "Staging directory already exists: " +:+
                 path_str (staging_dir Demo.self)
            else "Makefile missing — did you run configure()?"),
     Demo.leftover_world).
Proof.
  apply (staged_install_never_reuses Demo.calm Demo.self true Demo.leftover_world).
  by_decision.
Defined.

(** C7 as stated fails: the rename succeeds, nothing refuses removal, the
    manifest write is denied -- and the staging root is still there when
    [commit_install] ends. *)
Lemma staging_root_survives_manifest_failure :
  let w' := snd (commit_install Demo.no_manifest Demo.self Demo.staged_world) in
  fst (promote Demo.no_manifest Demo.self Demo.staged_world) = Ok tt
  ∧ (∀ k, refuses Demo.no_manifest (OpUnlink k) = None)
  ∧ fst (commit_install Demo.no_manifest Demo.self Demo.staged_world) =
      Abort "Failed to write manifest: Permission denied"
  ∧ files w' !! install_version_dir Demo.self = Some Dir
  ∧ files w' !! staging_dir Demo.self = Some Dir.
Proof.
  intros w'. split_and!; [by_computation| |by_computation..].
  intros k. reflexivity.
Qed.

(** C7 (amended) on the calm machine. *)
Lemma cleanup_follows_manifest_witness :
  ∃ r w2,
    write_manifest Demo.calm (new_installer Demo.home Demo.source "3.12.2")
      (snd (promote Demo.calm Demo.self Demo.staged_world)) = (r, w2) ∧
    match r with
    | Ok _ =>
        ∃ w', commit_install Demo.calm (new_installer Demo.home Demo.source "3.12.2")
                Demo.staged_world = (Ok tt, w')
              ∧ rmtree_ignore_errors Demo.calm
                  (staging_dir (new_installer Demo.home Demo.source "3.12.2")) w2
                = (Ok tt, w')
              ∧ (files w2 !! staging_dir (new_installer Demo.home Demo.source "3.12.2")
                 = Some Dir →
                 undeletable (refuses Demo.calm) (files w2)
                   (staging_dir (new_installer Demo.home Demo.source "3.12.2")) = [] →
                 ∀ k, under (staging_dir (new_installer Demo.home Demo.source "3.12.2")) k →
                      files w' !! k = None)
    | _ =>
        (commit_install Demo.calm (new_installer Demo.home Demo.source "3.12.2")
           Demo.staged_world = (r, w2))
        ∧ (files w2 !! staging_dir (new_installer Demo.home Demo.source "3.12.2")
           = Some Dir)
    end.
Proof.
  apply (cleanup_follows_manifest Demo.calm Demo.home Demo.source "3.12.2"
           Demo.staged_world (snd (promote Demo.calm Demo.self Demo.staged_world))).
  - by_decision.
  - by_computation.
  - by_computation.
  - by_computation.
Defined.

(** On the calm machine the commit succeeds and the staging root is gone. *)
Lemma calm_commit_removes_staging :
  let w' := snd (commit_install Demo.calm Demo.self Demo.staged_world) in
  fst (commit_install Demo.calm Demo.self Demo.staged_world) = Ok tt
  ∧ files w' !! staging_dir Demo.self = None
  ∧ files w' !! (install_version_dir Demo.self // "bin" // "python3.12") =
      Some (File "ELF").
Proof. intros w'. split_and!; by_computation. Qed.

(** C8 on a machine with a working, unmanaged 3.12.2 and a broken 3.11.0. *)
Lemma remove_broken_spares_valid_witness :
  let w' := snd (remove_broken Demo.tagged_env Demo.home Demo.two_prefixes_world) in
  (∀ v i k, (v, i) ∈ Demo.two_installed → valid i = true → under (prefix i) k →
            files w' !! k = files Demo.two_prefixes_world !! k)
  ∧ (∀ k, files w' !! k ≠ files Demo.two_prefixes_world !! k →
          ∃ v i, (v, i) ∈ Demo.two_installed ∧ valid i = false ∧ under (prefix i) k).
Proof.
  apply (remove_broken_spares_valid Demo.tagged_env Demo.home
           Demo.two_prefixes_world Demo.two_installed).
  by_computation.
Defined.

(** There the broken prefix is removed and the valid one, which has no
    manifest, keeps its interpreter. *)
Lemma unmanaged_valid_prefix_survives :
  let w' := snd (remove_broken Demo.tagged_env Demo.home Demo.two_prefixes_world) in
  files Demo.two_prefixes_world !!
    (Demo.root // "python-3.12.2" // ".install-manifest") = None
  ∧ files w' !! (Demo.root // "python-3.12.2" // "bin" // "python3.12") =
      Some (File "ELF")
  ∧ files w' !! (Demo.root // "python-3.11.0") = None.
Proof. intros w'. split_and!; by_computation. Qed.

(** C9, at the failing input: the only candidate runs and reports 3.12.1
    in a prefix named for 3.12.2; the entry is marked invalid and carries
    no error reason. *)
Lemma mistagged_prefix_has_no_reason :
  identifies Demo.mistagged_env "3.12.2"
    (Demo.root // "python-3.12.2" // "bin" // "python3.12") = false
  ∧ find_installed_versions Demo.mistagged_env Demo.home Demo.mistagged_world =
      (Ok [("3.12.2",
            {| prefix := Demo.root // "python-3.12.2"; python := None;
               runtime_version := None; valid := false; activated := false;
               error := None |})],
       Demo.mistagged_world).
Proof. split; by_computation. Qed.



(** * Further properties of the code *)

(** ** Searching files ([path_utils.find_files]) *)

Lemma find_files_loop_eq paths pat follow results w :
  find_files_loop paths pat follow results w =
    (Ok (results ++ filter (λ p, found (files w) pat follow p = true) paths), w).
Proof.
  revert results. induction paths as [|p paths IH]; intros results; simpl.
  { by rewrite app_nil_r. }
  run. rewrite filter_cons. unfold found.
  destruct follow, (bool_decide (∃ t, files w !! p = Some (Link t))); simpl;
    generalize (bool_decide (stat (files w) p = Some KFile))
               (regex_search pat (basename p));
    intros f r; destruct f, r; simpl; rewrite IH; repeat case_decide;
    try done; rewrite <- ?app_assoc; reflexivity.
Qed.

(** What [find_files] computes, as one equation. *)
Lemma find_files_eq (search_dir : path) (pat : pattern)
    (follow_symlinks : bool) (w : world) :
  find_files search_dir pat follow_symlinks w =
    (if bool_decide (stat (files w) search_dir = Some KDir)
     then Ok (filter (λ p, found (files w) pat follow_symlinks p = true)
                     (rglob (files w) search_dir))
     else Raise (Exn ValueError ("Not a directory: " +:+ path_str search_dir)),
     w).
Proof.
  unfold find_files. run.
  destruct (bool_decide (stat (files w) search_dir = Some KDir)); simpl; [|done].
  by rewrite find_files_loop_eq.
Qed.

(** X1.  [find_files] only reads.  Started at a directory -- a directory
    proper, not a link to one -- it returns, in the order of the walk,
    exactly the entries beneath it that are regular files, links skipped
    unless they are to be followed, and whose name the pattern matches: a
    compiled pattern where it finds a match, a string where the name
    contains it.  Started at anything that is not a directory it raises
    [ValueError]. *)
Theorem find_files_spec (search_dir : path) (pat : pattern)
    (follow_symlinks : bool) (w : world) :
  files w !! search_dir ≠ Some (Link (Some KDir)) →
  find_files search_dir pat follow_symlinks w =
    (if bool_decide (files w !! search_dir = Some Dir)
     then Ok (filter (λ p, (follow_symlinks
                            || negb (bool_decide (∃ t, files w !! p = Some (Link t))))
                           && bool_decide (stat (files w) p = Some KFile)
                           && match pat with
                              | Literal name => PyStr.contains name (basename p)
                              | Compiled search => search (basename p)
                              end = true)
                     (rglob (files w) search_dir))
     else Raise (Exn ValueError ("Not a directory: " +:+ path_str search_dir)),
     w).
Proof.
  intros Hlink. rewrite find_files_eq.
  assert (bool_decide (stat (files w) search_dir = Some KDir)
          = bool_decide (files w !! search_dir = Some Dir)) as ->.
  { apply bool_decide_ext. unfold stat.
    destruct (files w !! search_dir) as [[d| |[[]|]]|]; split; congruence. }
  reflexivity.
Qed.

(** Every result of a search that skips links is a plain file stored
    strictly beneath the directory searched. *)
Lemma find_files_no_links search_dir pat w l k :
  find_files search_dir pat false w = (Ok l, w) → k ∈ l →
  (∃ data, files w !! k = Some (File data))
  ∧ under search_dir k ∧ k ≠ search_dir
  ∧ regex_search pat (basename k) = true.
Proof.
  rewrite find_files_eq. case_bool_decide; [|done].
  intros [= <-] [Hf Hin]%list_elem_of_filter.
  apply rglob_elem in Hin as (_ & Hu & Hne).
  unfold found in Hf. simpl in Hf.
  apply andb_prop in Hf as [Hf Hre]. apply andb_prop in Hf as [Hl Hfile].
  apply bool_decide_eq_true_1 in Hfile.
  apply negb_true_iff, bool_decide_eq_false_1 in Hl.
  split_and!; [|done..].
  unfold stat in Hfile. destruct (files w !! k) as [[data| |t]|]; try done.
  - by exists data.
  - destruct Hl. by exists t.
Qed.

(** ** The writability probe and the gates of [configure] *)

Lemma parent_child (p : path) (c : string) : parent (p // c) = p.
Proof. unfold parent, child. apply removelast_last. Qed.

Section Probe.
Context (E : Env).

Lemma touch_frame p w r w' :
  touch E p w = (r, w') →
  ran w' = ran w ∧ (∀ reason, r ≠ Abort reason) ∧
  (∀ k, k ≠ p → touch_target E (files w) p ≠ Some k →
        files w' !! k = files w !! k) ∧
  (∀ k, k ≠ p → files w' !! k = files w !! k ∨ files w !! k = None).
Proof.
  unfold touch, touch_target.
  destruct (refuses E (OpTouch p)); [by intros [= <- <-]; split_and!; auto|].
  unfold bind. destruct (need_parent_dir p w) as [[[]| |] w1] eqn:Hn;
    apply need_parent_dir_frame in Hn as [-> Hn];
    [|by destruct (Hn reason)|by intros [= <- <-]; split_and!; auto].
  run. destruct (files w !! p) as [[d| |[[]|]]|] eqn:Hp; run;
    try (intros [= <- <-]; split_and!; auto; fail).
  - destruct (resolve E p) as [q|e]; run; [|intros [= <- <-]; split_and!; auto].
    destruct (files w !! q) eqn:Hq; run; [intros [= <- <-]; split_and!; auto|].
    destruct (need_parent_dir q w) as [[[]| |] w1] eqn:Hnq;
      apply need_parent_dir_frame in Hnq as [-> Hnq];
      [|by destruct (Hnq reason)|by intros [= <- <-]; split_and!; auto].
    intros [= <- <-]. simpl. split_and!; [done..| |].
    + intros k Hk Hq'. rewrite lookup_insert_ne by done.
      rewrite lookup_insert_ne; [done|]. intros ->. by destruct Hq'.
    + intros k Hk. rewrite lookup_insert_ne by done.
      destruct (decide (q = k)) as [<-|]; [by right|].
      left. by rewrite lookup_insert_ne.
  - intros [= <- <-]. simpl. split_and!; [done..| |];
      intros k Hk; rewrite ?lookup_insert_ne by done; auto.
Qed.

Lemma unlink_frame p w r w' :
  unlink E p w = (r, w') →
  ran w' = ran w ∧ (∀ reason, r ≠ Abort reason) ∧ (r ≠ Ok tt → w' = w) ∧
  (r = Ok tt → files w' = delete p (files w)).
Proof.
  unfold unlink. destruct (refuses E (OpUnlink p)); [by intros [= <- <-]|].
  run. destruct (files w !! p) as [[| |]|]; run; intros [= <- <-]; done.
Qed.

(** Whatever its outcome, the probe runs no command, removes nothing but
    its own test file, and touches besides it at most the file a dangling
    link of that name leads to. *)
Lemma check_writable_dir_frame self dir_path w r w' :
  check_writable_dir E self dir_path w = (r, w') →
  ran w' = ran w ∧
  (∀ k, k ≠ dir_path // ".write_test" →
        touch_target E (files w) (dir_path // ".write_test") ≠ Some k →
        files w' !! k = files w !! k) ∧
  (∀ k, k ≠ dir_path // ".write_test" →
        files w' !! k = files w !! k ∨ files w !! k = None).
Proof.
  unfold check_writable_dir. run.
  destruct (bool_decide (stat (files w) dir_path = Some KDir)); simpl;
    [|by intros [= <- <-]; split_and!; auto].
  destruct (touch E (dir_path // ".write_test") w) as [rt w1] eqn:Ht.
  destruct (touch_frame _ _ _ _ Ht) as (Hran1 & _ & Hf1 & Hk1).
  destruct rt as [[]|reason|e].
  - destruct (unlink E (dir_path // ".write_test") w1) as [ru w2] eqn:Hu.
    destruct (unlink_frame _ _ _ _ Hu) as (Hran2 & _ & Hsame2 & Hok2).
    assert (Hf2 : ∀ k, k ≠ dir_path // ".write_test" →
                       files w2 !! k = files w1 !! k).
    { intros k Hk. destruct ru as [[]|reason|e]; [|by rewrite Hsame2..].
      rewrite (Hok2 eq_refl). by rewrite lookup_delete_ne. }
    destruct ru as [[]|reason|e]; try destruct (is_class _ _);
      intros [= <- <-]; (split_and!; [congruence| |]);
      intros k Hk; rewrite Hf2 by done; auto.
  - intros [= <- <-]. split_and!; [congruence|done..].
  - destruct (is_class _ _); intros [= <- <-]; split_and!; (congruence || done).
Qed.

(** X2.  The writability probe leaves no trace: on a directory that has no
    entry named [.write_test], with the system refusing neither the touch
    nor the unlink, [check_writable_dir] succeeds and the state afterwards
    is the state before. *)
Theorem check_writable_dir_leaves_no_trace (self : Installer)
    (dir_path : path) (w : world) :
  stat (files w) dir_path = Some KDir →
  files w !! (dir_path // ".write_test") = None →
  refuses E (OpTouch (dir_path // ".write_test")) = None →
  refuses E (OpUnlink (dir_path // ".write_test")) = None →
  check_writable_dir E self dir_path w = (Ok tt, w).
Proof.
  intros Hdir Hfree Ht Hu. unfold check_writable_dir, touch, unlink, need_parent_dir.
  rewrite Ht, Hu. run. rewrite (bool_decide_eq_true_2 _ Hdir). simpl.
  rewrite parent_child, Hdir, Hfree. simpl. rewrite lookup_insert_eq. simpl.
  rewrite delete_insert_id by done. by destruct w.
Qed.

(** X3.  The probe does not look before it deletes: a file, or a link
    that leads somewhere, named [.write_test] and already in the directory
    is removed by a successful probe, and nothing else changes. *)
Theorem check_writable_dir_removes_namesake (self : Installer)
    (dir_path : path) (w : world) (n : node) :
  stat (files w) dir_path = Some KDir →
  files w !! (dir_path // ".write_test") = Some n →
  n ≠ Dir → n ≠ Link None →
  refuses E (OpTouch (dir_path // ".write_test")) = None →
  refuses E (OpUnlink (dir_path // ".write_test")) = None →
  check_writable_dir E self dir_path w =
    (Ok tt, World (delete (dir_path // ".write_test") (files w)) (ran w)).
Proof.
  intros Hdir Hn Hnd Hnl Ht Hu.
  unfold check_writable_dir, touch, unlink, need_parent_dir.
  rewrite Ht, Hu. run. rewrite (bool_decide_eq_true_2 _ Hdir). simpl.
  rewrite parent_child, Hdir, Hn. simpl.
  destruct n as [d| |[k|]]; try done; run; by rewrite Hn.
Qed.

(** X30.  The probe can leave a trace: when [.write_test] is a dangling
    link, [touch] creates the file the link leads to, [unlink] then removes
    the link only, and the new file stays behind -- wherever the link
    leads. *)
Theorem check_writable_dir_through_dangling_link (self : Installer)
    (dir_path : path) (w : world) (q : path) :
  stat (files w) dir_path = Some KDir →
  files w !! (dir_path // ".write_test") = Some (Link None) →
  resolve E (dir_path // ".write_test") = Resolved q →
  files w !! q = None →
  stat (files w) (parent q) = Some KDir →
  refuses E (OpTouch (dir_path // ".write_test")) = None →
  refuses E (OpUnlink (dir_path // ".write_test")) = None →
  check_writable_dir E self dir_path w =
    (Ok tt, World (delete (dir_path // ".write_test")
                     (<[q := File EmptyString]> (files w))) (ran w)).
Proof.
  intros Hdir Hn Hres Hq Hpq Ht Hu.
  unfold check_writable_dir, touch, unlink, need_parent_dir.
  rewrite Ht, Hu. run. rewrite (bool_decide_eq_true_2 _ Hdir). simpl.
  rewrite parent_child, Hdir, Hn, Hres. simpl. rewrite Hq, Hpq. simpl.
  rewrite lookup_insert_eq. simpl. by rewrite delete_insert_eq.
Qed.

(** X4.  [configure] on a source tree that is missing, or has no
    [configure] file, aborts at source-tree validation: no command is run
    and nothing is created. *)
Theorem configure_rejects_bad_source (self : Installer) (w : world) :
  stat (files w) (source_directory self) ≠ Some KDir
  ∨ stat (files w) (source_directory self // "configure") ≠ Some KFile →
  configure E self w =
    (Abort (if bool_decide (stat (files w) (source_directory self) = Some KDir)
            then "Invalid Python source tree (missing configure)"
            else "Python source directory does not exist"), w).
Proof.
  intros Hbad. unfold configure, pre_install_step, validate_source_tree. run.
  case_bool_decide as Hd; simpl; [|done].
  destruct Hbad as [?|Hc]; [done|].
  by rewrite (bool_decide_eq_false_2 _ Hc).
Qed.

End Probe.

Section ConfigureInstalled.
Context (E : Env) (home python_source_directory : path) (v : string).
Let self := new_installer home python_source_directory v.

(** [configure] in front of an existing prefix. *)
Lemma configure_blocked_by_prefix (w : world) :
  is_Some (stat (files w) (install_version_dir self)) →
  ∃ r w', configure E self w = (r, w')
    ∧ r ≠ Ok tt
    ∧ ran w' = ran w
    ∧ ∀ k, k ≠ install_global_dir self // ".write_test" →
           touch_target E (files w) (install_global_dir self // ".write_test")
             ≠ Some k →
           files w' !! k = files w !! k.
Proof.
  intros Hex. unfold configure, pre_install_step, bind.
  destruct (validate_source_tree self w) as [rv wv] eqn:Hv.
  assert (wv = w) as ->.
  { unfold validate_source_tree in Hv. run. run.
    destruct (bool_decide _); simpl in Hv; [|by simplify_eq].
    destruct (bool_decide _); simpl in Hv; by simplify_eq. }
  destruct rv as [[]|reason|e]; [|by eexists _, _..].
  destruct (check_writable_dir E self (install_global_dir self) w) as [rc w1] eqn:Hc.
  destruct (check_writable_dir_frame _ _ _ _ _ _ Hc) as (Hran & Hf & Hk).
  destruct rc as [[]|reason|e]; [|by eexists _, _..].
  assert (Hex1 : is_Some (stat (files w1) (install_version_dir self))).
  { unfold stat in *.
    destruct (Hk (install_version_dir self)) as [-> | Hnone]; [|done|].
    - unfold self. simpl. unfold child. intros Heq%app_inj_tail. by destruct Heq.
    - rewrite Hnone in Hex. by destruct Hex. }
  unfold check_prefix_collision. run.
  rewrite (bool_decide_eq_true_2 _ Hex1).
  destruct (bool_decide _); by eexists _, _.
Qed.

(** X5.  [configure] for a version whose prefix already exists, as a
    directory or a file and not as a link, never succeeds and never runs the
    configure command.  The only entries it can touch on the way are those
    of the writability probe: the file [.write_test] of the installation
    root and, should that be a dangling link, the file the link leads to. *)
Theorem configure_stops_at_existing_prefix (w : world) :
  is_Some (stat (files w) (install_version_dir self)) →
  (∀ t, files w !! install_version_dir self ≠ Some (Link t)) →
  ∃ r w', configure E self w = (r, w')
    ∧ r ≠ Ok tt
    ∧ ran w' = ran w
    ∧ ∀ k, k ≠ install_global_dir self // ".write_test" →
           touch_target E (files w) (install_global_dir self // ".write_test")
             ≠ Some k →
           files w' !! k = files w !! k.
Proof. intros Hex _. by apply configure_blocked_by_prefix. Qed.

End ConfigureInstalled.

(** ** Build steps and the staged install *)

Section BuildSteps.
Context (E : Env).

(** X6.  Once its log file is open, [_run_logged] turns the exit status of
    the build step into its result: status zero is success, any other
    status is an abort that names the command and the log file; either way
    the step has run exactly once and left the file system the build left. *)
Theorem run_logged_reports_exit_status (self : Installer) (cmd : list string)
    (cwd : path) (log_name : string) (w w1 : world) (code : Z) (m' : fs) :
  write_text E (log_dir self // log_name) EmptyString w = (Ok tt, w1) →
  build E cmd cwd (files w1) = (inl code, m') →
  _run_logged E self cmd cwd log_name w =
    (if bool_decide (code = 0%Z) then Ok tt
     else Abort ("Command failed: " +:+ PyStr.join " " cmd +:+ nl +:+
                 "See log: " +:+ path_str (log_dir self // log_name)),
     World m' (cmd :: ran w)).
Proof.
  intros Hlog Hbuild.
  destruct (write_text_frame _ _ _ _ _ _ Hlog) as (Hran & _).
  unfold _run_logged, run_build. run. rewrite Hlog, Hbuild, Hran.
  destruct code; done.
Qed.

Lemma run_logged_ok_inv self cmd cwd log_name w w' :
  _run_logged E self cmd cwd log_name w = (Ok tt, w') →
  ran w' = cmd :: ran w.
Proof.
  unfold _run_logged, run_build. run.
  destruct (write_text E _ _ w) as [[[]|reason|e] w1] eqn:Hlog;
    destruct (write_text_frame _ _ _ _ _ _ Hlog) as (Hran & _);
    try (repeat case_match; done).
  destruct (build E cmd cwd (files w1)) as [[[| |]|e] m'];
    simpl; try (repeat case_match; done).
  intros [= <-]. simpl. by rewrite Hran.
Qed.

(** Removing files one by one runs no command and changes only the files
    named, each of which is gone if it changed. *)
Lemma for_each_unlink_frame l w r w' :
  for_each l (unlink E) w = (r, w') →
  ran w' = ran w ∧
  ∀ k, files w' !! k ≠ files w !! k → k ∈ l ∧ files w' !! k = None.
Proof.
  revert w. induction l as [|p l IH]; intros w; simpl.
  { intros [= <- <-]. split; [done|]. by intros k ?. }
  unfold bind. destruct (unlink E p w) as [ru w1] eqn:Hu.
  destruct (unlink_frame _ _ _ _ _ Hu) as (Hran & Hna & Hsame & Hok).
  destruct ru as [[]|reason|e].
  - intros Hrest. destruct (IH _ Hrest) as (Hran' & Hf). split; [congruence|].
    intros k Hk. destruct (decide (files w' !! k = files w1 !! k)) as [Heq|Hne].
    + rewrite Heq in *. rewrite (Hok eq_refl) in *.
      destruct (decide (k = p)) as [->|Hkp].
      * split; [left|]. by rewrite lookup_delete_eq.
      * by rewrite lookup_delete_ne in Hk.
    + destruct (Hf k Hne). split; [by right|done].
  - by destruct (Hna reason).
  - intros [= <- <-]. rewrite (Hsame ltac:(done)). split; [done|]. by intros k ?.
Qed.

(** The staged install is the install with Tk, followed by the stripping
    when Tk is disabled. *)
Lemma staged_install_with_tk_first self enable_tk w :
  staged_install E self enable_tk w =
    (staged_install E self true >>
     if negb enable_tk then
       let* tk_modules := find_files (staged_prefix self) (Compiled tk_regex) false in
       for_each tk_modules (unlink E)
     else ret tt) w.
Proof.
  unfold staged_install. run. run.
  repeat (case_match; simplify_eq/=; try done).
Qed.

(** What a successful staged install shows about its start. *)
Lemma staged_install_ok_facts (self : Installer) (enable_tk : bool)
    (w w' : world) :
  staged_install E self enable_tk w = (Ok tt, w') →
  is_Some (stat (files w) (source_directory self // "Makefile"))
  ∧ stat (files w) (staging_dir self) = None
  ∧ ran w' =
      ["make"; "altinstall"; "DESTDIR=" +:+ path_str (staging_dir self)] :: ran w.
Proof.
  rewrite staged_install_with_tk_first. unfold bind at 1.
  destruct (staged_install E self true w) as [[[]|reason|e] w1] eqn:Hcore;
    [|done..].
  intros Htail.
  assert (Hran : ran w' = ran w1).
  { destruct enable_tk; simpl in Htail; [by injection Htail as <-|].
    unfold bind in Htail. rewrite find_files_eq in Htail.
    case_bool_decide; [|done].
    by apply for_each_unlink_frame in Htail as [? _]. }
  rewrite Hran. clear Htail Hran. unfold staged_install in Hcore. run. run.
  destruct (bool_decide (is_Some (stat (files w) (source_directory self // "Makefile"))))
    eqn:Hmk; simpl in Hcore; [|done].
  apply bool_decide_eq_true_1 in Hmk.
  destruct (bool_decide (is_Some (stat (files w) (staging_dir self))))
    eqn:Hst; simpl in Hcore; [done|].
  apply bool_decide_eq_false_1 in Hst.
  destruct (mkdir E (staging_dir self) true false w) as [[[]|reason|e] w0] eqn:Hmd;
    destruct (mkdir_frame _ _ _ _ _ _ _ Hmd) as (Hran0 & _ & _);
    try (repeat case_match; done).
  destruct (_run_logged E self _ _ _ w0) as [[[]|reason|e] w2] eqn:Hrun;
    [|done..].
  apply run_logged_ok_inv in Hrun. injection Hcore as <-.
  split_and!; [done| |congruence].
  destruct (stat (files w) (staging_dir self)); [|done]. destruct Hst. eauto.
Qed.

(** X7.  A staged install that succeeds started from a configured source
    tree and from no staging directory at all, and the one build command it
    ran is [make altinstall] with the staging directory as [DESTDIR]. *)
Theorem staged_install_ok_inv (self : Installer) (enable_tk : bool)
    (w w' : world) :
  staged_install E self enable_tk w = (Ok tt, w') →
  is_Some (stat (files w) (source_directory self // "Makefile"))
  ∧ stat (files w) (staging_dir self) = None
  ∧ ran w' =
      ["make"; "altinstall"; "DESTDIR=" +:+ path_str (staging_dir self)] :: ran w.
Proof. apply staged_install_ok_facts. Qed.

(** X8.  Disabling Tk only deletes: compared with the same install with
    Tk, an install without Tk runs the same commands and differs only in
    regular files beneath the staged prefix, with a name that
    [^_tkinter.*\.so$] matches, that are now gone; no link and nothing
    outside the staged prefix is removed.  (For a build that leaves the
    staged prefix a directory proper, not a link to one.) *)
Theorem staged_install_without_tk_only_strips (self : Installer)
    (w w_tk : world) (r : result unit) (w' : world) :
  files w_tk !! staged_prefix self ≠ Some (Link (Some KDir)) →
  staged_install E self true w = (Ok tt, w_tk) →
  staged_install E self false w = (r, w') →
  ran w' = ran w_tk ∧
  ∀ k, files w' !! k ≠ files w_tk !! k →
       (∃ data, files w_tk !! k = Some (File data))
       ∧ files w' !! k = None
       ∧ under (staged_prefix self) k ∧ k ≠ staged_prefix self
       ∧ tk_regex (basename k) = true.
Proof.
  intros _ Htk. rewrite staged_install_with_tk_first. unfold bind at 1.
  rewrite Htk. simpl. unfold bind.
  destruct (find_files (staged_prefix self) (Compiled tk_regex) false w_tk)
    as [[l| |] w1] eqn:Hfind;
    pose proof Hfind as Hfind'; rewrite find_files_eq in Hfind';
    injection Hfind' as Hr <-;
    [|by case_bool_decide|intros [= <- <-]; split; [done|by intros k ?]].
  intros Hloop. destruct (for_each_unlink_frame _ _ _ _ Hloop) as (Hran & Hf).
  split; [done|]. intros k Hk. destruct (Hf k Hk) as (Hin & Hgone).
  destruct (find_files_no_links _ _ _ _ _ Hfind Hin) as (? & ? & ? & ?).
  done.
Qed.

End BuildSteps.

(** ** What a successful commit leaves *)

Lemma lookup_prune_None (refuse : fsop → option exn) (m : fs) (p k : path) :
  m !! k = None → prune refuse m p !! k = None.
Proof. intros H. unfold prune. apply map_lookup_filter_None. by left. Qed.

Lemma lookup_move_tree_src (src dst : path) (m : fs) (k : path) :
  under src k → ¬ under dst k → move_tree src dst m !! k = None.
Proof.
  intros Hs Hd. unfold move_tree. apply lookup_union_None. split.
  - apply not_elem_of_list_to_map_1. intros (r & -> & _)%moved_key_under.
    apply Hd. by apply prefix_app_r.
  - apply map_lookup_filter_None. right. intros n _ [Hns _]. by apply Hns.
Qed.

Section CommitEffect.
Context (E : Env) (home python_source_directory : path) (v : string).
Let self := new_installer home python_source_directory v.

Lemma manifest_path_eq :
  manifest_path self = install_version_dir self ++ [".install-manifest"].
Proof. done. Qed.

(** The file system a successful commit leaves, entry by entry, when the
    staged tree ships no manifest of its own. *)
Lemma commit_install_effect w w' :
  files w !! (staged_prefix self // ".install-manifest") = None →
  commit_install E self w = (Ok tt, w') →
  (∃ text, files w' !! manifest_path self = Some (File text))
  ∧ (∀ r, r ≠ [".install-manifest"] →
          files w' !! (install_version_dir self ++ r) =
          files w !! (staged_prefix self ++ r))
  ∧ (∀ r, files w' !! (staged_prefix self ++ r) = None)
  ∧ (∀ k, ¬ under (install_version_dir self) k → ¬ under (staging_dir self) k →
          ¬ under k (parent (install_version_dir self)) →
          files w' !! k = files w !! k)
  ∧ ran w' = ran w.
Proof.
  intros Hnone Hok.
  destruct (commit_install_ok_inv _ _ _ _ Hok)
    as (Hs & Hfree & w1 & w2 & Hp & Hw & Hrm).
  destruct (promote_frame _ _ _ _ _ Hp) as (Hran1 & Hm).
  destruct (Hm eq_refl (staged_prefix_not_prefix home python_source_directory v))
    as (m & Hgrow & Hf1).
  assert (Hstaged : ∀ r, m !! (staged_prefix self ++ r) =
                         files w !! (staged_prefix self ++ r)).
  { intros r. destruct (Hgrow (staged_prefix self ++ r)) as [->|(_ & _ & Hu)]; [done|].
    unfold self in *. rewrite parent_install_version_dir in Hu.
    destruct (staging_off_install_root home python_source_directory v
                (staged_prefix (new_installer home python_source_directory v) ++ r));
      [|done].
    unfold staged_prefix, nest. rewrite <- app_assoc. by apply prefix_app_r. }
  assert (Hfresh : files w1 !! manifest_path self = None).
  { rewrite manifest_path_eq, Hf1, lookup_move_tree_dst, Hstaged. done. }
  rewrite write_manifest_eq in Hw. unfold try_except in Hw.
  destruct (write_text E _ _ w1) as [[[]|reason|e] w2'] eqn:Hwt;
    [|done|by destruct (is_Exception e)].
  injection Hw as ->.
  destruct (write_text_frame _ _ _ _ _ _ Hwt) as (Hran2 & _ & _ & Hins).
  specialize (Hins eq_refl Hfresh).
  destruct (rmtree_ignore_errors_frame E (staging_dir self) w2)
    as (w'' & Hrm' & Hran3 & Hf3).
  rewrite Hrm in Hrm'. injection Hrm' as <-.
  assert (Hout : ∀ k, under (install_version_dir self) k →
                      files w' !! k = files w2 !! k).
  { intros k Hk. destruct Hf3 as [->| ->]; [done|].
    apply lookup_prune_outside. intros Hu. unfold self in *.
    by apply (staging_off_prefix home python_source_directory v k). }
  split_and!.
  - eexists. rewrite Hout by (rewrite manifest_path_eq; by apply prefix_app_r).
    rewrite Hins. apply lookup_insert_eq.
  - intros r Hr. rewrite Hout by by apply prefix_app_r.
    rewrite Hins, lookup_insert_ne, Hf1, lookup_move_tree_dst, Hstaged; [done|].
    rewrite manifest_path_eq. by intros ?%app_inv_head.
  - intros r.
    assert (Hus : under (staging_dir self) (staged_prefix self ++ r)).
    { unfold staged_prefix, nest. rewrite <- app_assoc. by apply prefix_app_r. }
    assert (H2 : files w2 !! (staged_prefix self ++ r) = None).
    { rewrite Hins, lookup_insert_ne, Hf1.
      - apply lookup_move_tree_src; [by apply prefix_app_r|].
        unfold self in *.
        by apply (staging_off_prefix home python_source_directory v).
      - rewrite manifest_path_eq. intros Heq.
        unfold self in *.
        apply (staging_off_prefix home python_source_directory v _ Hus).
        rewrite <- Heq. by apply prefix_app_r. }
    destruct Hf3 as [->| ->]; [done|]. by apply lookup_prune_None.
  - intros k Hni Hns Hnp.
    assert (H2 : files w2 !! k = files w !! k).
    { rewrite Hins, lookup_insert_ne, Hf1, lookup_move_tree_other.
      - destruct (Hgrow k) as [->|(_ & _ & Hu)]; done.
      - intros Hu. apply Hns. etrans; [|done].
        unfold staged_prefix, nest. by apply prefix_app_r.
      - done.
      - intros <-. apply Hni. rewrite manifest_path_eq. by apply prefix_app_r. }
    destruct Hf3 as [->| ->]; [done|]. by rewrite lookup_prune_outside.
  - apply write_text_frame in Hwt as (? & _). congruence.
Qed.


(** X10.  For a staged prefix that is a directory proper and ships no
    [.install-manifest] of its own, a successful commit disturbs nothing
    else: no build command is run, and every entry that is neither beneath
    the permanent prefix, nor beneath the staging root, nor a directory on
    the way to the installation root, is as it was -- other installed
    versions included. *)
Theorem commit_leaves_rest_alone (w w' : world) :
  files w !! staged_prefix self = Some Dir →
  files w !! (staged_prefix self // ".install-manifest") = None →
  commit_install E self w = (Ok tt, w') →
  ran w' = ran w ∧
  ∀ k, ¬ under (install_version_dir self) k → ¬ under (staging_dir self) k →
       ¬ under k (parent (install_version_dir self)) →
       files w' !! k = files w !! k.
Proof.
  intros _ Hnone Hok.
  destruct (commit_install_effect _ _ Hnone Hok) as (_ & _ & _ & H1 & H2). done.
Qed.


End CommitEffect.

(** ** Text of paths *)

Lemma str_prefix_app (s t : string) : String.prefix s (s +:+ t) = true.
Proof.
  induction s as [|c s IH]; simpl; [by destruct t|].
  by destruct (ascii_dec c c).
Qed.

Lemma str_prefix_inv (s t : string) :
  String.prefix s t = true → ∃ r, t = s +:+ r.
Proof.
  revert t. induction s as [|c s IH]; intros t; simpl.
  { intros _. by exists t. }
  destruct t as [|d t]; simpl; [done|].
  destruct (ascii_dec c d) as [->|]; [|done].
  intros [r ->]%IH. by exists r.
Qed.

Lemma str_app_cons (x : ascii) (a b : string) :
  String x a +:+ b = String x (a +:+ b).
Proof. reflexivity. Qed.

Lemma str_app_assoc (a b c : string) : (a +:+ b) +:+ c = a +:+ (b +:+ c).
Proof.
  induction a as [|x a IH]; [reflexivity|].
  by rewrite !str_app_cons, IH.
Qed.

Lemma str_app_nil_r (a : string) : a +:+ EmptyString = a.
Proof.
  induction a as [|x a IH]; [reflexivity|].
  by rewrite str_app_cons, IH.
Qed.

Lemma concat_nosep_cons (x : string) (l : list string) :
  String.concat EmptyString (x :: l) = x +:+ String.concat EmptyString l.
Proof. destruct l; simpl; [by rewrite str_app_nil_r|done]. Qed.

Lemma concat_nosep_app (l1 l2 : list string) :
  String.concat EmptyString (l1 ++ l2) =
  String.concat EmptyString l1 +:+ String.concat EmptyString l2.
Proof.
  induction l1 as [|x l1 IH]; [done|].
  rewrite <- app_comm_cons, !concat_nosep_cons, IH. by rewrite str_app_assoc.
Qed.

(** A path beneath another starts, as text, with the text of the other. *)
Lemma path_str_under (p k : path) :
  under p k → PyStr.startswith (path_str k) (path_str p) = true.
Proof.
  intros [r ->]. unfold PyStr.startswith.
  destruct p as [|c p].
  - destruct r as [|d r]; [done|]. rewrite app_nil_l. unfold path_str.
    rewrite fmap_cons, concat_nosep_cons, str_app_assoc.
    apply (str_prefix_app "/").
  - rewrite <- app_comm_cons. unfold path_str.
    rewrite app_comm_cons, fmap_app, concat_nosep_app. apply str_prefix_app.
Qed.

(** ** Verification reads, and accepts a contained tree *)

Section VerifyMore.
Context (E : Env).

(** [verify_staging] changes nothing. *)
Lemma verify_staging_frame (self : Installer) (w : world)
    (r : result unit) (w' : world) :
  verify_staging E self w = (r, w') → w' = w.
Proof.
  unfold verify_staging. run.
  destruct (bool_decide _); simpl; [|by intros [= _ <-]].
  destruct (find_python_binary E self (staged_prefix self) w) as [rb w1] eqn:Hb.
  apply find_python_binary_frame in Hb as ->.
  destruct rb as [bin| |]; [|by intros [= _ <-]..].
  generalize (rglob (files w) (staged_prefix self)). intros l.
  induction l as [|p l IH]; simpl; [by intros [= _ <-]|].
  unfold bind. destruct (check_contained E (staged_prefix self) p w) as [rc w1] eqn:Hc.
  apply check_contained_ok in Hc as [-> _].
  destruct rc; [done|by intros [= _ <-]..].
Qed.

(** X12.  [verify_staging] only looks: whatever its outcome -- success,
    abort or error -- the file system and the list of commands run are
    what they were. *)
Theorem verify_staging_read_only (self : Installer) (w : world)
    (r : result unit) (w' : world) :
  verify_staging E self w = (r, w') → w' = w.
Proof. apply verify_staging_frame. Qed.

(** X13.  Verification accepts every honest tree: if the staged prefix
    exists, a binary qualifies, and every path of the walk resolves to a
    location at or beneath the staged prefix, then [verify_staging]
    succeeds. *)
Theorem verify_staging_accepts_contained (self : Installer) (w : world)
    (bin : path) :
  is_Some (stat (files w) (staged_prefix self)) →
  find_python_binary E self (staged_prefix self) w = (Ok bin, w) →
  (∀ p, p ∈ rglob (files w) (staged_prefix self) →
        ∃ real, resolve E p = Resolved real ∧ under (staged_prefix self) real) →
  verify_staging E self w = (Ok tt, w).
Proof.
  intros Hex Hbin Hall. rewrite (verify_staging_walk _ _ _ _ Hex Hbin).
  apply walk_passes. intros q Hq. destruct (Hall q Hq) as (real & Hr & Hu).
  unfold passes_containment. rewrite Hr. by apply path_str_under.
Qed.

End VerifyMore.

(** ** The installer, step after step *)

Section Steps.
Context (E : Env).

Lemma os_mkdir_not_ok p w r w' :
  os_mkdir E p w = (r, w') → r ≠ Ok tt → w' = w.
Proof.
  unfold os_mkdir. destruct (files w !! p); [by intros [= <- <-]|].
  unfold bind. destruct (need_parent_dir p w) as [[[]| |] w1] eqn:Hn;
    apply need_parent_dir_frame in Hn as [-> Hn]; [|by intros [= <- <-]..].
  destruct (refuses E (OpMkdir p)); run; by intros [= <- <-].
Qed.

(** A [mkdir] that succeeds leaves a directory at its path. *)
Lemma mkdir_go_ok fuel p parents exist_ok w w' :
  mkdir_go E fuel p parents exist_ok w = (Ok tt, w') →
  stat (files w') p = Some KDir.
Proof.
  revert p parents exist_ok w w'.
  induction fuel as [|n IH]; intros p parents exist_ok w w'; simpl;
    unfold try_except;
    destruct (os_mkdir E p w) as [[[]|reason|e] w1] eqn:Hmk.
  all: try (intros [= <-]; unfold os_mkdir in Hmk;
            destruct (files w !! p); [done|]; unfold bind in Hmk;
            destruct (need_parent_dir p w) as [[[]| |] w2] eqn:Hn; [|done..];
            apply need_parent_dir_frame in Hn as [-> _];
            destruct (refuses E (OpMkdir p)); run; [done|];
            injection Hmk as <-; unfold stat; simpl;
            by rewrite lookup_insert_eq).
  all: try done.
  all: apply os_mkdir_not_ok in Hmk as ->; [|done].
  - case_bool_decide.
    + by destruct (negb parents || bool_decide (parent p = p)).
    + run. destruct exist_ok; simpl; [|done]. case_bool_decide; [|done].
      by intros [= <-].
  - case_bool_decide.
    + destruct (negb parents || bool_decide (parent p = p)); [done|].
      unfold bind. destruct (mkdir_go E n (parent p) true true w) as [[[]| |] w2];
        [|done..]. apply IH.
    + run. destruct exist_ok; simpl; [|done]. case_bool_decide; [|done].
      by intros [= <-].
Qed.

Lemma grows_keeps p m m' k n :
  grows_towards p m m' → m !! k = Some n → m' !! k = Some n.
Proof. intros Hg Hk. destruct (Hg k) as [->|(? & _)]; congruence. Qed.

Lemma grows_keeps_stat p m m' k kd :
  grows_towards p m m' → stat m k = Some kd → stat m' k = Some kd.
Proof.
  intros Hg. unfold stat. destruct (m !! k) as [n|] eqn:Hk; [|done].
  by rewrite (grows_keeps _ _ _ _ _ Hg Hk).
Qed.

(** X14.  When [Installer.__init__] succeeds, the log directory and the
    installation root are directories, every entry that existed before is
    still what it was, and no command has run. *)
Theorem init_makes_directories (home python_source_directory : path)
    (v : string) (w : world) (self : Installer) (w' : world) :
  init E home python_source_directory v w = (Ok self, w') →
  self = new_installer home python_source_directory v
  ∧ stat (files w') (log_dir self) = Some KDir
  ∧ stat (files w') (install_global_dir self) = Some KDir
  ∧ (∀ k n, files w !! k = Some n → files w' !! k = Some n)
  ∧ ran w' = ran w.
Proof.
  unfold init, bind, try_except.
  destruct (mkdir E (log_dir _) true true w) as [[[]| |] w1] eqn:H1; [|done..].
  destruct (mkdir E (install_global_dir _) true true w1) as [[[]| |e] w2] eqn:H2;
    [|done|by destruct (is_class _ _)].
  intros [= <- <-].
  destruct (mkdir_frame _ _ _ _ _ _ _ H1) as (Hr1 & Hg1 & _).
  destruct (mkdir_frame _ _ _ _ _ _ _ H2) as (Hr2 & Hg2 & _).
  apply mkdir_go_ok in H1. apply mkdir_go_ok in H2.
  split_and!; [done| |done| |congruence].
  - by eapply grows_keeps_stat.
  - intros k n Hk. eapply grows_keeps; [done|]. by eapply grows_keeps.
Qed.

(** What [pre_install_step] changes, and what its success shows. *)
Lemma pre_install_step_frame self w r w' :
  pre_install_step E self w = (r, w') →
  ran w' = ran w ∧
  (∀ k, k ≠ install_global_dir self // ".write_test" →
        files w' !! k = files w !! k ∨ files w !! k = None) ∧
  (r = Ok tt →
   stat (files w) (source_directory self) = Some KDir
   ∧ stat (files w) (source_directory self // "configure") = Some KFile
   ∧ stat (files w) (install_global_dir self) = Some KDir
   ∧ refuses E (OpTouch (install_global_dir self // ".write_test")) = None
   ∧ refuses E (OpUnlink (install_global_dir self // ".write_test")) = None
   ∧ stat (files w') (install_version_dir self) = None).
Proof.
  unfold pre_install_step, bind.
  destruct (validate_source_tree self w) as [rv wv] eqn:Hv.
  assert (wv = w ∧ (rv = Ok tt →
            stat (files w) (source_directory self) = Some KDir
            ∧ stat (files w) (source_directory self // "configure") = Some KFile))
    as [-> Hsrc].
  { unfold validate_source_tree in Hv. run. run.
    case_bool_decide; simpl in Hv; [|by simplify_eq].
    case_bool_decide; simpl in Hv; by simplify_eq. }
  destruct rv as [[]|reason|e]; [|by intros [= <- <-]; split_and!; auto..].
  destruct (Hsrc eq_refl) as [Hdir Hconf].
  destruct (check_writable_dir E self (install_global_dir self) w) as [rc w1] eqn:Hc.
  destruct (check_writable_dir_frame _ _ _ _ _ _ Hc) as (Hran & _ & Hk).
  assert (Hprobe : rc = Ok tt →
            stat (files w) (install_global_dir self) = Some KDir
            ∧ refuses E (OpTouch (install_global_dir self // ".write_test")) = None
            ∧ refuses E (OpUnlink (install_global_dir self // ".write_test")) = None).
  { intros ->. unfold check_writable_dir, try_except, touch, unlink in Hc. run.
    case_bool_decide; simpl in Hc; [|done].
    destruct (refuses E (OpTouch _)) as [e|];
      [by destruct (is_class PermissionError e)|].
    split_and!; [done..|].
    destruct (need_parent_dir _ w) as [[[]| |e] wn];
      [|done|by destruct (is_class PermissionError e)].
    destruct (refuses E (OpUnlink _)) as [e|]; [|done].
    exfalso. revert Hc. clear.
    repeat (case_match; simplify_eq/=; try done). }
  destruct rc as [[]|reason|e]; [|by intros [= <- <-]; split_and!..].
  destruct (Hprobe eq_refl) as (Hroot & Htouch & Hunlink).
  unfold check_prefix_collision. run.
  case_bool_decide as Hex;
    [destruct (bool_decide _); by intros [= <- <-]; split_and!|].
  intros [= <- <-]. split_and!; [done..|]. intros _. split_and!; [done..|].
  destruct (stat (files w1) (install_version_dir self)); [|done].
  destruct Hex. eauto.
Qed.

(** What a successful [configure] shows about its start. *)
Lemma configure_ok_facts (self : Installer) (w w' : world) :
  install_version_dir self ≠ install_global_dir self // ".write_test" →
  configure E self w = (Ok tt, w') →
  stat (files w) (source_directory self) = Some KDir
  ∧ stat (files w) (source_directory self // "configure") = Some KFile
  ∧ stat (files w) (install_global_dir self) = Some KDir
  ∧ refuses E (OpTouch (install_global_dir self // ".write_test")) = None
  ∧ refuses E (OpUnlink (install_global_dir self // ".write_test")) = None
  ∧ stat (files w) (install_version_dir self) = None
  ∧ ran w' = configure_cmd self :: ran w.
Proof.
  intros Hne. unfold configure, bind.
  destruct (pre_install_step E self w) as [[[]| |] w1] eqn:Hpre; [|done..].
  destruct (pre_install_step_frame _ _ _ _ Hpre) as (Hran & Hk & Hgates).
  destruct (Hgates eq_refl) as (? & ? & ? & ? & ? & Hfree).
  intros Hrun%run_logged_ok_inv. split_and!; [done..| |].
  - unfold stat in *. destruct (Hk _ Hne) as [<-| ->]; done.
  - unfold configure_cmd. by rewrite Hrun, Hran.
Qed.

(** X15.  A [configure] that succeeds has passed every gate: the source
    directory is a directory and holds a regular file [configure]; the
    installation root is a directory in which the system refused neither
    the touch nor the unlink of the probe file; the prefix of the version
    did not exist.  And it has run exactly one command, the configure
    script with the permanent prefix as its [--prefix].  (For a prefix path
    that is neither the probe file nor a symbolic link.) *)
Theorem configure_ok_inv (self : Installer) (w w' : world) :
  install_version_dir self ≠ install_global_dir self // ".write_test" →
  (∀ t, files w !! install_version_dir self ≠ Some (Link t)) →
  configure E self w = (Ok tt, w') →
  stat (files w) (source_directory self) = Some KDir
  ∧ stat (files w) (source_directory self // "configure") = Some KFile
  ∧ stat (files w) (install_global_dir self) = Some KDir
  ∧ refuses E (OpTouch (install_global_dir self // ".write_test")) = None
  ∧ refuses E (OpUnlink (install_global_dir self // ".write_test")) = None
  ∧ stat (files w) (install_version_dir self) = None
  ∧ ran w' = configure_cmd self :: ran w.
Proof. intros Hne _. by apply configure_ok_facts. Qed.


End Steps.


Section InstallSteps.
Context (E : Env) (home python_source_directory : path) (v : string).
Let self := new_installer home python_source_directory v.




End InstallSteps.

Section InstallOverInstalled.
Context (E : Env) (home python_source_directory : path) (v : string).
Let self := new_installer home python_source_directory v.



End InstallOverInstalled.

(** ** More on the registry *)

Lemma substring_all (r : string) : String.substring 0 (String.length r) r = r.
Proof. induction r as [|c r IH]; simpl; [done|]. by rewrite IH. Qed.

Lemma substring_skip (a r : string) (n : nat) :
  String.substring (String.length a) n (a +:+ r) = String.substring 0 n r.
Proof. induction a as [|c a IH]; [done|]. rewrite str_app_cons. simpl. apply IH. Qed.

Lemma str_length_app (a r : string) :
  String.length (a +:+ r) = String.length a + String.length r.
Proof. induction a as [|c a IH]; [done|]. rewrite str_app_cons. simpl. by rewrite IH. Qed.

(** [removeprefix] undoes the prefix that [startswith] found. *)
Lemma removeprefix_startswith (s pre : string) :
  PyStr.startswith s pre = true → s = pre +:+ PyStr.removeprefix s pre.
Proof.
  unfold PyStr.startswith, PyStr.removeprefix. intros H. rewrite H.
  apply str_prefix_inv in H as [r ->].
  rewrite substring_skip, str_length_app.
  replace (String.length pre + String.length r - String.length pre)
    with (String.length r) by lia.
  by rewrite substring_all.
Qed.

Lemma children_child (m : fs) (p k : path) :
  k ∈ children m p → k = p // basename k.
Proof.
  unfold children. intros [(Hne & Hp) _]%list_elem_of_filter.
  subst p. unfold parent, child, basename.
  by apply app_removelast_last.
Qed.

Lemma dict_set_keys {V} (d : list (string * V)) (k : string) (v : V) (k' : string) :
  k' ∈ (dict_set d k v).*1 ↔ k' ∈ d.*1 ∨ k' = k.
Proof.
  induction d as [|[k0 v0] d IH]; simpl.
  - rewrite list_elem_of_singleton. split; [by right|]. intros [?%elem_of_nil|]; done.
  - destruct (String.eqb k0 k) eqn:Hk; simpl.
    + apply String.eqb_eq in Hk as ->. rewrite !elem_of_cons. tauto.
    + rewrite !elem_of_cons, IH. tauto.
Qed.

Lemma dict_set_NoDup {V} (d : list (string * V)) (k : string) (v : V) :
  NoDup d.*1 → NoDup (dict_set d k v).*1.
Proof.
  induction d as [|[k0 v0] d IH]; simpl.
  - intros _. apply NoDup_singleton.
  - intros [Hnot Hnd]%NoDup_cons. destruct (String.eqb k0 k) eqn:Hk; simpl.
    + apply String.eqb_eq in Hk as ->. by apply NoDup_cons.
    + apply String.eqb_neq in Hk. apply NoDup_cons. split; [|by apply IH].
      rewrite dict_set_keys. intros [?|?]; done.
Qed.

Section RegistryMore.
Context (E : Env) (home : path).

Lemma inspect_entry_some entry w v i :
  inspect_entry E entry w = (Ok (Some (v, i)), w) →
  stat (files w) entry = Some KDir
  ∧ PyStr.startswith (basename entry) "python-" = true.
Proof.
  unfold inspect_entry. run.
  case_bool_decide; simpl; [|done].
  destruct (PyStr.startswith (basename entry) "python-"); simpl; [|done]. done.
Qed.

(** Where the registry finds a listed version. *)
Lemma registry_entry_prefix (w : world)
    (installed : list (string * info)) (v : string) (i : info) :
  find_installed_versions E home w = (Ok installed, w) →
  (v, i) ∈ installed →
  prefix i = INSTALL_ROOT home // ("python-" +:+ v)
  ∧ stat (files w) (prefix i) = Some KDir.
Proof.
  intros Hreg Hin.
  destruct (installed_from_entry _ _ _ _ _ _ Hreg Hin) as (Hc & Hins).
  destruct (inspect_entry_some _ _ _ _ Hins) as (Hdir & Hpre).
  destruct (inspect_entry_spec E (prefix i) w) as (r & Hr & Hspec).
  rewrite Hr in Hins. injection Hins as ->.
  destruct (Hspec v i eq_refl) as (_ & Hv & _).
  split; [|done]. rewrite (children_child _ _ _ Hc) at 1. f_equal.
  rewrite Hv. by apply removeprefix_startswith.
Qed.

(** X18.  The registry and the removal commands agree on where a version
    lives: every version [v] the registry lists has the directory
    [python-v] directly in the installation root as its prefix, and that
    directory exists. *)
Theorem registry_prefix_of_version (w : world)
    (installed : list (string * info)) (v : string) (i : info) :
  find_installed_versions E home w = (Ok installed, w) →
  (v, i) ∈ installed →
  prefix i = INSTALL_ROOT home // ("python-" +:+ v)
  ∧ stat (files w) (prefix i) = Some KDir.
Proof. apply registry_entry_prefix. Qed.

Lemma find_installed_versions_loop_NoDup entries versions w d :
  find_installed_versions_loop E entries versions w = (Ok d, w) →
  NoDup versions.*1 → NoDup d.*1.
Proof.
  revert versions. induction entries as [|entry entries IH]; intros versions; simpl.
  { by intros [= <-]. }
  unfold bind. destruct (inspect_entry_spec E entry w) as (r & Hr & _). rewrite Hr.
  destruct r as [[v0 i0]|]; [|apply IH].
  intros H Hnd. apply (IH _ H). by apply dict_set_NoDup.
Qed.

(** The registry lists every version once. *)
Lemma registry_versions_distinct (w : world) (installed : list (string * info)) :
  find_installed_versions E home w = (Ok installed, w) →
  NoDup installed.*1.
Proof.
  unfold find_installed_versions. run.
  destruct (bool_decide _); simpl; [|intros [= <-]; apply NoDup_nil_2].
  intros H. apply (find_installed_versions_loop_NoDup _ _ _ _ H). apply NoDup_nil_2.
Qed.

(** The candidate loop keeps the record coherent. *)
Lemma probe_coherent v cands i w :
  (valid i = false ∧ python i = None ∧ runtime_version i = None) →
  ∃ i', probe E v cands i w = (Ok i', w) ∧
    ((valid i' = true ∧ is_Some (python i') ∧ runtime_version i' = Some v
      ∧ error i' = None)
     ∨ (valid i' = false ∧ python i' = None ∧ runtime_version i' = None)).
Proof.
  revert i. induction cands as [|c cands IH]; intros i Hi; simpl.
  { exists i. split; [done|]. by right. }
  destruct (x_ok E c); simpl; [|by apply IH].
  unfold bind. rewrite try_run_eq.
  destruct (spawn E [path_str c; "-c"; version_code]) as [[| |] out err|[] msg];
    try (by apply IH).
  destruct (String.eqb (PyStr.strip out) v) eqn:Heq; [|by apply IH].
  apply String.eqb_eq in Heq as ->. eexists. split; [done|]. left. simpl. eauto.
Qed.

(** X19.  Every registry entry is coherent: an entry marked valid names a
    binary, records as runtime version exactly the version of its
    directory, and carries no error; an entry marked invalid names no
    binary and no runtime version. *)
Theorem registry_entry_coherent (w : world) (installed : list (string * info))
    (v : string) (i : info) :
  find_installed_versions E home w = (Ok installed, w) →
  (v, i) ∈ installed →
  if valid i
  then is_Some (python i) ∧ runtime_version i = Some v ∧ error i = None
  else python i = None ∧ runtime_version i = None.
Proof.
  intros Hreg Hin.
  destruct (installed_from_entry _ _ _ _ _ _ Hreg Hin) as (_ & Hins).
  unfold inspect_entry, glob_prefix in Hins. run.
  destruct (bool_decide (stat (files w) (prefix i) = Some KDir)); simpl in Hins;
    [|done].
  destruct (PyStr.startswith (basename (prefix i)) "python-"); simpl in Hins;
    [|done].
  destruct (bool_decide (is_Some (stat (files w) (prefix i // "bin"))));
    simpl in Hins; [|injection Hins as _ Hi; by rewrite <- Hi].
  destruct (sorted _) as [|c cands] eqn:Hc;
    [injection Hins as _ Hi; by rewrite <- Hi|].
  set (v0 := PyStr.removeprefix (basename (prefix i)) "python-") in *.
  destruct (probe_coherent v0 (c :: cands)
              {| prefix := prefix i; python := None; runtime_version := None;
                 valid := false; activated := false; error := None |} w)
    as (i' & Hp & Hcoh); [done|].
  rewrite Hp in Hins. destruct (check_activated_pure E v0 w) as (b & Hb).
  rewrite Hb in Hins. injection Hins as Hv Hi. rewrite <- Hi, <- Hv. simpl.
  destruct Hcoh as [(-> & ? & ? & ?)|(-> & ? & ?)]; done.
Qed.

(** X20.  [check_activated] only reads, and it answers yes only when the
    version has at least a major and a minor part, [python<major>.<minor>]
    is found on the search path, that program runs, and what it reports is
    the version itself -- or, for a version without a patch part, starts
    with [<major>.<minor>.]. *)
Theorem check_activated_true_inv (v : string) (w w' : world) :
  check_activated E v w = (Ok true, w') →
  w' = w ∧
  ∃ major minor more exe out err,
    PyStr.split v "." = major :: minor :: more
    ∧ which E ("python" +:+ major +:+ "." +:+ minor) = Some exe
    ∧ spawn E [path_str exe; "-c"; version_code] = Exited 0 out err
    ∧ match more with
      | [] => PyStr.startswith (PyStr.strip out) (major +:+ "." +:+ minor +:+ ".") = true
      | _ :: _ => PyStr.strip out = v
      end.
Proof.
  unfold check_activated.
  destruct (PyStr.split v ".") as [|major [|minor more]] eqn:Hsplit; [done..|].
  destruct (which E _) as [exe|] eqn:Hwhich; [|done].
  unfold bind. rewrite try_run_eq.
  destruct (spawn E _) as [[| |] out err|[] msg] eqn:Hspawn; try done.
  destruct more as [|patch more]; simpl; intros [= Hres <-]; (split; [done|]);
    exists major, minor; eexists _, exe, out, err; split_and!; try done.
  by apply String.eqb_eq.
Qed.

End RegistryMore.

(** ** Cleaning, removing, reinstalling *)

Lemma undeletable_nil (refuse : fsop → option exn) (m : fs) (p : path) :
  (∀ k, refuse (OpUnlink k) = None) → undeletable refuse m p = [].
Proof.
  intros Hno. unfold undeletable.
  induction ((map_to_list m).*1) as [|k l IH]; [done|].
  rewrite filter_cons, decide_False; [done|].
  intros [_ [e He]]. by rewrite Hno in He.
Qed.

Section Removal.
Context (E : Env).

(** A guarded [rmtree] runs no command and changes nothing outside the
    tree it is given. *)
Lemma try_rmtree_frame p w r w' :
  try_except (rmtree E p >> ret true) is_Exception (λ _, ret false) w = (r, w') →
  ran w' = ran w ∧ (∀ k, ¬ under p k → files w' !! k = files w !! k).
Proof.
  unfold try_except, bind.
  destruct (rmtree E p w) as [rr w1] eqn:Hrm.
  destruct (rmtree_frame _ _ _ _ _ Hrm) as (Hran & Hna & Hf).
  assert (Hout : ∀ k, ¬ under p k → files w1 !! k = files w !! k).
  { intros k Hk. destruct Hf as [->| ->]; [done|]. by apply lookup_prune_outside. }
  destruct rr as [[]|reason|e]; simpl.
  - by intros [= <- <-].
  - by destruct (Hna reason).
  - destruct (is_Exception e); by intros [= <- <-].
Qed.

(** With nothing refused, a guarded [rmtree] of a directory removes it and
    all beneath it, and reports success. *)
Lemma try_rmtree_clean p w :
  files w !! p = Some Dir → (∀ k, refuses E (OpUnlink k) = None) →
  ∃ w', try_except (rmtree E p >> ret true) is_Exception (λ _, ret false) w
        = (Ok true, w')
    ∧ ran w' = ran w
    ∧ (∀ k, under p k → files w' !! k = None)
    ∧ (∀ k, ¬ under p k → files w' !! k = files w !! k).
Proof.
  intros Hp Hno. unfold try_except, bind, rmtree. run.
  rewrite Hp, (undeletable_nil _ _ _ Hno). simpl. eexists. split; [done|].
  simpl. split_and!; [done| |].
  - intros k Hk. apply lookup_prune_clean; [by apply undeletable_nil|done].
  - intros k Hk. by apply lookup_prune_outside.
Qed.

End Removal.

Section Clean.
Context (E : Env) (home : path).

Lemma cache_off_install_root k :
  under (INSTALL_ROOT home) k →
  ¬ under (SEVPY_CACHE home) k ∧ ¬ under (INSTALLER_STAGE home) k.
Proof.
  unfold INSTALL_ROOT, SEVPY_CACHE, INSTALLER_STAGE, child.
  rewrite <- !app_assoc. simpl. intros [a ->].
  split; intros [b Hb]; rewrite <- !app_assoc in Hb;
    apply app_inv_head in Hb; discriminate.
Qed.

(** X21.  [clean] runs no command and changes nothing outside the two
    cache directories; in particular every installed version, and all else
    beneath the installation root, is left as it was. *)
Theorem clean_spares_installations (w : world) (r : result bool) (w' : world) :
  clean E home w = (r, w') →
  ran w' = ran w
  ∧ (∀ k, ¬ under (SEVPY_CACHE home) k → ¬ under (INSTALLER_STAGE home) k →
          files w' !! k = files w !! k)
  ∧ (∀ k, under (INSTALL_ROOT home) k → files w' !! k = files w !! k).
Proof.
  intros Hc.
  assert (H : ran w' = ran w ∧
              ∀ k, ¬ under (SEVPY_CACHE home) k → ¬ under (INSTALLER_STAGE home) k →
                   files w' !! k = files w !! k).
  { unfold clean in Hc. simpl in Hc. unfold bind at 1, exists_, gets in Hc.
    assert (Hstep2 : ∀ b w1 r w',
      (let* ex := exists_ (INSTALLER_STAGE home) in
       if negb ex then ret b
       else let* ok := try_except (rmtree E (INSTALLER_STAGE home) >> ret true)
                         is_Exception (λ _, ret false) in
            ret (ok || b)) w1 = (r, w') →
      ran w' = ran w1 ∧
      ∀ k, ¬ under (INSTALLER_STAGE home) k → files w' !! k = files w1 !! k).
    { intros b w1 r1 w1'. unfold bind at 1, exists_, gets.
      destruct (bool_decide (is_Some (stat (files w1) (INSTALLER_STAGE home))));
        simpl; [|unfold ret; by intros [= <- <-]].
      unfold bind at 1.
      destruct (try_except _ _ _ w1) as [ro w2] eqn:Ht.
      apply try_rmtree_frame in Ht as (Hr & Hf).
      destruct ro; unfold ret; intros [= <- <-]; done. }
    destruct (bool_decide (is_Some (stat (files w) (SEVPY_CACHE home))));
      simpl in Hc.
    - unfold bind at 1 in Hc.
      destruct (try_except _ _ _ w) as [ro w1] eqn:Ht.
      apply try_rmtree_frame in Ht as (Hr & Hf).
      destruct ro as [ok| |];
        [|injection Hc as <- <-; (split; [done|]); intros k ? ?; by apply Hf..].
      apply Hstep2 in Hc as (Hr2 & Hf2). split; [congruence|].
      intros k H1 H2. by rewrite Hf2, Hf.
    - apply Hstep2 in Hc as (Hr2 & Hf2). split; [done|].
      intros k _ H2. by apply Hf2. }
  destruct H as (Hran & Hf). split_and!; [done..|].
  intros k Hk. destruct (cache_off_install_root k Hk). by apply Hf.
Qed.

(** X22.  When both cache directories are there and the system refuses no
    removal, [clean] reports that it removed something and nothing is left
    at or beneath either of them: the logs, the sources and every staging
    directory are gone. *)
Theorem clean_removes_caches (w : world) :
  files w !! SEVPY_CACHE home = Some Dir →
  files w !! INSTALLER_STAGE home = Some Dir →
  (∀ k, refuses E (OpUnlink k) = None) →
  ∃ w', clean E home w = (Ok true, w')
    ∧ ∀ k, under (SEVPY_CACHE home) k ∨ under (INSTALLER_STAGE home) k →
           files w' !! k = None.
Proof.
  intros Hc Hs Hno.
  destruct (try_rmtree_clean E _ w Hc Hno) as (w1 & H1 & _ & Hgone1 & Hkeep1).
  assert (Hs1 : files w1 !! INSTALLER_STAGE home = Some Dir).
  { rewrite Hkeep1; [done|].
    unfold INSTALLER_STAGE, SEVPY_CACHE, child. rewrite <- !app_assoc. simpl.
    intros [b Hb]. rewrite <- !app_assoc in Hb. apply app_inv_head in Hb.
    discriminate. }
  destruct (try_rmtree_clean E _ w1 Hs1 Hno) as (w2 & H2 & _ & Hgone2 & Hkeep2).
  exists w2. split.
  - unfold clean. simpl. unfold bind at 1, exists_, gets.
    rewrite bool_decide_eq_true_2 by (unfold stat; rewrite Hc; eauto). simpl.
    unfold bind at 1. rewrite H1. unfold bind at 1, exists_, gets.
    rewrite bool_decide_eq_true_2 by (unfold stat; rewrite Hs1; eauto). simpl.
    unfold bind at 1. by rewrite H2.
  - intros k [Hk|Hk]; [|by apply Hgone2].
    destruct (decide (under (INSTALLER_STAGE home) k)); [by apply Hgone2|].
    rewrite Hkeep2 by done. by apply Hgone1.
Qed.

(** X23.  For a version that holds no slash, so that [python-<version>]
    names one entry of the installation root: [remove_version] leaves the
    state untouched when the version is not installed, and when the user,
    asked to confirm, answers anything but [y]; in every case it runs no
    command and changes nothing outside the prefix of that one version. *)
Theorem remove_version_scope (version : string) (no_confirm : bool)
    (answer : string) (w : world) (r : result unit) (w' : world) :
  PyStr.contains "/" version = false →
  remove_version E home version no_confirm answer w = (r, w') →
  ran w' = ran w
  ∧ (∀ k, ¬ under (INSTALL_ROOT home // ("python-" +:+ version)) k →
          files w' !! k = files w !! k)
  ∧ (stat (files w) (INSTALL_ROOT home // ("python-" +:+ version)) = None
     ∨ (no_confirm = false ∧ lower (PyStr.strip answer) ≠ "y") →
     r = Ok tt ∧ w' = w).
Proof.
  intros _. unfold remove_version. run.
  case_bool_decide as Hex; simpl.
  2:{ intros [= <- <-]. done. }
  destruct (negb no_confirm && negb (String.eqb (lower (PyStr.strip answer)) "y"))
    eqn:Hask.
  { intros [= <- <-]. done. }
  destruct (rmtree E _ w) as [rr w1] eqn:Hrm.
  destruct (rmtree_frame _ _ _ _ _ Hrm) as (Hran & Hna & Hf).
  assert (Hout : ∀ k, ¬ under (INSTALL_ROOT home // ("python-" +:+ version)) k →
                      files w1 !! k = files w !! k).
  { intros k Hk. destruct Hf as [->| ->]; [done|]. by apply lookup_prune_outside. }
  assert (Hno : ¬ (stat (files w) (INSTALL_ROOT home // ("python-" +:+ version)) = None
                   ∨ no_confirm = false ∧ lower (PyStr.strip answer) ≠ "y")).
  { intros [Hn|[-> Hn]].
    - rewrite Hn in Hex. by destruct Hex.
    - simpl in Hask. apply negb_false_iff, String.eqb_eq in Hask. done. }
  destruct rr as [[]|reason|e].
  - intros [= <- <-]. done.
  - by destruct (Hna reason).
  - destruct (is_Exception e); intros [= <- <-]; done.
Qed.

(** X24.  Removal and registry fit together: after a confirmed
    [remove_version] of a version whose prefix is a real directory, with
    the system refusing no removal, nothing is left at or beneath the
    prefix and the registry no longer lists the version. *)
Theorem remove_version_unlists (version : string) (no_confirm : bool)
    (answer : string) (w : world) :
  files w !! (INSTALL_ROOT home // ("python-" +:+ version)) = Some Dir →
  no_confirm = true ∨ lower (PyStr.strip answer) = "y" →
  (∀ k, refuses E (OpUnlink k) = None) →
  ∃ w', remove_version E home version no_confirm answer w = (Ok tt, w')
    ∧ (∀ k, under (INSTALL_ROOT home // ("python-" +:+ version)) k →
            files w' !! k = None)
    ∧ ∀ installed i, find_installed_versions E home w' = (Ok installed, w') →
                     (version, i) ∉ installed.
Proof.
  intros Hp Hyes Hno.
  assert (Hrm : ∃ w', remove_version E home version no_confirm answer w = (Ok tt, w')
                  ∧ ∀ k, under (INSTALL_ROOT home // ("python-" +:+ version)) k →
                         files w' !! k = None).
  { unfold remove_version. run.
    rewrite bool_decide_eq_true_2 by (unfold stat; rewrite Hp; eauto). simpl.
    assert (negb no_confirm && negb (String.eqb (lower (PyStr.strip answer)) "y")
            = false) as ->.
    { destruct Hyes as [->| ->]; [done|]. by destruct no_confirm. }
    unfold rmtree. run. rewrite Hp, (undeletable_nil _ _ _ Hno). simpl.
    eexists. split; [done|]. simpl. intros k Hk.
    apply lookup_prune_clean; [by apply undeletable_nil|done]. }
  destruct Hrm as (w' & Hrm & Hgone). exists w'. split_and!; [done..|].
  intros installed i Hreg Hin.
  destruct (registry_entry_prefix E home _ _ _ _ Hreg Hin) as (Hpre & Hdir).
  rewrite Hpre in Hdir. unfold stat in Hdir. by rewrite Hgone in Hdir.
Qed.

(** X25.  For a version that holds no slash: [reinstall_version] gives up
    without touching anything and without calling [install] when the
    version is not installed and no check was waived, and when an installed
    version is not confirmed with [y] -- the prompt is shown even when the
    check was waived. *)
Theorem reinstall_version_stops (install : string → bool → bool → M unit)
    (version : string) (no_check enable_tkinter : bool) (answer : string)
    (w : world) :
  PyStr.contains "/" version = false →
  (stat (files w) (INSTALL_ROOT home // ("python-" +:+ version)) = None
   ∧ no_check = false)
  ∨ (is_Some (stat (files w) (INSTALL_ROOT home // ("python-" +:+ version)))
     ∧ lower (PyStr.strip answer) ≠ "y") →
  reinstall_version E home install version no_check enable_tkinter answer w
    = (Ok tt, w).
Proof.
  intros _. unfold reinstall_version. run. intros [[Hn ->]|[Hex Hans]].
  - rewrite Hn. by rewrite bool_decide_eq_false_2 by by intros [? ?].
  - rewrite (bool_decide_eq_true_2 _ Hex). rewrite andb_false_r. simpl.
    rewrite (bool_decide_eq_true_2 _ Hex).
    apply String.eqb_neq in Hans. by rewrite Hans.
Qed.

(** X26.  When [reinstall_version] does go on to [install] over an
    existing prefix, it has removed that prefix first: with the answer [y],
    the prefix a real directory and no removal refused, [install] is called
    with [reinstall=True] on a state where nothing is left at or beneath
    the prefix and everything else is as before. *)
Theorem reinstall_version_installs_fresh
    (install : string → bool → bool → M unit)
    (version : string) (no_check enable_tkinter : bool) (answer : string)
    (w : world) :
  files w !! (INSTALL_ROOT home // ("python-" +:+ version)) = Some Dir →
  lower (PyStr.strip answer) = "y" →
  (∀ k, refuses E (OpUnlink k) = None) →
  ∃ w1,
    reinstall_version E home install version no_check enable_tkinter answer w
      = install version true enable_tkinter w1
    ∧ ran w1 = ran w
    ∧ (∀ k, under (INSTALL_ROOT home // ("python-" +:+ version)) k →
            files w1 !! k = None)
    ∧ (∀ k, ¬ under (INSTALL_ROOT home // ("python-" +:+ version)) k →
            files w1 !! k = files w !! k).
Proof.
  intros Hp Hans Hno.
  destruct (try_rmtree_clean E _ w Hp Hno) as (w1 & H1 & Hran & Hgone & Hkeep).
  exists w1. split; [|done].
  unfold reinstall_version. unfold bind at 1, exists_, gets.
  rewrite bool_decide_eq_true_2 by (unfold stat; rewrite Hp; eauto).
  rewrite andb_false_r. unfold bind at 1.
  rewrite bool_decide_eq_true_2 by (unfold stat; rewrite Hp; eauto).
  rewrite Hans. simpl. unfold bind at 1. by rewrite H1.
Qed.

Lemma listed_elem installed version i :
  (version, i) ∈ installed → listed installed version = true.
Proof.
  induction installed as [|[v0 i0] installed IH]; simpl.
  - by intros ?%elem_of_nil.
  - intros [[= <- <-]|Hin]%elem_of_cons; [by rewrite String.eqb_refl|].
    destruct (String.eqb version v0); [done|by apply IH].
Qed.

(** X27.  The [install] command never installs over a version the registry
    lists, valid or broken: if [python-<version>] is listed, [main] returns
    without calling [install] and without changing anything. *)
Theorem main_install_skips_listed (install : string → bool → bool → M unit)
    (cmd version : string) (rest : list string) (w : world)
    (installed : list (string * info)) (i : info) :
  find_installed_versions E home w = (Ok installed, w) →
  (version, i) ∈ installed →
  main_install E home install (cmd :: version :: rest) w = (Ok tt, w).
Proof.
  intros Hreg Hin. unfold main_install, bind. rewrite Hreg.
  by rewrite (listed_elem _ _ _ Hin).
Qed.

End Clean.

(** ** Reading the key id and the command line *)

Lemma substring_is_prefix (n : nat) (r : string) :
  String.length (String.substring 0 n r) = n →
  ∃ t, r = String.substring 0 n r +:+ t.
Proof.
  revert r. induction n as [|n IH]; intros r; simpl.
  { intros _. exists r. by destruct r. }
  destruct r as [|c r]; simpl; [done|].
  intros [= Hlen]. destruct (IH r Hlen) as [t Ht]. exists t.
  rewrite str_app_cons. by f_equal.
Qed.

Lemma key_at_sound (s k : string) :
  key_at s = Some k →
  String.length k = 40
  ∧ forallb is_key_char (list_ascii_of_string k) = true
  ∧ String.prefix ("using RSA key " +:+ k) s = true.
Proof.
  unfold key_at. destruct (String.prefix "using RSA key " s) eqn:Hpre; [|done].
  destruct (_ && _) eqn:Hk; [|done]. intros [= <-].
  apply andb_prop in Hk as [Hlen Hchars]. apply Nat.eqb_eq in Hlen.
  split_and!; [done..|].
  apply str_prefix_inv in Hpre as [r ->].
  change 14 with (String.length "using RSA key ") in *.
  rewrite substring_skip in *.
  destruct (substring_is_prefix _ _ Hlen) as [t Ht].
  rewrite Ht at 2. rewrite <- str_app_assoc. apply str_prefix_app.
Qed.

(** X28.  A key id that [extract_key_id] returns is well formed and comes
    from the text: it has exactly forty characters, each a digit or a
    letter from A to F, and the text contains it right after the words
    [using RSA key]. *)
Theorem extract_key_id_sound (gpg_output k : string) :
  extract_key_id gpg_output = inr k →
  String.length k = 40
  ∧ forallb is_key_char (list_ascii_of_string k) = true
  ∧ PyStr.contains ("using RSA key " +:+ k) gpg_output = true.
Proof.
  unfold extract_key_id. destruct (search_key gpg_output) as [k'|] eqn:Hs; [|done].
  intros [= ->]. revert Hs.
  induction gpg_output as [|c s IH].
  - intros H. by vm_compute in H.
  - intros H.
    change (search_key (String c s))
      with (match key_at (String c s) with
            | Some k => Some k
            | None => search_key s
            end) in H.
    change (PyStr.contains ("using RSA key " +:+ k) (String c s))
      with (String.prefix ("using RSA key " +:+ k) (String c s)
            || PyStr.contains ("using RSA key " +:+ k) s).
    destruct (key_at (String c s)) as [k0|] eqn:Hk.
    + injection H as ->. apply key_at_sound in Hk as (? & ? & Hp).
      split_and!; [done..|]. by rewrite Hp.
    + apply IH in H as (? & ? & Hc). split_and!; [done..|].
      rewrite Hc. apply orb_true_r.
Qed.

(** X29.  What [main] keeps of the command line: the two flags sevpy knows
    survive the filter, every other argument that starts with a dash is
    dropped, and so is every argument that mentions [multiprocessing]. *)
Theorem main_args_filter (argv : list string) (a : string) :
  (In a (main_args argv) →
     In a (tail argv)
     ∧ (PyStr.startswith a "-" = true → a = "--yes" ∨ a = "--no-tk")
     ∧ PyStr.contains "multiprocessing" a = false)
  ∧ (In a (tail argv) → a = "--yes" ∨ a = "--no-tk" → In a (main_args argv)).
Proof.
  unfold main_args. rewrite filter_In. split.
  - intros [Hin Hkeep]. apply andb_prop in Hkeep as [Hflag Hmp].
    apply negb_true_iff in Hflag, Hmp. split_and!; [done| |].
    + intros Hdash. unfold is_pyinstaller_internal_flag in Hflag.
      rewrite Hdash in Hflag. simpl in Hflag.
      apply negb_false_iff, orb_prop in Hflag as [H|H];
        apply String.eqb_eq in H; auto.
    + unfold is_multiprocessing_reentry in Hmp.
      by apply orb_false_elim in Hmp as [[? _]%orb_false_elim _].
  - intros Hin [-> | ->]; (split; [done|]); vm_compute; reflexivity.
Qed.

(** * The further properties on the example machines *)

(** A run is its outcome paired with its final state. *)
Lemma run_is_pair {A : Type} (x : result A * world) (r : result A) :
  fst x = r → x = (r, snd x).
Proof. destruct x as [r0 w0]; simpl; intros ->; reflexivity. Qed.

Ltac is_its_own_result :=
  apply run_is_pair;
  lazymatch goal with
  | |- fst ?x = fst ?x => reflexivity
  | |- _ => by_computation
  end.

(** X1 on the staged tree of the calm machine, searched for the text
    [os]. *)
Lemma find_files_spec_witness :
  find_files Demo.staged (Literal "os") false Demo.staged_world =
    (if bool_decide (files Demo.staged_world !! Demo.staged = Some Dir)
     then Ok (filter (λ p, (false
                            || negb (bool_decide
                                       (∃ t, files Demo.staged_world !! p
                                             = Some (Link t))))
                           && bool_decide (stat (files Demo.staged_world) p
                                           = Some KFile)
                           && match Literal "os" with
                              | Literal name => PyStr.contains name (basename p)
                              | Compiled search => search (basename p)
                              end = true)
                     (rglob (files Demo.staged_world) Demo.staged))
     else Raise (Exn ValueError ("Not a directory: " +:+ path_str Demo.staged)),
     Demo.staged_world).
Proof.
  apply (find_files_spec Demo.staged (Literal "os") false Demo.staged_world).
  by_decision.
Defined.

(** There the one file found is [os.py], whose name contains the text. *)
Lemma find_files_finds_by_containment :
  find_files Demo.staged (Literal "os") false Demo.staged_world =
    (Ok [Demo.staged // "lib" // "os.py"], Demo.staged_world).
Proof. by_computation. Qed.

(** X2 on the calm machine: the installation root has no [.write_test]. *)
Lemma check_writable_dir_leaves_no_trace_witness :
  check_writable_dir Demo.calm Demo.self Demo.root Demo.staged_world
    = (Ok tt, Demo.staged_world).
Proof.
  apply (check_writable_dir_leaves_no_trace Demo.calm Demo.self Demo.root
           Demo.staged_world); by_computation.
Defined.

(** X3 on a machine whose installation root holds a [.write_test]. *)
Lemma check_writable_dir_removes_namesake_witness :
  check_writable_dir Demo.calm Demo.self Demo.root Bench.namesake_world
    = (Ok tt, World (delete (Demo.root // ".write_test")
                       (files Bench.namesake_world))
                    (ran Bench.namesake_world)).
Proof.
  apply (check_writable_dir_removes_namesake Demo.calm Demo.self Demo.root
           Bench.namesake_world (File "mine")); try by_computation;
    discriminate.
Defined.

(** X30 on a machine whose installation root holds a dangling link named
    [.write_test]: the probe creates the file the link leads to. *)
Lemma check_writable_dir_through_dangling_link_witness :
  check_writable_dir Bench.probe_link_env Demo.self Demo.root
    Bench.probe_link_world
    = (Ok tt, World (delete (Demo.root // ".write_test")
                       (<[Bench.victim := File EmptyString]>
                          (files Bench.probe_link_world)))
                    (ran Bench.probe_link_world)).
Proof.
  apply (check_writable_dir_through_dangling_link Bench.probe_link_env
           Demo.self Demo.root Bench.probe_link_world Bench.victim);
    by_computation.
Defined.

(** X4 on a source tree without its configure file. *)
Lemma configure_rejects_bad_source_witness :
  configure Demo.calm Demo.self Demo.leftover_world =
    (Abort (if bool_decide (stat (files Demo.leftover_world)
                              (source_directory Demo.self) = Some KDir)
            then "Invalid Python source tree (missing configure)"
            else "Python source directory does not exist"),
     Demo.leftover_world).
Proof.
  apply (configure_rejects_bad_source Demo.calm Demo.self Demo.leftover_world).
  right. by_decision.
Defined.

(** X5 on a machine where 3.12.2 is installed and its source tree is
    extracted again. *)
Lemma configure_stops_at_existing_prefix_witness :
  ∃ r w', configure Demo.calm (new_installer Demo.home Demo.source "3.12.2")
            Bench.installed_world = (r, w')
    ∧ r ≠ Ok tt
    ∧ ran w' = ran Bench.installed_world
    ∧ ∀ k, k ≠ install_global_dir (new_installer Demo.home Demo.source "3.12.2")
                 // ".write_test" →
           touch_target Demo.calm (files Bench.installed_world)
             (install_global_dir (new_installer Demo.home Demo.source "3.12.2")
              // ".write_test") ≠ Some k →
           files w' !! k = files Bench.installed_world !! k.
Proof.
  apply (configure_stops_at_existing_prefix Demo.calm Demo.home Demo.source
           "3.12.2" Bench.installed_world).
  - by_decision.
  - intros t. by_decision.
Defined.

(** There the source tree is accepted, the probe passes, and it is the
    collision check that stops [configure]. *)
Lemma configure_reaches_collision_check :
  fst (validate_source_tree Demo.self Bench.installed_world) = Ok tt
  ∧ fst (check_writable_dir Demo.calm Demo.self Demo.root Bench.installed_world)
    = Ok tt
  ∧ fst (configure Demo.calm Demo.self Bench.installed_world)
    = Abort ("Python 3.12.2 is already installed at " +:+ path_str Demo.permanent).
Proof. split_and!; by_computation. Qed.

(** X6 on a machine whose build tool exits with status 2. *)
Lemma run_logged_reports_exit_status_witness :
  _run_logged Bench.broken_make Demo.self ["make"] Demo.source "build.log"
    Bench.ready_world =
    (if bool_decide (2%Z = 0%Z) then Ok tt
     else Abort ("Command failed: " +:+ PyStr.join " " ["make"] +:+ nl +:+
                 "See log: " +:+ path_str (log_dir Demo.self // "build.log")),
     World (files (snd (write_text Bench.broken_make
                          (log_dir Demo.self // "build.log") EmptyString
                          Bench.ready_world)))
           (["make"] :: ran Bench.ready_world)).
Proof.
  apply (run_logged_reports_exit_status Bench.broken_make Demo.self ["make"]
           Demo.source "build.log" Bench.ready_world
           (snd (write_text Bench.broken_make (log_dir Demo.self // "build.log")
                   EmptyString Bench.ready_world))).
  - is_its_own_result.
  - reflexivity.
Defined.

(** X7 on a configured source tree. *)
Lemma staged_install_ok_inv_witness :
  is_Some (stat (files Bench.configured_world)
             (source_directory Demo.self // "Makefile"))
  ∧ stat (files Bench.configured_world) (staging_dir Demo.self) = None
  ∧ ran (snd (staged_install Bench.builder Demo.self true Bench.configured_world)) =
      ["make"; "altinstall"; "DESTDIR=" +:+ path_str (staging_dir Demo.self)]
      :: ran Bench.configured_world.
Proof.
  apply (staged_install_ok_inv Bench.builder Demo.self true Bench.configured_world
           (snd (staged_install Bench.builder Demo.self true Bench.configured_world))).
  is_its_own_result.
Defined.

(** X8 on the same tree: the Tk binding is the one thing stripped. *)
Lemma staged_install_without_tk_only_strips_witness :
  let w_tk := snd (staged_install Bench.builder Demo.self true Bench.configured_world) in
  let w' := snd (staged_install Bench.builder Demo.self false Bench.configured_world) in
  ran w' = ran w_tk ∧
  ∀ k, files w' !! k ≠ files w_tk !! k →
       (∃ data, files w_tk !! k = Some (File data))
       ∧ files w' !! k = None
       ∧ under (staged_prefix Demo.self) k ∧ k ≠ staged_prefix Demo.self
       ∧ tk_regex (basename k) = true.
Proof.
  apply (staged_install_without_tk_only_strips Bench.builder Demo.self
           Bench.configured_world
           (snd (staged_install Bench.builder Demo.self true Bench.configured_world))
           (fst (staged_install Bench.builder Demo.self false Bench.configured_world))
           (snd (staged_install Bench.builder Demo.self false Bench.configured_world))).
  - by_decision.
  - is_its_own_result.
  - is_its_own_result.
Defined.

(** There the binding is gone and the interpreter is not. *)
Lemma tk_binding_is_stripped :
  let w' := snd (staged_install Bench.builder Demo.self false Bench.configured_world) in
  files w' !! (Demo.staged // "lib" // "_tkinter.cpython-312.so") = None
  ∧ files w' !! (Demo.staged // "bin" // "python3.12") = Some (File "ELF").
Proof. intros w'. split; by_computation. Qed.

(** The pattern on names with a line feed: one that ends the name is
    passed over by [$], one inside the name is not matched by [.]. *)
Lemma tk_regex_line_feeds :
  tk_regex ("_tkinter.so" +:+ nl) = true
  ∧ tk_regex ("_tkinter" +:+ nl +:+ "x.so") = false
  ∧ tk_regex ("_tkinter.so" +:+ nl +:+ nl) = false
  ∧ tk_regex "_tkinter.cpython-312.so" = true
  ∧ tk_regex "_tkinter.so.bak" = false
  ∧ tk_regex "lib_tkinter.so" = false.
Proof. split_and!; by_computation. Qed.


(** X10 on the calm machine. *)
Lemma commit_leaves_rest_alone_witness :
  let w' := snd (commit_install Demo.calm Demo.self Demo.staged_world) in
  ran w' = ran Demo.staged_world ∧
  ∀ k, ¬ under (install_version_dir (new_installer Demo.home Demo.source "3.12.2")) k →
       ¬ under (staging_dir (new_installer Demo.home Demo.source "3.12.2")) k →
       ¬ under k (parent (install_version_dir
                            (new_installer Demo.home Demo.source "3.12.2"))) →
       files w' !! k = files Demo.staged_world !! k.
Proof.
  apply (commit_leaves_rest_alone Demo.calm Demo.home Demo.source "3.12.2"
           Demo.staged_world
           (snd (commit_install Demo.calm Demo.self Demo.staged_world))).
  - by_computation.
  - by_computation.
  - is_its_own_result.
Defined.


(** X12 on the machine with the dangling link. *)
Lemma verify_staging_read_only_witness :
  snd (verify_staging Demo.dangling_env Demo.self Demo.dangling_world)
    = Demo.dangling_world.
Proof.
  apply (verify_staging_read_only Demo.dangling_env Demo.self Demo.dangling_world
           (fst (verify_staging Demo.dangling_env Demo.self Demo.dangling_world))).
  is_its_own_result.
Defined.

(** X13 on the calm machine, where every path is its own real path. *)
Lemma verify_staging_accepts_contained_witness :
  verify_staging Demo.calm Demo.self Demo.staged_world = (Ok tt, Demo.staged_world).
Proof.
  apply (verify_staging_accepts_contained Demo.calm Demo.self Demo.staged_world
           (Demo.staged // "bin" // "python3.12")).
  - by_decision.
  - by_computation.
  - intros p Hp. exists p. split; [reflexivity|].
    by apply rglob_elem in Hp as (_ & ? & _).
Defined.

(** X14 on a machine that holds only the extracted source tree. *)
Lemma init_makes_directories_witness :
  let w' := snd (init Demo.calm Demo.home Demo.source "3.12.2" Bench.fresh_world) in
  Demo.self = new_installer Demo.home Demo.source "3.12.2"
  ∧ stat (files w') (log_dir Demo.self) = Some KDir
  ∧ stat (files w') (install_global_dir Demo.self) = Some KDir
  ∧ (∀ k n, files Bench.fresh_world !! k = Some n → files w' !! k = Some n)
  ∧ ran w' = ran Bench.fresh_world.
Proof.
  apply (init_makes_directories Demo.calm Demo.home Demo.source "3.12.2"
           Bench.fresh_world Demo.self
           (snd (init Demo.calm Demo.home Demo.source "3.12.2" Bench.fresh_world))).
  is_its_own_result.
Defined.

(** X15 on a machine ready for configure. *)
Lemma configure_ok_inv_witness :
  stat (files Bench.ready_world) (source_directory Demo.self) = Some KDir
  ∧ stat (files Bench.ready_world) (source_directory Demo.self // "configure")
    = Some KFile
  ∧ stat (files Bench.ready_world) (install_global_dir Demo.self) = Some KDir
  ∧ refuses Bench.builder (OpTouch (install_global_dir Demo.self // ".write_test"))
    = None
  ∧ refuses Bench.builder (OpUnlink (install_global_dir Demo.self // ".write_test"))
    = None
  ∧ stat (files Bench.ready_world) (install_version_dir Demo.self) = None
  ∧ ran (snd (configure Bench.builder Demo.self Bench.ready_world)) =
      configure_cmd Demo.self :: ran Bench.ready_world.
Proof.
  apply (configure_ok_inv Bench.builder Demo.self Bench.ready_world
           (snd (configure Bench.builder Demo.self Bench.ready_world))).
  - by_decision.
  - intros t. by_decision.
  - is_its_own_result.
Defined.



(** There the steps get as far as the collision check of [configure]. *)
Lemma install_steps_reach_collision_check :
  fst (install_steps Demo.calm Demo.home Demo.source "3.12.2" true
         Bench.installed_world)
  = Abort ("Python 3.12.2 is already installed at " +:+ path_str Demo.permanent).
Proof. by_computation. Qed.

(** X18 on the machine with a working 3.12.2 and a broken 3.11.0. *)
Lemma registry_prefix_of_version_witness :
  prefix (Build_info (Demo.root // "python-3.11.0") None None false false
            (Some "missing bin directory"))
    = INSTALL_ROOT Demo.home // ("python-" +:+ "3.11.0")
  ∧ stat (files Demo.two_prefixes_world)
      (prefix (Build_info (Demo.root // "python-3.11.0") None None false false
                 (Some "missing bin directory"))) = Some KDir.
Proof.
  apply (registry_prefix_of_version Demo.tagged_env Demo.home
           Demo.two_prefixes_world Demo.two_installed "3.11.0").
  - by_computation.
  - right. left.
Defined.

(** X19 on the same machine, for the valid entry. *)
Lemma registry_entry_coherent_witness :
  let i := Build_info (Demo.root // "python-3.12.2")
             (Some (Demo.root // "python-3.12.2" // "bin" // "python3.12"))
             (Some "3.12.2") true false None in
  if valid i
  then is_Some (python i) ∧ runtime_version i = Some "3.12.2" ∧ error i = None
  else python i = None ∧ runtime_version i = None.
Proof.
  apply (registry_entry_coherent Demo.tagged_env Demo.home
           Demo.two_prefixes_world Demo.two_installed "3.12.2").
  - by_computation.
  - left.
Defined.

(** X20 on a machine whose search path leads to a 3.12.2. *)
Lemma check_activated_true_inv_witness :
  Bench.fresh_world = Bench.fresh_world ∧
  ∃ major minor more exe out err,
    PyStr.split "3.12.2" "." = major :: minor :: more
    ∧ which Bench.activated_env ("python" +:+ major +:+ "." +:+ minor) = Some exe
    ∧ spawn Bench.activated_env [path_str exe; "-c"; version_code] = Exited 0 out err
    ∧ match more with
      | [] => PyStr.startswith (PyStr.strip out) (major +:+ "." +:+ minor +:+ ".") = true
      | _ :: _ => PyStr.strip out = "3.12.2"
      end.
Proof.
  apply (check_activated_true_inv Bench.activated_env "3.12.2" Bench.fresh_world
           Bench.fresh_world).
  by_computation.
Defined.

(** X21 on a machine with caches and one installed version. *)
Lemma clean_spares_installations_witness :
  let w' := snd (clean Demo.calm Demo.home Bench.cached_world) in
  ran w' = ran Bench.cached_world
  ∧ (∀ k, ¬ under (SEVPY_CACHE Demo.home) k → ¬ under (INSTALLER_STAGE Demo.home) k →
          files w' !! k = files Bench.cached_world !! k)
  ∧ (∀ k, under (INSTALL_ROOT Demo.home) k →
          files w' !! k = files Bench.cached_world !! k).
Proof.
  apply (clean_spares_installations Demo.calm Demo.home Bench.cached_world
           (fst (clean Demo.calm Demo.home Bench.cached_world))
           (snd (clean Demo.calm Demo.home Bench.cached_world))).
  is_its_own_result.
Defined.

(** X22 on the same machine. *)
Lemma clean_removes_caches_witness :
  ∃ w', clean Demo.calm Demo.home Bench.cached_world = (Ok true, w')
    ∧ ∀ k, under (SEVPY_CACHE Demo.home) k ∨ under (INSTALLER_STAGE Demo.home) k →
           files w' !! k = None.
Proof.
  apply (clean_removes_caches Demo.calm Demo.home Bench.cached_world).
  - by_computation.
  - by_computation.
  - intros k. reflexivity.
Defined.

(** X23 on the machine with two prefixes: the removal of 3.11.0, which
    was asked for with [--yes]. *)
Lemma remove_version_scope_witness :
  let r := fst (remove_version Demo.calm Demo.home "3.11.0" true EmptyString
                  Demo.two_prefixes_world) in
  let w' := snd (remove_version Demo.calm Demo.home "3.11.0" true EmptyString
                   Demo.two_prefixes_world) in
  ran w' = ran Demo.two_prefixes_world
  ∧ (∀ k, ¬ under (INSTALL_ROOT Demo.home // ("python-" +:+ "3.11.0")) k →
          files w' !! k = files Demo.two_prefixes_world !! k)
  ∧ (stat (files Demo.two_prefixes_world)
       (INSTALL_ROOT Demo.home // ("python-" +:+ "3.11.0")) = None
     ∨ (true = false ∧ lower (PyStr.strip EmptyString) ≠ "y") →
     r = Ok tt ∧ w' = Demo.two_prefixes_world).
Proof.
  apply (remove_version_scope Demo.calm Demo.home "3.11.0" true EmptyString
           Demo.two_prefixes_world).
  - by_computation.
  - is_its_own_result.
Defined.

(** There the prefix of 3.11.0 is gone and that of 3.12.2 is not; and an
    answer of [y] followed by a no-break space is a yes. *)
Lemma remove_version_removes_one_prefix :
  let w' := snd (remove_version Demo.calm Demo.home "3.11.0" true EmptyString
                   Demo.two_prefixes_world) in
  files w' !! (Demo.root // "python-3.11.0") = None
  ∧ files w' !! (Demo.root // "python-3.11.0" // "README") = None
  ∧ files w' !! (Demo.root // "python-3.12.2" // "bin" // "python3.12")
    = Some (File "ELF")
  ∧ lower (PyStr.strip ("y" +:+ String (ascii_of_nat 194)
                                 (String (ascii_of_nat 160) EmptyString))) = "y".
Proof. intros w'. split_and!; by_computation. Qed.

(** X24 on the same machine: the broken 3.11.0 is removed for good. *)
Lemma remove_version_unlists_witness :
  ∃ w', remove_version Demo.tagged_env Demo.home "3.11.0" true "n"
          Demo.two_prefixes_world = (Ok tt, w')
    ∧ (∀ k, under (INSTALL_ROOT Demo.home // ("python-" +:+ "3.11.0")) k →
            files w' !! k = None)
    ∧ ∀ installed i,
        find_installed_versions Demo.tagged_env Demo.home w' = (Ok installed, w') →
        ("3.11.0", i) ∉ installed.
Proof.
  apply (remove_version_unlists Demo.tagged_env Demo.home "3.11.0" true "n"
           Demo.two_prefixes_world).
  - by_computation.
  - by left.
  - intros k. reflexivity.
Defined.

(** X25 on the machine with two prefixes: 3.11.0 is installed, the check
    is waived, and the answer is no. *)
Lemma reinstall_version_stops_witness :
  reinstall_version Demo.calm Demo.home Bench.no_install "3.11.0" true true "n"
    Demo.two_prefixes_world = (Ok tt, Demo.two_prefixes_world).
Proof.
  apply (reinstall_version_stops Demo.calm Demo.home Bench.no_install "3.11.0"
           true true "n" Demo.two_prefixes_world).
  - by_computation.
  - right. split; by_decision.
Defined.

(** X26 on the machine with two prefixes. *)
Lemma reinstall_version_installs_fresh_witness :
  ∃ w1,
    reinstall_version Demo.calm Demo.home Bench.no_install "3.11.0" true true "Y"
      Demo.two_prefixes_world
      = Bench.no_install "3.11.0" true true w1
    ∧ ran w1 = ran Demo.two_prefixes_world
    ∧ (∀ k, under (INSTALL_ROOT Demo.home // ("python-" +:+ "3.11.0")) k →
            files w1 !! k = None)
    ∧ (∀ k, ¬ under (INSTALL_ROOT Demo.home // ("python-" +:+ "3.11.0")) k →
            files w1 !! k = files Demo.two_prefixes_world !! k).
Proof.
  apply (reinstall_version_installs_fresh Demo.calm Demo.home Bench.no_install
           "3.11.0" true true "Y" Demo.two_prefixes_world).
  - by_computation.
  - by_computation.
  - intros k. reflexivity.
Defined.

(** X27 on the same machine: the broken 3.11.0 blocks [install]. *)
Lemma main_install_skips_listed_witness :
  main_install Demo.tagged_env Demo.home Bench.no_install
    ("install" :: "3.11.0" :: []) Demo.two_prefixes_world
    = (Ok tt, Demo.two_prefixes_world).
Proof.
  apply (main_install_skips_listed Demo.tagged_env Demo.home Bench.no_install
           "install" "3.11.0" [] Demo.two_prefixes_world Demo.two_installed
           (Build_info (Demo.root // "python-3.11.0") None None false false
              (Some "missing bin directory"))).
  - by_computation.
  - right. left.
Defined.

(** X28 on what gpg prints for a missing key. *)
Lemma extract_key_id_sound_witness :
  String.length "7169605F62C751356D054A26A821E680E5FA6305" = 40
  ∧ forallb is_key_char
      (list_ascii_of_string "7169605F62C751356D054A26A821E680E5FA6305") = true
  ∧ PyStr.contains ("using RSA key " +:+ "7169605F62C751356D054A26A821E680E5FA6305")
      Bench.gpg_output = true.
Proof.
  apply (extract_key_id_sound Bench.gpg_output
           "7169605F62C751356D054A26A821E680E5FA6305").
  by_computation.
Defined.
